(** * Kow Kartel backend: booking lifecycle, conflict detection, pricing

    A shallow embedding of the booking core of the rental backend:
    - [src/services/booking.service.ts]   (class [BookingService]),
    - [src/services/payment.service.ts]   (class [PaymentService]),
    - [src/repositories/booking.repository.ts] and the payment repository,
    - [src/models/booking.model.ts] (schema validators).

    Conventions of the embedding.
    - A JavaScript [Date] is its time value, an integer number of
      milliseconds since the epoch ([Z]).  Local time is taken to be UTC, so
      [setHours(0,0,0,0)] truncates to a multiple of [msPerDay].
    - A JavaScript [number] that holds money or a quotient is an exact
      rational ([Q]); rounding of IEEE doubles is outside the model.
    - A MongoDB collection is a finite map from [_id] to document.
    - Ids travel as strings ([IdString]).  Requests and the caller's
      [userId] carry the text of a well-formed ObjectId; [String(x)] of a
      path that a query has populated is the text of a document, never the
      text of an id, and a driver call that is handed such a text throws.
    - [async] methods are functions in a state-and-error monad over the
      three collections; every [new Date()] of one call reads the same
      clock value [now], passed as an argument. *)

From Stdlib Require Import ZArith QArith Qround Lia String Ascii.
From stdpp Require Import base option list gmap strings sorting.

Local Open Scope string_scope.
Local Open Scope Z_scope.

(** ** JavaScript dates *)

Module JSDate.

Definition Date := Z.

Definition msPerDay : Z := 1000 * 60 * 60 * 24.
Definition msPerHour : Z := 1000 * 60 * 60.

Definition Day (t : Date) : Z := t / msPerDay.
Definition TimeWithinDay (t : Date) : Z := t mod msPerDay.
Definition MakeDate (day time : Z) : Date := day * msPerDay + time.

(** Proleptic Gregorian calendar: day number since 1970-01-01 to
    (year, month 0..11, day of month 1..31) and back. *)
Definition civil_from_days (z : Z) : Z * Z * Z :=
  let z := z + 719468 in
  let era := z / 146097 in
  let doe := z - era * 146097 in
  let yoe := (doe - doe / 1460 + doe / 36524 - doe / 146096) / 365 in
  let y := yoe + era * 400 in
  let doy := doe - (365 * yoe + yoe / 4 - yoe / 100) in
  let mp := (5 * doy + 2) / 153 in
  let d := doy - (153 * mp + 2) / 5 + 1 in
  let m := if mp <? 10 then mp + 2 else mp - 10 in
  (if m <=? 1 then y + 1 else y, m, d).

Definition days_from_civil (y m : Z) : Z :=
  let y := if m <=? 1 then y - 1 else y in
  let era := y / 400 in
  let yoe := y - era * 400 in
  let mp := if m <=? 1 then m + 10 else m - 2 in
  let doy := (153 * mp + 2) / 5 in
  let doe := yoe * 365 + yoe / 4 - yoe / 100 + doy in
  era * 146097 + doe - 719468.

Definition YearFromTime (t : Date) : Z := (civil_from_days (Day t)).1.1.
Definition MonthFromTime (t : Date) : Z := (civil_from_days (Day t)).1.2.
Definition DateFromTime (t : Date) : Z := (civil_from_days (Day t)).2.

(** [MakeDay(year, month, date)]: months outside 0..11 carry into the
    year, days outside the month carry into the following months. *)
Definition MakeDay (year month date : Z) : Z :=
  days_from_civil (year + month / 12) (month mod 12) + date - 1.

(** [d.setHours(0, 0, 0, 0)] *)
Definition setHours0 (t : Date) : Date := MakeDate (Day t) 0.

Definition getFullYear (t : Date) : Z := YearFromTime t.

(** [d.setFullYear(y)] keeps month, day of month and time of day. *)
Definition setFullYear (t : Date) (y : Z) : Date :=
  MakeDate (MakeDay y (MonthFromTime t) (DateFromTime t)) (TimeWithinDay t).

(** Midnight (UTC) of a calendar day, for writing examples. *)
Definition midnight (year month date : Z) : Date :=
  MakeDate (MakeDay year (month - 1) date) 0.

End JSDate.
Import JSDate.

(** ** Errors ([src/utils/errorHandler.ts]) *)

Inductive AppError : Type :=
  | ValidationError (message : string)
  | AuthorizationError (message : string)
  | NotFoundError (message : string)
  | ConflictError (message : string)
  | DatabaseError (message : string)
  | ExternalServiceError (message : string).

Inductive Result (A : Type) : Type :=
  | Ok (a : A)
  | Err (e : AppError).
Arguments Ok {A} a.
Arguments Err {A} e.

(** ** Date Range Validator: [BookingService.validateBookingDates] *)

Definition msgPast : string := "Start date cannot be in the past".
Definition msgEndBeforeStart : string := "End date must be after start date".
Definition msgTooFar : string :=
  "Start date cannot be more than 1 year in the future".

Definition validateBookingDates (now : Date) (startDate endDate : Date)
  : Result unit :=
  let now0 := setHours0 now in
  let start := setHours0 startDate in
  let end_ := setHours0 endDate in
  if start <? now0 then Err (ValidationError msgPast)
  else if end_ <=? start then Err (ValidationError msgEndBeforeStart)
  else
    let maxDate := setFullYear now (getFullYear now + 1) in
    if start >? maxDate then Err (ValidationError msgTooFar)
    else Ok tt.

(** ** Data model ([src/models/*.model.ts]) *)

(** An ObjectId, as a natural number. *)
Abbreviation ObjectId := nat (only parsing).

Inductive BookingStatus := PENDING | CONFIRMED | ACTIVE | COMPLETED | CANCELLED.
Inductive PaymentStatus := P_PENDING | P_SUCCEEDED | P_FAILED | P_REFUNDED.
Inductive EquipmentStatus := AVAILABLE | MAINTENANCE | RETIRED.

#[global] Instance BookingStatus_eq_dec : EqDecision BookingStatus.
Proof. solve_decision. Defined.
#[global] Instance PaymentStatus_eq_dec : EqDecision PaymentStatus.
Proof. solve_decision. Defined.
#[global] Instance EquipmentStatus_eq_dec : EqDecision EquipmentStatus.
Proof. solve_decision. Defined.

(** A string that stands where an id is expected.  [Hex id] is the
    24-digit text of the ObjectId [id]: what a request carries, and what
    [String(x)] gives for a path that holds an ObjectId.  [PopulatedText
    ref] is what [String(x)] gives for a path that [populate] has replaced
    by the document it refers to: the inspect text of that document, or
    [null] when the reference dangles.  It is never the text of an id, so
    it differs from every [Hex id], and [new ObjectId(...)] or a query cast
    of it throws. *)
Inductive IdString :=
  | Hex (id : ObjectId)
  | PopulatedText (ref : ObjectId).

(** An ObjectId written where a string is expected is its text. *)
Coercion Hex : ObjectId >-> IdString.

#[global] Instance IdString_eq_dec : EqDecision IdString.
Proof. solve_decision. Defined.

(** The document's [_id] is the key under which the collection holds it.
    A record holds its references as they are stored.  The queries that
    [populate] a path ([findById], [updateById] and [updateStatus] of the
    booking repository for [customerId] and [equipmentId]; [findById],
    [updateStatus] and [setRefund] of the payment repository for
    [bookingId]) return the referenced document in its place: a service
    that takes [String(...)] of such a path gets a [PopulatedText]. *)
Module Booking.
Record IBooking := {
  customerId : ObjectId;
  equipmentId : ObjectId;
  startDate : Date;
  endDate : Date;
  deliveryAddress : string;
  status : BookingStatus;
  totalAmount : Q;
  notes : option string;
  createdAt : Date;
  updatedAt : Date;
}.
End Booking.
Import Booking.

Module Payment.
Record IPayment := {
  bookingId : ObjectId;
  stripePaymentIntentId : string;
  amount : Q;
  status : PaymentStatus;
  refundAmount : option Q;
  refundDate : option Date;
  updatedAt : Date;
}.
End Payment.

Module Equipment.
Record IEquipment := {
  dailyRate : Q;
  status : EquipmentStatus;
}.
End Equipment.

(** Request payloads of the booking service. *)
Module CreateBookingData.
Record t := {
  customerId : ObjectId;
  equipmentId : ObjectId;
  startDate : Date;
  endDate : Date;
  deliveryAddress : string;
  notes : option string;
}.
End CreateBookingData.

Module UpdateBookingData.
Record t := {
  startDate : option Date;
  endDate : option Date;
  deliveryAddress : option string;
  notes : option string;
  status : option BookingStatus;
  totalAmount : option Q;
}.
End UpdateBookingData.

(** Events pushed to the websocket layer ([src/websockets/events.ts]);
    the emitters catch their own failures. *)
Inductive Event :=
  | BookingCreated (id : ObjectId)
  | BookingUpdated (id : ObjectId)
  | BookingCancelled (id : ObjectId)
  | BookingConfirmed (id : ObjectId)
  | PaymentSucceeded (id : ObjectId)
  | PaymentFailed (id : ObjectId)
  | PaymentRefunded (id : ObjectId).

Record World := {
  bookings : gmap ObjectId IBooking;
  payments : gmap ObjectId Payment.IPayment;
  equipment : gmap ObjectId Equipment.IEquipment;
  emitted : list Event;
}.

Definition setBookings (f : gmap ObjectId IBooking -> gmap ObjectId IBooking)
  (w : World) : World :=
  {| bookings := f (bookings w); payments := payments w;
     equipment := equipment w; emitted := emitted w |}.

Definition setPayments
  (f : gmap ObjectId Payment.IPayment -> gmap ObjectId Payment.IPayment)
  (w : World) : World :=
  {| bookings := bookings w; payments := f (payments w);
     equipment := equipment w; emitted := emitted w |}.

Definition addEvent (e : Event) (w : World) : World :=
  {| bookings := bookings w; payments := payments w;
     equipment := equipment w; emitted := emitted w ++ [e] |}.

(** ** The monad of service calls: state of the collections, and errors.
    A thrown error keeps the writes made before it (no transaction). *)

Definition M (A : Type) : Type := World -> Result A * World.

Definition ret {A} (a : A) : M A := fun w => (Ok a, w).
Definition throw {A} (e : AppError) : M A := fun w => (Err e, w).
Definition bind {A B} (c : M A) (k : A -> M B) : M B :=
  fun w => match c w with
           | (Ok a, w') => k a w'
           | (Err e, w') => (Err e, w')
           end.
Definition gets {A} (f : World -> A) : M A := fun w => (Ok (f w), w).
Definition modify (f : World -> World) : M unit := fun w => (Ok tt, f w).
Definition liftR {A} (r : Result A) : M A := fun w => (r, w).
(** [try { c } catch (error) { throw h(error) }] *)
Definition catchWith {A} (c : M A) (h : AppError -> AppError) : M A :=
  fun w => match c w with
           | (Ok a, w') => (Ok a, w')
           | (Err e, w') => (Err (h e), w')
           end.

Notation "'let*' x ':=' c 'in' k" := (bind c (fun x => k))
  (at level 10, x name, c at level 100, k at level 200).
Notation "'do*' c 'in' k" := (bind c (fun _ => k))
  (at level 10, c at level 100, k at level 200).

Definition emit (e : Event) : M unit := modify (addEvent e).

(** ** Schema validators of the booking model *)

Definition isWhite (c : ascii) : bool :=
  let n := nat_of_ascii c in
  (Nat.eqb n 32 || (Nat.leb 9 n && Nat.leb n 13))%bool.

Fixpoint trimStart (s : string) : string :=
  match s with
  | String c s' => if isWhite c then trimStart s' else s
  | EmptyString => EmptyString
  end.

Fixpoint trimEnd (s : string) : string :=
  match s with
  | String c s' =>
      match trimEnd s' with
      | EmptyString => if isWhite c then EmptyString else String c EmptyString
      | t => String c t
      end
  | EmptyString => EmptyString
  end.

(** [trim: true] on [notes] (ASCII white space). *)
Definition trim (s : string) : string := trimEnd (trimStart s).

Definition nonEmpty (s : string) : bool :=
  match s with EmptyString => false | _ => true end.

(** [startDate.validate]: [value >= new Date()] *)
Definition startDateValidator (now value : Date) : bool := value >=? now.
(** [endDate.validate]: [value > this.startDate] *)
Definition endDateValidator (thisStartDate : option Date) (value : Date) : bool :=
  match thisStartDate with
  | Some s => value >? s
  | None => false   (* comparison with [undefined] *)
  end.
(** [totalAmount.min]: 0 *)
Definition totalAmountValidator (value : Q) : bool := Qle_bool 0 value.

(** ** Booking repository ([src/repositories/booking.repository.ts]) *)

Module bookingRepository.

(** [new Booking(bookingData).save()]: document validation, then insert
    under a fresh [_id]; any failure surfaces as [DatabaseError]. *)
Definition create (now : Date) (bookingData : IBooking)
  : M (ObjectId * IBooking) :=
  fun w =>
    if (startDateValidator now (startDate bookingData)
        && endDateValidator (Some (startDate bookingData)) (endDate bookingData)
        && nonEmpty (deliveryAddress bookingData)
        && totalAmountValidator (totalAmount bookingData))%bool
    then
      let id := fresh (dom (bookings w)) in
      let doc := {| customerId := customerId bookingData;
                    equipmentId := equipmentId bookingData;
                    startDate := startDate bookingData;
                    endDate := endDate bookingData;
                    deliveryAddress := deliveryAddress bookingData;
                    status := Booking.status bookingData;
                    totalAmount := totalAmount bookingData;
                    notes := trim <$> notes bookingData;
                    createdAt := now;
                    updatedAt := now |} in
      (Ok (id, doc), setBookings (insert id doc) w)
    else (Err (DatabaseError "Failed to create booking"), w).

(** [Booking.findById(id).populate('customerId', ...)
                          .populate('equipmentId', ...)]; an [id] that is
    not the text of an ObjectId makes the query throw, which surfaces as
    [DatabaseError]. *)
Definition findById (id : IdString) : M (option IBooking) :=
  match id with
  | Hex id => gets (fun w => bookings w !! id)
  | PopulatedText _ => throw (DatabaseError "Failed to find booking")
  end.

Definition withStatus (now : Date) (s : BookingStatus) (b : IBooking)
  : IBooking :=
  {| customerId := customerId b; equipmentId := equipmentId b;
     startDate := startDate b; endDate := endDate b;
     deliveryAddress := deliveryAddress b; status := s;
     totalAmount := totalAmount b; notes := notes b;
     createdAt := createdAt b; updatedAt := now |}.

(** [findByIdAndUpdate(id, { $set: { status } }, { new: true })] *)
Definition updateStatus (now : Date) (id : IdString) (s : BookingStatus)
  : M IBooking :=
  match id with
  | Hex id =>
      fun w =>
        match bookings w !! id with
        | Some b =>
            let b' := withStatus now s b in
            (Ok b', setBookings (insert id b') w)
        | None => (Err (NotFoundError "Booking not found"), w)
        end
  | PopulatedText _ => throw (DatabaseError "Failed to update booking status")
  end.

Section UpdateById.
(** Under [runValidators: true] the validators of the paths being
    [$set] run before the write.  What [this.startDate] denotes inside
    the [endDate] validator during an update (a field of the stored
    document, of the patch, or [undefined] on the query object) is
    decided by the ODM, not by this repository: it is a parameter,
    given the stored document and the patch. *)
Variable thisStartDate : option IBooking -> UpdateBookingData.t -> option Date.

Definition updateValidators (now : Date) (stored : option IBooking)
  (updateData : UpdateBookingData.t) : bool :=
  (from_option (startDateValidator now) true
     (UpdateBookingData.startDate updateData)
   && from_option (endDateValidator (thisStartDate stored updateData)) true
        (UpdateBookingData.endDate updateData)
   && from_option nonEmpty true (UpdateBookingData.deliveryAddress updateData)
   && from_option totalAmountValidator true
        (UpdateBookingData.totalAmount updateData))%bool.

(** [{ $set: updateData }]: absent keys leave the field as it is. *)
Definition applySet (now : Date) (updateData : UpdateBookingData.t)
  (b : IBooking) : IBooking :=
  {| customerId := customerId b;
     equipmentId := equipmentId b;
     startDate := default (startDate b) (UpdateBookingData.startDate updateData);
     endDate := default (endDate b) (UpdateBookingData.endDate updateData);
     deliveryAddress :=
       default (deliveryAddress b) (UpdateBookingData.deliveryAddress updateData);
     status := default (Booking.status b) (UpdateBookingData.status updateData);
     totalAmount :=
       default (totalAmount b) (UpdateBookingData.totalAmount updateData);
     notes := match UpdateBookingData.notes updateData with
              | Some n => Some (trim n)
              | None => notes b
              end;
     createdAt := createdAt b;
     updatedAt := now |}.

(** [findByIdAndUpdate(id, { $set: updateData },
                       { new: true, runValidators: true })] *)
Definition updateById (now : Date) (id : IdString)
  (updateData : UpdateBookingData.t) : M IBooking :=
  match id with
  | Hex id =>
      fun w =>
        if updateValidators now (bookings w !! id) updateData then
          match bookings w !! id with
          | Some b =>
              let b' := applySet now updateData b in
              (Ok b', setBookings (insert id b') w)
          | None => (Err (NotFoundError "Booking not found"), w)
          end
        else (Err (DatabaseError "Failed to update booking"), w)
  | PopulatedText _ => throw (DatabaseError "Failed to update booking")
  end.
End UpdateById.

Definition deleteById (id : IdString) : M unit :=
  match id with
  | Hex id =>
      fun w =>
        match bookings w !! id with
        | Some _ => (Ok tt, setBookings (delete id) w)
        | None => (Err (NotFoundError "Booking not found"), w)
        end
  | PopulatedText _ => throw (DatabaseError "Failed to delete booking")
  end.

Definition isActiveStatus (s : BookingStatus) : bool :=
  bool_decide (s ∈ [PENDING; CONFIRMED; ACTIVE]).

(** The three clauses of the [$or] in [checkConflict], for a candidate
    window [startDate_, endDate_] against a stored window [s', e']. *)
Definition orClauses (startDate_ endDate_ s' e' : Date) : bool :=
  ((s' <=? startDate_) && (e' >=? startDate_)
   || (s' <=? endDate_) && (e' >=? endDate_)
   || (s' >=? startDate_) && (e' <=? endDate_))%bool.

Definition conflictQuery (equipmentId_ : ObjectId) (startDate_ endDate_ : Date)
  (excludeBookingId : option ObjectId) (id : ObjectId) (b : IBooking) : bool :=
  (bool_decide (equipmentId b = equipmentId_)
   && isActiveStatus (Booking.status b)
   && orClauses startDate_ endDate_ (startDate b) (endDate b)
   && match excludeBookingId with
      | Some x => bool_decide (id ≠ x)
      | None => true
      end)%bool.

Definition countDocuments (query : ObjectId -> IBooking -> bool)
  (m : gmap ObjectId IBooking) : nat :=
  length (filter (fun kv => query kv.1 kv.2 = true) (map_to_list m)).

(** [new mongoose.Types.ObjectId(equipmentId)] throws on a text that is
    not an id; the [catch] makes it a [DatabaseError]. *)
Definition checkConflict (equipmentId_ : IdString) (startDate_ endDate_ : Date)
  (excludeBookingId : option ObjectId) : M bool :=
  match equipmentId_ with
  | Hex equipmentId_ =>
      gets (fun w =>
        let count := countDocuments
          (conflictQuery equipmentId_ startDate_ endDate_ excludeBookingId)
          (bookings w) in
        (0 <? count)%nat)
  | PopulatedText _ => throw (DatabaseError "Failed to check booking conflict")
  end.

(** The order of [sort({ createdAt: -1 })]. *)
Definition newerFirst (x y : ObjectId * IBooking) : Prop :=
  createdAt y.2 <= createdAt x.2.

#[global] Instance newerFirst_dec : RelDecision newerFirst.
Proof. intros x y. unfold newerFirst. apply _. Defined.

(** [Booking.find({ customerId }).sort({ createdAt: -1 })]: the customer's
    documents, newest first. *)
Definition findByCustomerId (customerId_ : IdString)
  : M (list (ObjectId * IBooking)) :=
  match customerId_ with
  | Hex customerId_ =>
      gets (fun w =>
        merge_sort newerFirst
          (filter (fun kv => customerId kv.2 = customerId_)
                  (map_to_list (bookings w))))
  | PopulatedText _ => throw (DatabaseError "Failed to fetch customer bookings")
  end.

End bookingRepository.

Module equipmentRepository.
Definition findById (id : IdString) : M (option Equipment.IEquipment) :=
  match id with
  | Hex id => gets (fun w => equipment w !! id)
  | PopulatedText _ => throw (DatabaseError "Failed to find equipment")
  end.

Definition setEquipment
  (f : gmap ObjectId Equipment.IEquipment -> gmap ObjectId Equipment.IEquipment)
  (w : World) : World :=
  {| bookings := bookings w; payments := payments w;
     equipment := f (equipment w); emitted := emitted w |}.

(** [findByIdAndUpdate(id, { $set: updateData },
                       { new: true, runValidators: true })], on the two
    fields of the equipment that the booking core reads.  [dailyRate] has
    [min: 0]. *)
Definition updateById (id : IdString)
  (dailyRate_ : option Q) (status_ : option EquipmentStatus)
  : M Equipment.IEquipment :=
  match id with
  | Hex id =>
      fun w =>
        if from_option (Qle_bool 0) true dailyRate_ then
          match equipment w !! id with
          | Some eq =>
              let eq' :=
                {| Equipment.dailyRate :=
                     default (Equipment.dailyRate eq) dailyRate_;
                   Equipment.status := default (Equipment.status eq) status_ |} in
              (Ok eq', setEquipment (insert id eq') w)
          | None => (Err (NotFoundError "Equipment not found"), w)
          end
        else (Err (DatabaseError "Failed to update equipment"), w)
  | PopulatedText _ => throw (DatabaseError "Failed to update equipment")
  end.

Definition deleteById (id : IdString) : M unit :=
  match id with
  | Hex id =>
      fun w =>
        match equipment w !! id with
        | Some _ => (Ok tt, setEquipment (delete id) w)
        | None => (Err (NotFoundError "Equipment not found"), w)
        end
  | PopulatedText _ => throw (DatabaseError "Failed to delete equipment")
  end.
End equipmentRepository.

(** ** Payment repository *)

Module paymentRepository.
Import Payment.

(** [Payment.findById(id).populate('bookingId')] *)
Definition findById (id : IdString) : M (option IPayment) :=
  match id with
  | Hex id => gets (fun w => payments w !! id)
  | PopulatedText _ => throw (DatabaseError "Failed to find payment")
  end.

(** [Payment.findOne({ stripePaymentIntentId })], not populated. *)
Definition findByStripePaymentIntentId (intent : string)
  : M (option (ObjectId * IPayment)) :=
  gets (fun w =>
    head (filter (fun kv => stripePaymentIntentId kv.2 = intent)
                 (map_to_list (payments w)))).

Definition withStatus (now : Date) (s : PaymentStatus) (p : IPayment)
  : IPayment :=
  {| bookingId := bookingId p;
     stripePaymentIntentId := stripePaymentIntentId p;
     amount := amount p; status := s;
     refundAmount := refundAmount p; refundDate := refundDate p;
     updatedAt := now |}.

Definition updateStatus (now : Date) (id : IdString) (s : PaymentStatus)
  : M IPayment :=
  match id with
  | Hex id =>
      fun w =>
        match payments w !! id with
        | Some p =>
            let p' := withStatus now s p in
            (Ok p', setPayments (insert id p') w)
        | None => (Err (NotFoundError "Payment not found"), w)
        end
  | PopulatedText _ => throw (DatabaseError "Failed to update payment status")
  end.

Definition setRefund (now : Date) (id : IdString) (refundAmount_ : Q)
  : M IPayment :=
  match id with
  | Hex id =>
      fun w =>
        match payments w !! id with
        | Some p =>
            let p' := {| bookingId := bookingId p;
                         stripePaymentIntentId := stripePaymentIntentId p;
                         amount := amount p; status := P_REFUNDED;
                         refundAmount := Some refundAmount_;
                         refundDate := Some now;
                         updatedAt := now |} in
            (Ok p', setPayments (insert id p') w)
        | None => (Err (NotFoundError "Payment not found"), w)
        end
  | PopulatedText _ => throw (DatabaseError "Failed to set refund")
  end.

(** [Payment.findOne({ bookingId: new ObjectId(bookingId) })], not
    populated. *)
Definition findByBookingId (bookingId_ : IdString)
  : M (option (ObjectId * IPayment)) :=
  match bookingId_ with
  | Hex bookingId_ =>
      gets (fun w =>
        head (filter (fun kv => bookingId kv.2 = bookingId_)
                     (map_to_list (payments w))))
  | PopulatedText _ =>
      throw (DatabaseError "Failed to find payment by booking ID")
  end.

(** [new Payment(paymentData).save()]: [stripePaymentIntentId] is required
    and [unique], [amount] has [min: 0]; any failure surfaces as
    [DatabaseError]. *)
Definition create (now : Date) (paymentData : IPayment)
  : M (ObjectId * IPayment) :=
  fun w =>
    if (nonEmpty (stripePaymentIntentId paymentData)
        && Qle_bool 0 (amount paymentData)
        && bool_decide
             (Forall (fun kv : ObjectId * IPayment =>
                        stripePaymentIntentId kv.2
                        <> stripePaymentIntentId paymentData)
                     (map_to_list (payments w))))%bool
    then
      let id := fresh (dom (payments w)) in
      let doc := {| bookingId := bookingId paymentData;
                    stripePaymentIntentId := stripePaymentIntentId paymentData;
                    amount := amount paymentData;
                    status := status paymentData;
                    refundAmount := refundAmount paymentData;
                    refundDate := refundDate paymentData;
                    updatedAt := now |} in
      (Ok (id, doc), setPayments (insert id doc) w)
    else (Err (DatabaseError "Failed to create payment"), w).

(** The [$sum] of the [amount]s of a list of payments. *)
Definition sumAmounts (l : list (ObjectId * IPayment)) : Q :=
  foldr (fun kv acc => (amount kv.2 + acc)%Q) 0%Q l.

(** [Payment.aggregate([{ $match: { status: SUCCEEDED } },
                        { $group: { _id: null, total: { $sum: '$amount' } } }])],
    then [result.length > 0 ? result[0].total : 0]. *)
Definition getTotalRevenue : M Q :=
  gets (fun w =>
    let matched := filter (fun kv : ObjectId * IPayment => status kv.2 = P_SUCCEEDED)
                          (map_to_list (payments w)) in
    if (0 <? length matched)%nat then sumAmounts matched else 0%Q).
End paymentRepository.

(** ** Booking service ([src/services/booking.service.ts]) *)


Definition Qltb (x y : Q) : bool := negb (Qle_bool y x).

Definition equipmentStatusName (s : EquipmentStatus) : string :=
  match s with
  | AVAILABLE => "available"
  | MAINTENANCE => "maintenance"
  | RETIRED => "retired"
  end.

Definition bookingStatusName (s : BookingStatus) : string :=
  match s with
  | PENDING => "pending"
  | CONFIRMED => "confirmed"
  | ACTIVE => "active"
  | COMPLETED => "completed"
  | CANCELLED => "cancelled"
  end.

Definition msgMinDuration : string := "Booking must be at least 1 day".
Definition msgBooked : string :=
  "Equipment is already booked for the selected dates".
Definition msg24h : string :=
  "Bookings must be cancelled at least 24 hours before the start date".

(** [Math.ceil((endDate.getTime() - startDate.getTime()) / (1000*60*60*24))] *)
Definition bookingDays (startDate_ endDate_ : Date) : Z :=
  Qceiling (inject_Z (endDate_ - startDate_) / inject_Z msPerDay).

(** The arithmetic of [calculateTotalAmount], after the equipment lookup. *)
Definition computeAmount (dailyRate_ : Q) (startDate_ endDate_ : Date)
  : Result Q :=
  let days := bookingDays startDate_ endDate_ in
  if days <? 1 then Err (ValidationError msgMinDuration)
  else Ok (dailyRate_ * inject_Z days)%Q.

Definition calculateTotalAmount (equipmentId_ : IdString)
  (startDate_ endDate_ : Date) : M Q :=
  let* equipment_ := equipmentRepository.findById equipmentId_ in
  match equipment_ with
  | None => throw (NotFoundError "Equipment not found")
  | Some eq => liftR (computeAmount (Equipment.dailyRate eq) startDate_ endDate_)
  end.

Definition createBooking (now : Date) (data : CreateBookingData.t)
  : M (ObjectId * IBooking) :=
  do* liftR (validateBookingDates now (CreateBookingData.startDate data)
                                     (CreateBookingData.endDate data)) in
  let* equipment_ :=
    equipmentRepository.findById (CreateBookingData.equipmentId data) in
  match equipment_ with
  | None => throw (NotFoundError "Equipment not found")
  | Some eq =>
      if negb (bool_decide (Equipment.status eq = AVAILABLE)) then
        throw (ValidationError
                 ("Equipment is currently "
                    ++ equipmentStatusName (Equipment.status eq)))
      else
        let* hasConflict :=
          bookingRepository.checkConflict
            (CreateBookingData.equipmentId data)
            (CreateBookingData.startDate data)
            (CreateBookingData.endDate data) None in
        if hasConflict then throw (ConflictError msgBooked)
        else
          let* totalAmount_ :=
            calculateTotalAmount
              (CreateBookingData.equipmentId data)
              (CreateBookingData.startDate data)
              (CreateBookingData.endDate data) in
          let* booking :=
            bookingRepository.create now
              {| customerId := CreateBookingData.customerId data;
                 equipmentId := CreateBookingData.equipmentId data;
                 startDate := CreateBookingData.startDate data;
                 endDate := CreateBookingData.endDate data;
                 deliveryAddress := CreateBookingData.deliveryAddress data;
                 notes := CreateBookingData.notes data;
                 totalAmount := totalAmount_;
                 status := PENDING;
                 createdAt := now; updatedAt := now |} in
          do* emit (BookingCreated booking.1) in
          ret booking
  end.

Definition isOperatorRole (userRole : string) : bool :=
  (String.eqb userRole "admin" || String.eqb userRole "logistics")%bool.

Definition cancelBooking (now : Date) (id userId : ObjectId) (userRole : string)
  : M IBooking :=
  let* booking_ := bookingRepository.findById id in
  match booking_ with
  | None => throw (NotFoundError "Booking not found")
  | Some booking =>
      (* [findById] has populated [customerId] *)
      let customerId_ := PopulatedText (customerId booking) in
      if (negb (String.eqb userRole "admin")
          && bool_decide (customerId_ ≠ Hex userId))%bool then
        throw (AuthorizationError "You can only cancel your own bookings")
      else if bool_decide (Booking.status booking = COMPLETED) then
        throw (ValidationError "Cannot cancel completed booking")
      else if bool_decide (Booking.status booking = CANCELLED) then
        throw (ValidationError "Booking is already cancelled")
      else
        let hoursUntilStart : Q :=
          (inject_Z (startDate booking - now) / inject_Z msPerHour)%Q in
        if (Qltb hoursUntilStart 24 && negb (String.eqb userRole "admin"))%bool
        then throw (ValidationError msg24h)
        else
          let* cancelledBooking :=
            bookingRepository.updateStatus now id CANCELLED in
          do* emit (BookingCancelled id) in
          ret cancelledBooking
  end.

Definition confirmBooking (now : Date) (id : ObjectId) : M IBooking :=
  let* booking_ := bookingRepository.findById id in
  match booking_ with
  | None => throw (NotFoundError "Booking not found")
  | Some booking =>
      if bool_decide (Booking.status booking ≠ PENDING) then
        throw (ValidationError
                 ("Cannot confirm booking with status: "
                    ++ bookingStatusName (Booking.status booking)))
      else
        let* confirmedBooking :=
          bookingRepository.updateStatus now id CONFIRMED in
        do* emit (BookingConfirmed id) in
        ret confirmedBooking
  end.

Definition startBooking (now : Date) (id : ObjectId) : M IBooking :=
  let* booking_ := bookingRepository.findById id in
  match booking_ with
  | None => throw (NotFoundError "Booking not found")
  | Some booking =>
      if bool_decide (Booking.status booking ≠ CONFIRMED) then
        throw (ValidationError "Only confirmed bookings can be started")
      else if now <? startDate booking then
        throw (ValidationError "Cannot start booking before the start date")
      else bookingRepository.updateStatus now id ACTIVE
  end.

Definition completeBooking (now : Date) (id : ObjectId) : M IBooking :=
  let* booking_ := bookingRepository.findById id in
  match booking_ with
  | None => throw (NotFoundError "Booking not found")
  | Some booking =>
      if bool_decide (Booking.status booking ≠ ACTIVE) then
        throw (ValidationError "Only active bookings can be completed")
      else bookingRepository.updateStatus now id COMPLETED
  end.

Definition deleteBooking (id : ObjectId) : M unit :=
  let* booking_ := bookingRepository.findById id in
  match booking_ with
  | None => throw (NotFoundError "Booking not found")
  | Some booking =>
      if (bool_decide (Booking.status booking ≠ PENDING)
          && bool_decide (Booking.status booking ≠ CANCELLED))%bool then
        throw (ValidationError
          "Only pending or cancelled bookings can be deleted. Cancel the booking first.")
      else bookingRepository.deleteById id
  end.

Definition checkAvailability (now : Date) (equipmentId_ : ObjectId)
  (startDate_ endDate_ : Date) : M bool :=
  do* liftR (validateBookingDates now startDate_ endDate_) in
  let* equipment_ := equipmentRepository.findById equipmentId_ in
  match equipment_ with
  | None => throw (NotFoundError "Equipment not found")
  | Some eq =>
      if negb (bool_decide (Equipment.status eq = AVAILABLE)) then ret false
      else
        let* hasConflict :=
          bookingRepository.checkConflict equipmentId_ startDate_ endDate_ None in
        ret (negb hasConflict)
  end.

Section UpdateBooking.
Variable thisStartDate : option IBooking -> UpdateBookingData.t -> option Date.

Definition withTotalAmount (a : Q) (data : UpdateBookingData.t)
  : UpdateBookingData.t :=
  {| UpdateBookingData.startDate := UpdateBookingData.startDate data;
     UpdateBookingData.endDate := UpdateBookingData.endDate data;
     UpdateBookingData.deliveryAddress := UpdateBookingData.deliveryAddress data;
     UpdateBookingData.notes := UpdateBookingData.notes data;
     UpdateBookingData.status := UpdateBookingData.status data;
     UpdateBookingData.totalAmount := Some a |}.

Definition updateBooking (now : Date) (id : ObjectId)
  (data : UpdateBookingData.t) (userId : ObjectId) (userRole : string)
  : M IBooking :=
  let* booking_ := bookingRepository.findById id in
  match booking_ with
  | None => throw (NotFoundError "Booking not found")
  | Some booking =>
      (* [findById] has populated [customerId] and [equipmentId] *)
      let customerId_ := PopulatedText (customerId booking) in
      let equipmentId_ := PopulatedText (equipmentId booking) in
      if (negb (String.eqb userRole "admin")
          && negb (String.eqb userRole "logistics")
          && bool_decide (customerId_ ≠ Hex userId))%bool then
        throw (AuthorizationError "You can only update your own bookings")
      else if (bool_decide (Booking.status booking = COMPLETED)
               || bool_decide (Booking.status booking = CANCELLED))%bool then
        throw (ValidationError
                 ("Cannot update " ++ bookingStatusName (Booking.status booking)
                    ++ " booking. Contact support for assistance."))
      else
        let startDate_ :=
          default (startDate booking) (UpdateBookingData.startDate data) in
        let endDate_ :=
          default (endDate booking) (UpdateBookingData.endDate data) in
        let* data' :=
          if (bool_decide (is_Some (UpdateBookingData.startDate data))
              || bool_decide (is_Some (UpdateBookingData.endDate data)))%bool
          then
            do* liftR (validateBookingDates now startDate_ endDate_) in
            let* hasConflict :=
              bookingRepository.checkConflict
                equipmentId_ startDate_ endDate_ (Some id) in
            if hasConflict then throw (ConflictError msgBooked)
            else
              let* totalAmount_ :=
                calculateTotalAmount equipmentId_ startDate_ endDate_ in
              ret (withTotalAmount totalAmount_ data)
          else ret data in
        let* updatedBooking :=
          bookingRepository.updateById thisStartDate now id data' in
        do* emit (BookingUpdated id) in
        ret updatedBooking
  end.
End UpdateBooking.

(** ** Payment service ([src/services/payment.service.ts]) *)

Module RefundPaymentData.
Record t := {
  paymentId : ObjectId;
  amount : option Q;
}.
End RefundPaymentData.

(** Webhook [payment_intent.succeeded]. *)
Definition handlePaymentSuccess (now : Date) (paymentIntentId : string)
  : M unit :=
  let* payment_ :=
    paymentRepository.findByStripePaymentIntentId paymentIntentId in
  match payment_ with
  | None => ret tt
  | Some (pid, payment) =>
      let* updatedPayment :=
        paymentRepository.updateStatus now pid P_SUCCEEDED in
      (* [findOne] does not populate: [String(payment.bookingId)] is the id *)
      let* updatedBooking :=
        bookingRepository.updateStatus now
          (Hex (Payment.bookingId payment)) CONFIRMED in
      do* emit (PaymentSucceeded pid) in
      do* emit (BookingConfirmed (Payment.bookingId payment)) in
      ret tt
  end.

(** Webhook [payment_intent.payment_failed]. *)
Definition handlePaymentFailure (now : Date) (paymentIntentId : string)
  : M unit :=
  let* payment_ :=
    paymentRepository.findByStripePaymentIntentId paymentIntentId in
  match payment_ with
  | None => ret tt
  | Some (pid, payment) =>
      let* updatedPayment := paymentRepository.updateStatus now pid P_FAILED in
      (* [findOne] does not populate: [String(payment.bookingId)] is the id *)
      let* booking :=
        bookingRepository.findById (Hex (Payment.bookingId payment)) in
      match booking with
      | Some _ => emit (PaymentFailed pid)
      | None => ret tt
      end
  end.

(** [stripe.refunds.create]: the gateway's answer is an input of the call. *)
Definition stripeRefundsCreate (accepted : bool) : M unit :=
  if accepted then ret tt else throw (ExternalServiceError "stripe.refunds.create").

Definition refundPayment (now : Date) (gatewayAccepts : bool)
  (data : RefundPaymentData.t) : M Payment.IPayment :=
  let paymentId := RefundPaymentData.paymentId data in
  let* payment_ := paymentRepository.findById paymentId in
  match payment_ with
  | None => throw (NotFoundError "Payment not found")
  | Some payment =>
      if (bool_decide (Payment.status payment ≠ P_SUCCEEDED)
          && bool_decide (Payment.status payment ≠ P_REFUNDED))%bool then
        throw (ValidationError "Only successful payments can be refunded")
      else if bool_decide (Payment.status payment = P_REFUNDED) then
        throw (ValidationError "Payment has already been refunded")
      else
        catchWith
          ((* [amount || payment.amount] *)
           let refundAmount_ :=
             match RefundPaymentData.amount data with
             | Some a => if Qeq_bool a 0 then Payment.amount payment else a
             | None => Payment.amount payment
             end in
           do* stripeRefundsCreate gatewayAccepts in
           let* updatedPayment :=
             paymentRepository.setRefund now paymentId refundAmount_ in
           (* [paymentRepository.findById] has populated [bookingId] *)
           let bookingId_ := PopulatedText (Payment.bookingId payment) in
           do* (if Qle_bool (Payment.amount payment) refundAmount_ then
                  do* bookingRepository.updateStatus now bookingId_ CANCELLED in
                  ret tt
                else ret tt) in
           let* booking := bookingRepository.findById bookingId_ in
           do* match booking with
               | Some _ => emit (PaymentRefunded paymentId)
               | None => ret tt
               end in
           ret updatedPayment)
          (fun _ => ExternalServiceError "Failed to process refund")
  end.

(** ** Interleaving of [createBooking] calls

    [createBooking] is an [async] method: it gives up control at each
    [await], and another request handler may run before it resumes.  A call
    in progress is a task; one step runs it from one [await] to the next,
    reading or writing the collections once. *)

Inductive CreateTask :=
  | Called (data : CreateBookingData.t)
  | Validated (data : CreateBookingData.t)
              (equipment_ : option Equipment.IEquipment)
  | Checked (data : CreateBookingData.t) (hasConflict : bool)
  | Priced (data : CreateBookingData.t) (totalAmount_ : Q)
  | Returned (r : Result (ObjectId * IBooking)).

Definition stepCreate (now : Date) (t : CreateTask) (w : World)
  : CreateTask * World :=
  match t with
  | Called data =>
      (* validateBookingDates; await equipmentRepository.findById *)
      match validateBookingDates now (CreateBookingData.startDate data)
                                     (CreateBookingData.endDate data) with
      | Err e => (Returned (Err e), w)
      | Ok _ =>
          match equipmentRepository.findById
                  (CreateBookingData.equipmentId data) w with
          | (Ok eq_, w') => (Validated data eq_, w')
          | (Err e, w') => (Returned (Err e), w')
          end
      end
  | Validated data equipment_ =>
      (* existence and status; await bookingRepository.checkConflict *)
      match equipment_ with
      | None => (Returned (Err (NotFoundError "Equipment not found")), w)
      | Some eq =>
          if negb (bool_decide (Equipment.status eq = AVAILABLE)) then
            (Returned (Err (ValidationError
               ("Equipment is currently "
                  ++ equipmentStatusName (Equipment.status eq)))), w)
          else
            match bookingRepository.checkConflict
                    (CreateBookingData.equipmentId data)
                    (CreateBookingData.startDate data)
                    (CreateBookingData.endDate data) None w with
            | (Ok c, w') => (Checked data c, w')
            | (Err e, w') => (Returned (Err e), w')
            end
      end
  | Checked data hasConflict =>
      (* conflict decision; await this.calculateTotalAmount *)
      if hasConflict then (Returned (Err (ConflictError msgBooked)), w)
      else
        match calculateTotalAmount
                (CreateBookingData.equipmentId data)
                (CreateBookingData.startDate data)
                (CreateBookingData.endDate data) w with
        | (Ok a, w') => (Priced data a, w')
        | (Err e, w') => (Returned (Err e), w')
        end
  | Priced data totalAmount_ =>
      (* await bookingRepository.create; emit; return *)
      match bookingRepository.create now
              {| customerId := CreateBookingData.customerId data;
                 equipmentId := CreateBookingData.equipmentId data;
                 startDate := CreateBookingData.startDate data;
                 endDate := CreateBookingData.endDate data;
                 deliveryAddress := CreateBookingData.deliveryAddress data;
                 notes := CreateBookingData.notes data;
                 totalAmount := totalAmount_;
                 status := PENDING;
                 createdAt := now; updatedAt := now |} w with
      | (Ok booking, w') =>
          (Returned (Ok booking), addEvent (BookingCreated booking.1) w')
      | (Err e, w') => (Returned (Err e), w')
      end
  | Returned r => (Returned r, w)
  end.

Fixpoint runCreate (now : Date) (fuel : nat) (t : CreateTask) (w : World)
  : CreateTask * World :=
  match fuel with
  | O => (t, w)
  | S fuel' => let '(t', w') := stepCreate now t w in runCreate now fuel' t' w'
  end.

(** Two requests in flight; the scheduler picks which one resumes. *)
Inductive Turn := First | Second.

Record Racing := {
  task1 : CreateTask;
  task2 : CreateTask;
  store : World;
}.

(** One scheduler decision: the clock value and the request that resumes. *)
Definition stepRacing (r : Racing) (turn : Date * Turn) : Racing :=
  match turn with
  | (now, First) =>
      let '(t1, w) := stepCreate now (task1 r) (store r) in
      {| task1 := t1; task2 := task2 r; store := w |}
  | (now, Second) =>
      let '(t2, w) := stepCreate now (task2 r) (store r) in
      {| task1 := task1 r; task2 := t2; store := w |}
  end.

Definition runRacing (schedule : list (Date * Turn)) (r : Racing) : Racing :=
  fold_left stepRacing schedule r.

(** Both requests are called on [w]; nothing has run yet. *)
Definition race (d1 d2 : CreateBookingData.t) (w : World) : Racing :=
  {| task1 := Called d1; task2 := Called d2; store := w |}.

(** The first request runs to its return before the second is resumed. *)
Definition oneAfterTheOther (now1 now2 : Date) : list (Date * Turn) :=
  replicate 4 (now1, First) ++ replicate 4 (now2, Second).

Definition succeeded (t : CreateTask) : bool :=
  match t with Returned (Ok _) => true | _ => false end.

(** Inclusive overlap of the windows of two requests. *)
Definition windowsOverlap (d1 d2 : CreateBookingData.t) : Prop :=
  CreateBookingData.startDate d1 <= CreateBookingData.endDate d2
  /\ CreateBookingData.startDate d2 <= CreateBookingData.endDate d1.

(** The request a task in progress is serving. *)
Definition requestOf (t : CreateTask) : option CreateBookingData.t :=
  match t with
  | Called d | Validated d _ | Checked d _ | Priced d _ => Some d
  | Returned _ => None
  end.

(** The task has found no conflict and has not persisted yet. *)
Definition pastCheck (t : CreateTask) : bool :=
  match t with
  | Checked _ false | Priced _ _ => true
  | _ => false
  end.

(** The task has not run its conflict check, or it has failed. *)
Definition beforeCheck (t : CreateTask) : bool :=
  match t with
  | Called _ | Validated _ _ | Checked _ true | Returned (Err _) => true
  | _ => false
  end.

(** The reservation persisted for request [d] is in the store. *)
Definition persisted (d : CreateBookingData.t) (w : World) (t : CreateTask) : Prop :=
  match t with
  | Returned (Ok (id, b)) =>
      bookings w !! id = Some b
      /\ Booking.status b = PENDING
      /\ equipmentId b = CreateBookingData.equipmentId d
      /\ startDate b = CreateBookingData.startDate d
      /\ endDate b = CreateBookingData.endDate d
  | _ => True
  end.

(** What holds of a race as long as the two requests have never both been
    between their conflict check and their persist. *)
Definition raceInv (d1 d2 : CreateBookingData.t) (r : Racing) : Prop :=
  (forall d, requestOf (task1 r) = Some d -> d = d1)
  /\ (forall d, requestOf (task2 r) = Some d -> d = d2)
  /\ persisted d1 (store r) (task1 r)
  /\ persisted d2 (store r) (task2 r)
  /\ (succeeded (task1 r) = true -> beforeCheck (task2 r) = true)
  /\ (succeeded (task2 r) = true -> beforeCheck (task1 r) = true).

(** A date at day granularity: a midnight, no time of day. *)
Definition dayGranular (t : Date) : Prop := TimeWithinDay t = 0.

(** ** Sequences of service operations *)

Definition isTerminal (s : BookingStatus) : bool :=
  bool_decide (s = COMPLETED \/ s = CANCELLED).

Inductive Op :=
  | OpCreate (data : CreateBookingData.t)
  | OpUpdate (id : ObjectId) (data : UpdateBookingData.t)
             (userId : ObjectId) (userRole : string)
  | OpCancel (id userId : ObjectId) (userRole : string)
  | OpConfirm (id : ObjectId)
  | OpStart (id : ObjectId)
  | OpComplete (id : ObjectId)
  | OpPaymentSuccess (paymentIntentId : string)
  | OpPaymentFailure (paymentIntentId : string)
  | OpRefund (gatewayAccepts : bool) (data : RefundPaymentData.t).

(** Operations of [BookingService], and the payment-failure webhook. *)
Definition isBookingOp (o : Op) : bool :=
  match o with
  | OpPaymentSuccess _ | OpRefund _ _ => false
  | _ => true
  end.

Section Steps.
Variable thisStartDate : option IBooking -> UpdateBookingData.t -> option Date.

(** One request at clock value [now]; the outcome is dropped, the
    collections are kept. *)
Definition stepOp (w : World) (req : Date * Op) : World :=
  let '(now, o) := req in
  match o with
  | OpCreate data => (createBooking now data w).2
  | OpUpdate id data userId userRole =>
      (updateBooking thisStartDate now id data userId userRole w).2
  | OpCancel id userId userRole => (cancelBooking now id userId userRole w).2
  | OpConfirm id => (confirmBooking now id w).2
  | OpStart id => (startBooking now id w).2
  | OpComplete id => (completeBooking now id w).2
  | OpPaymentSuccess intent => (handlePaymentSuccess now intent w).2
  | OpPaymentFailure intent => (handlePaymentFailure now intent w).2
  | OpRefund accepts data => (refundPayment now accepts data w).2
  end.

Definition runOps (reqs : list (Date * Op)) (w : World) : World :=
  fold_left stepOp reqs w.
End Steps.

(** A patch that carries a [status] and nothing else. *)
Definition statusPatch (s : BookingStatus) : UpdateBookingData.t :=
  {| UpdateBookingData.startDate := None; UpdateBookingData.endDate := None;
     UpdateBookingData.deliveryAddress := None; UpdateBookingData.notes := None;
     UpdateBookingData.status := Some s; UpdateBookingData.totalAmount := None |}.

(** A call writes the bookings collection at most at [id], and only when
    the document stored there satisfies [P]. *)
Definition writesOnly {A} (c : M A) (id : ObjectId) (P : IBooking -> Prop) : Prop :=
  forall w, bookings (c w).2 = bookings w
       \/ exists b b', bookings w !! id = Some b /\ P b
                       /\ bookings (c w).2 = <[id := b']> (bookings w).

(** ** Further operations of the services *)

(** [BookingService.getBookingById(id, userId?, userRole?)] *)
Definition getBookingById (id : ObjectId) (userId : option ObjectId)
  (userRole : option string) : M IBooking :=
  let* booking_ := bookingRepository.findById id in
  match booking_ with
  | None => throw (NotFoundError "Booking not found")
  | Some booking =>
      match userId with
      | Some uid =>
          if (bool_decide (userRole <> Some "admin")
              && bool_decide (userRole <> Some "logistics"))%bool
          then
            (* [findById] has populated [customerId] *)
            if bool_decide (PopulatedText (customerId booking) ≠ Hex uid) then
              throw (AuthorizationError "You can only view your own bookings")
            else ret booking
          else ret booking
      | None => ret booking
      end
  end.

Definition getCustomerBookings (customerId_ : ObjectId)
  : M (list (ObjectId * IBooking)) :=
  bookingRepository.findByCustomerId customerId_.

Module CreatePaymentIntentData.
Record t := {
  bookingId : ObjectId;
  userId : ObjectId;
  userRole : string;
}.
End CreatePaymentIntentData.

(** [stripe.paymentIntents.retrieve]: the gateway's answer (the client
    secret, or a failure) is an input of the call. *)
Definition stripeRetrieve (answer : option string) : M string :=
  match answer with
  | Some clientSecret => ret clientSecret
  | None => throw (ExternalServiceError "stripe.paymentIntents.retrieve")
  end.

(** [stripe.paymentIntents.create]: the gateway answers with the id of the
    new intent and its client secret, or fails. *)
Definition stripeCreate (answer : option (string * string))
  : M (string * string) :=
  match answer with
  | Some intent => ret intent
  | None => throw (ExternalServiceError "stripe.paymentIntents.create")
  end.

(** [PaymentService.createPaymentIntent].  The notification
    [payment:intent_created] goes to the websocket layer only and is not
    recorded in [emitted]. *)
Definition createPaymentIntent (now : Date)
  (retrieved : option string) (created : option (string * string))
  (data : CreatePaymentIntentData.t)
  : M ((ObjectId * Payment.IPayment) * string) :=
  let bookingId_ := CreatePaymentIntentData.bookingId data in
  let* booking_ := bookingRepository.findById bookingId_ in
  match booking_ with
  | None => throw (NotFoundError "Booking not found")
  | Some booking =>
      (* [findById] has populated [customerId] *)
      let customerId_ := PopulatedText (customerId booking) in
      if (negb (String.eqb (CreatePaymentIntentData.userRole data) "admin")
          && bool_decide (customerId_
                          ≠ Hex (CreatePaymentIntentData.userId data)))%bool then
        throw (AuthorizationError "You can only pay for your own bookings")
      else if (bool_decide (Booking.status booking ≠ PENDING)
               && bool_decide (Booking.status booking ≠ CONFIRMED))%bool then
        throw (ValidationError
                 ("Cannot create payment for booking with status: "
                    ++ bookingStatusName (Booking.status booking)))
      else
        let createNew : M ((ObjectId * Payment.IPayment) * string) :=
          catchWith
            (let* intent := stripeCreate created in
             let* payment :=
               paymentRepository.create now
                 {| Payment.bookingId := bookingId_;
                    Payment.stripePaymentIntentId := intent.1;
                    Payment.amount := totalAmount booking;
                    Payment.status := P_PENDING;
                    Payment.refundAmount := None;
                    Payment.refundDate := None;
                    Payment.updatedAt := now |} in
             ret (payment, intent.2))
            (fun _ => ExternalServiceError "Failed to create payment intent") in
        let* existingPayment := paymentRepository.findByBookingId bookingId_ in
        match existingPayment with
        | Some (pid, existing) =>
            if bool_decide (Payment.status existing ≠ P_FAILED) then
              if bool_decide (Payment.status existing = P_PENDING) then
                (* a failed retrieval is logged and a new intent is created *)
                fun w =>
                  match stripeRetrieve retrieved w with
                  | (Ok clientSecret, w') => (Ok ((pid, existing), clientSecret), w')
                  | (Err _, w') => createNew w'
                  end
              else throw (ValidationError
                            "Payment already processed for this booking")
            else createNew
        | None => createNew
        end
  end.

(** [PaymentService.getPaymentByBookingId] *)
Definition getPaymentByBookingId (bookingId_ userId : ObjectId)
  (userRole : string) : M (ObjectId * Payment.IPayment) :=
  let* payment_ := paymentRepository.findByBookingId bookingId_ in
  match payment_ with
  | None => throw (NotFoundError "Payment not found for this booking")
  | Some payment =>
      let* booking_ := bookingRepository.findById bookingId_ in
      match booking_ with
      | Some booking =>
          if (negb (String.eqb userRole "admin")
              && negb (String.eqb userRole "logistics")
              && bool_decide (PopulatedText (customerId booking)
                              ≠ Hex userId))%bool then
            throw (AuthorizationError "You can only view your own payments")
          else ret payment
      | None => ret payment
      end
  end.

(** [PaymentService.getPaymentById] *)
Definition getPaymentById (paymentId userId : ObjectId) (userRole : string)
  : M Payment.IPayment :=
  let* payment_ := paymentRepository.findById paymentId in
  match payment_ with
  | None => throw (NotFoundError "Payment not found")
  | Some payment =>
      (* [paymentRepository.findById] has populated [bookingId] *)
      let* booking_ :=
        bookingRepository.findById (PopulatedText (Payment.bookingId payment)) in
      match booking_ with
      | Some booking =>
          if (negb (String.eqb userRole "admin")
              && negb (String.eqb userRole "logistics")
              && bool_decide (PopulatedText (customerId booking)
                              ≠ Hex userId))%bool then
            throw (AuthorizationError "You can only view your own payments")
          else ret payment
      | None => ret payment
      end
  end.

(** [PaymentService.getTotalRevenue] *)
Definition getTotalRevenue : M Q := paymentRepository.getTotalRevenue.

(** *** Equipment service ([src/services/equipment.service.ts]), on the two
    fields of the equipment that the booking core reads *)

Definition msgRate : string := "Daily rate must be greater than 0".

Definition updateEquipment (id : ObjectId)
  (dailyRate_ : option Q) (status_ : option EquipmentStatus)
  : M Equipment.IEquipment :=
  let* equipment_ := equipmentRepository.findById id in
  match equipment_ with
  | None => throw (NotFoundError "Equipment not found")
  | Some _ =>
      if from_option (fun r => Qle_bool r 0) false dailyRate_ then
        throw (ValidationError msgRate)
      else equipmentRepository.updateById id dailyRate_ status_
  end.

Definition deleteEquipment (id : ObjectId) : M unit :=
  let* equipment_ := equipmentRepository.findById id in
  match equipment_ with
  | None => throw (NotFoundError "Equipment not found")
  | Some _ => equipmentRepository.deleteById id
  end.

Definition updateEquipmentStatus (id : ObjectId) (status_ : EquipmentStatus)
  : M Equipment.IEquipment :=
  let* equipment_ := equipmentRepository.findById id in
  match equipment_ with
  | None => throw (NotFoundError "Equipment not found")
  | Some _ => equipmentRepository.updateById id None (Some status_)
  end.

Definition checkEquipmentAvailability (id : ObjectId) : M bool :=
  let* equipment_ := equipmentRepository.findById id in
  match equipment_ with
  | None => throw (NotFoundError "Equipment not found")
  | Some eq => ret (bool_decide (Equipment.status eq = AVAILABLE))
  end.

(** *** The invariant of the reservation store *)

(** Inclusive overlap of two stored windows. *)
Definition overlapping (b1 b2 : IBooking) : Prop :=
  startDate b1 <= endDate b2 /\ startDate b2 <= endDate b1.

(** No two reservations of one equipment, both in status pending,
    confirmed or active, have overlapping windows. *)
Definition NoDoubleBooking (m : gmap ObjectId IBooking) : Prop :=
  forall id1 id2 b1 b2,
    id1 <> id2 ->
    m !! id1 = Some b1 -> m !! id2 = Some b2 ->
    equipmentId b1 = equipmentId b2 ->
    bookingRepository.isActiveStatus (Booking.status b1) = true ->
    bookingRepository.isActiveStatus (Booking.status b2) = true ->
    ~ overlapping b1 b2.

(** ** Vocabulary of the further properties *)

(** The document [createBooking] hands to the repository. *)
Definition bookingOf (now : Date) (d : CreateBookingData.t) (amount : Q) : IBooking :=
  {| customerId := CreateBookingData.customerId d;
     equipmentId := CreateBookingData.equipmentId d;
     startDate := CreateBookingData.startDate d;
     endDate := CreateBookingData.endDate d;
     deliveryAddress := CreateBookingData.deliveryAddress d;
     notes := CreateBookingData.notes d;
     totalAmount := amount;
     status := PENDING;
     createdAt := now; updatedAt := now |}.

Definition msgDelete : string :=
  "Only pending or cancelled bookings can be deleted. Cancel the booking first.".

Definition msgUpdateOwn : string := "You can only update your own bookings".

(** Every stored daily rate is positive. *)
Definition positiveRates (w : World) : Prop :=
  forall id eq, equipment w !! id = Some eq -> (0 < Equipment.dailyRate eq)%Q.

(** What a payment counts for in [getTotalRevenue]. *)
Definition counted (p : Payment.IPayment) : Q :=
  if bool_decide (Payment.status p = P_SUCCEEDED) then Payment.amount p else 0%Q.

(** The [$match] stage of [getTotalRevenue]. *)
Definition succeededOnly (l : list (ObjectId * Payment.IPayment))
  : list (ObjectId * Payment.IPayment) :=
  filter (fun kv : ObjectId * Payment.IPayment => Payment.status kv.2 = P_SUCCEEDED) l.

(** ** Sample data for the worked examples *)

Definition today : Date := midnight 2025 6 1 + 9 * msPerHour.

Definition mixer : Equipment.IEquipment :=
  {| Equipment.dailyRate := 50; Equipment.status := AVAILABLE |}.

Definition emptyStore : World :=
  {| bookings := ∅; payments := ∅; equipment := {[ 0%nat := mixer ]};
     emitted := [] |}.

Definition request (customer : ObjectId) (s e : Date) : CreateBookingData.t :=
  {| CreateBookingData.customerId := customer;
     CreateBookingData.equipmentId := 0%nat;
     CreateBookingData.startDate := s;
     CreateBookingData.endDate := e;
     CreateBookingData.deliveryAddress := "12 Market Street";
     CreateBookingData.notes := None |}.

Definition reqA : CreateBookingData.t :=
  request 1%nat (midnight 2025 6 8) (midnight 2025 6 11).
Definition reqB : CreateBookingData.t :=
  request 2%nat (midnight 2025 6 9) (midnight 2025 6 10).

(** Both requests pass their conflict check before either one persists. *)
Definition bothCheckFirst : list (Date * Turn) :=
  [(today, First); (today, First); (today, Second); (today, Second);
   (today, First); (today, First); (today, Second); (today, Second)].

Definition stored (customer : ObjectId) (s e : Date) (st : BookingStatus)
  : IBooking :=
  {| customerId := customer; equipmentId := 0%nat;
     startDate := s; endDate := e;
     deliveryAddress := "12 Market Street"; status := st;
     totalAmount := 150; notes := None;
     createdAt := midnight 2025 5 1; updatedAt := midnight 2025 5 1 |}.

Definition paymentFor (st : PaymentStatus) : Payment.IPayment :=
  {| Payment.bookingId := 0%nat; Payment.stripePaymentIntentId := "pi_1";
     Payment.amount := 150; Payment.status := st;
     Payment.refundAmount := None; Payment.refundDate := None;
     Payment.updatedAt := midnight 2025 5 1 |}.

(** One booking (id 0, customer 1) and its payment (id 0, intent [pi_1]). *)
Definition storeWith (b : IBooking) (ps : Payment.IPayment) : World :=
  {| bookings := {[ 0%nat := b ]}; payments := {[ 0%nat := ps ]};
     equipment := {[ 0%nat := mixer ]}; emitted := [] |}.

Definition fullRefund : RefundPaymentData.t :=
  {| RefundPaymentData.paymentId := 0%nat; RefundPaymentData.amount := None |}.

(** The ODM of the examples: an update validator sees no [startDate]. *)
Definition noThis : option IBooking -> UpdateBookingData.t -> option Date :=
  fun _ _ => None.

(** The reservation that [createBooking today reqA] stores, and the store
    after it. *)
Definition bookedA : IBooking := bookingOf today reqA 150.

Definition storeA : World :=
  addEvent (BookingCreated 0%nat) (setBookings (insert 0%nat bookedA) emptyStore).

(** A patch that moves the start date by a day. *)
Definition startsLater : UpdateBookingData.t :=
  {| UpdateBookingData.startDate := Some (midnight 2025 6 9);
     UpdateBookingData.endDate := None;
     UpdateBookingData.deliveryAddress := None; UpdateBookingData.notes := None;
     UpdateBookingData.status := None; UpdateBookingData.totalAmount := None |}.

(** A payment whose reservation is gone. *)
Definition orphanStore : World :=
  {| bookings := ∅; payments := {[ 0%nat := paymentFor P_PENDING ]};
     equipment := {[ 0%nat := mixer ]}; emitted := [] |}.

Definition partialRefund : RefundPaymentData.t :=
  {| RefundPaymentData.paymentId := 0%nat; RefundPaymentData.amount := Some 10%Q |}.

Definition inMaintenance : Equipment.IEquipment :=
  {| Equipment.dailyRate := 50; Equipment.status := MAINTENANCE |}.

(** * Properties *)

(** ** Sanity checks of the date model *)

Example civil_epoch : civil_from_days 0 = (1970, 0, 1).
Proof. reflexivity. Qed.

Example civil_2024_02_29 : civil_from_days 19782 = (2024, 1, 29).
Proof. reflexivity. Qed.

Example setFullYear_leap_day :
  setFullYear (midnight 2024 2 29 + 5) 2025 = midnight 2025 3 1 + 5.
Proof. reflexivity. Qed.

(** ** Calendar arithmetic *)

Lemma Day_MakeDate d t : 0 <= t < msPerDay -> Day (MakeDate d t) = d.
Proof.
  intros H. unfold Day, MakeDate, msPerDay in *.
  Z.div_mod_to_equations. lia.
Qed.

Lemma TimeWithinDay_bound t : 0 <= TimeWithinDay t < msPerDay.
Proof. unfold TimeWithinDay, msPerDay. apply Z.mod_pos_bound. lia. Qed.

(** A midnight lies after an instant iff its day lies after that
    instant's day. *)
Lemma midnight_gt t u : setHours0 t > u <-> Day t > Day u.
Proof.
  unfold setHours0, MakeDate, Day, msPerDay.
  Z.div_mod_to_equations. lia.
Qed.

Lemma midnight_lt t u : setHours0 t < setHours0 u <-> Day t < Day u.
Proof.
  unfold setHours0, MakeDate, Day, msPerDay.
  Z.div_mod_to_equations. lia.
Qed.

(** Day-granular dates on the same day are the same date. *)
Lemma dayGranular_eq t u :
  dayGranular t -> dayGranular u -> Day t = Day u -> t = u.
Proof.
  unfold dayGranular, TimeWithinDay, Day, msPerDay.
  intros Ht Hu Hd. Z.div_mod_to_equations. lia.
Qed.

(** From one year of the 400-year cycle to the next: 365 or 366 days. *)
Lemma year_length era yoe :
  0 <= yoe <= 399 ->
  let y1 := yoe + era * 400 + 1 in
  let era1 := y1 / 400 in
  let yoe1 := y1 - era1 * 400 in
  365 <= (era1 * 146097 + (yoe1 * 365 + yoe1 / 4 - yoe1 / 100))
         - (era * 146097 + (yoe * 365 + yoe / 4 - yoe / 100)) <= 366.
Proof.
  intros H y1 era1 yoe1.
  assert (Hc : yoe <= 398 /\ era1 = era /\ yoe1 = yoe + 1
               \/ yoe = 399 /\ era1 = era + 1 /\ yoe1 = 0).
  { subst yoe1 era1 y1. Z.div_mod_to_equations. lia. }
  clearbody yoe1 era1. clear y1.
  destruct Hc as [(? & -> & ->)|(-> & -> & ->)];
    Z.div_mod_to_equations; lia.
Qed.

(** The same month and day of the month, one year later. *)
Lemma nextYear_days z :
  z + 365 <= MakeDay ((civil_from_days z).1.1 + 1) (civil_from_days z).1.2
                     (civil_from_days z).2 <= z + 366.
Proof.
  unfold civil_from_days, MakeDay, days_from_civil. cbn [fst snd].
  set (era := (z + 719468) / 146097).
  set (doe := z + 719468 - era * 146097).
  set (yoe := (doe - doe / 1460 + doe / 36524 - doe / 146096) / 365).
  set (doy := doe - (365 * yoe + yoe / 4 - yoe / 100)).
  set (mp := (5 * doy + 2) / 153).
  assert (Hdoe : 0 <= doe <= 146096).
  { subst doe era. Z.div_mod_to_equations. lia. }
  assert (Hy : 0 <= yoe <= 399 /\ 0 <= doy <= 365).
  { subst doy yoe. clearbody doe. clear -Hdoe. Z.div_mod_to_equations. lia. }
  assert (Hmp : 0 <= mp <= 11).
  { subst mp. destruct Hy as [_ Hy]. clearbody doy.
    Z.div_mod_to_equations. lia. }
  assert (Hz : z = era * 146097 + (yoe * 365 + yoe / 4 - yoe / 100)
                   + doy - 719468).
  { subst doy doe. lia. }
  destruct Hy as [Hyoe Hdoy].
  pose proof (year_length era yoe Hyoe) as Hlen. cbv zeta in Hlen.
  clearbody mp doy yoe era. clear doe Hdoe.
  destruct (Z.ltb_spec mp 10).
  - replace ((mp + 2) / 12) with 0 by (Z.div_mod_to_equations; lia).
    replace ((mp + 2) mod 12) with (mp + 2) by (Z.div_mod_to_equations; lia).
    destruct (Z.leb_spec (mp + 2) 1); [lia|].
    replace (mp + 2 - 2) with mp by lia.
    replace (yoe + era * 400 + 1 + 0) with (yoe + era * 400 + 1) by lia.
    lia.
  - replace ((mp - 10) / 12) with 0 by (Z.div_mod_to_equations; lia).
    replace ((mp - 10) mod 12) with (mp - 10) by (Z.div_mod_to_equations; lia).
    destruct (Z.leb_spec (mp - 10) 1); [|lia].
    replace (mp - 10 + 10) with mp by lia.
    replace (yoe + era * 400 + 1 + 1 + 0 - 1) with (yoe + era * 400 + 1) by lia.
    lia.
Qed.

Lemma setFullYear_next_bounds now :
  Day now + 365 <= Day (setFullYear now (getFullYear now + 1)) <= Day now + 366.
Proof.
  unfold setFullYear, getFullYear, YearFromTime, MonthFromTime, DateFromTime.
  rewrite Day_MakeDate by apply TimeWithinDay_bound.
  apply nextYear_days.
Qed.

(** ** Pricing arithmetic *)

Lemma bookingDays_eq s e : bookingDays s e = - ((- (e - s)) / msPerDay).
Proof.
  unfold bookingDays, Qceiling. f_equal.
  rewrite Zdiv_Qdiv. apply Qfloor_comp.
  unfold Qeq, msPerDay. simpl. lia.
Qed.

(** [bookingDays] is the least whole number of days covering the window. *)
Lemma bookingDays_spec s e :
  msPerDay * (bookingDays s e - 1) < e - s <= msPerDay * bookingDays s e.
Proof.
  rewrite bookingDays_eq. unfold msPerDay.
  pose proof (Z.div_mod (- (e - s)) (1000*60*60*24) ltac:(lia)).
  pose proof (Z.mod_pos_bound (- (e - s)) (1000*60*60*24) ltac:(lia)).
  lia.
Qed.

Lemma Qltb_hours d :
  Qltb (inject_Z d / inject_Z msPerHour) 24 = true <-> d < 24 * msPerHour.
Proof.
  change msPerHour with 3600000.
  unfold Qltb, Qle_bool, Qdiv, Qmult, Qinv, inject_Z.
  cbn [Qnum Qden].
  rewrite negb_true_iff, Z.leb_gt. lia.
Qed.

(** ** The conflict query *)

Lemma orClauses_overlap s e s' e' :
  s <= e -> s' <= e' ->
  (bookingRepository.orClauses s e s' e' = true <-> s <= e' /\ s' <= e).
Proof.
  intros. unfold bookingRepository.orClauses.
  rewrite !orb_true_iff, !andb_true_iff, !Z.leb_le, !Z.geb_le. lia.
Qed.

(** Overlap is enough for a clause to fire, whatever the windows. *)
Lemma overlap_orClauses s e s' e' :
  s <= e' -> s' <= e -> bookingRepository.orClauses s e s' e' = true.
Proof.
  intros. unfold bookingRepository.orClauses.
  rewrite !orb_true_iff, !andb_true_iff, !Z.leb_le, !Z.geb_le. lia.
Qed.

Lemma countDocuments_pos q (m : gmap ObjectId IBooking) :
  (0 <? bookingRepository.countDocuments q m)%nat = true
  <-> exists id b, m !! id = Some b /\ q id b = true.
Proof.
  unfold bookingRepository.countDocuments. rewrite Nat.ltb_lt. split.
  - intros Hlen.
    destruct (filter _ _) as [|[id b] l] eqn:Hf; [simpl in Hlen; lia|].
    assert (Hin : (id, b) ∈ filter
              (λ kv : ObjectId * IBooking, q kv.1 kv.2 = true) (map_to_list m)).
    { rewrite Hf. left. }
    apply list_elem_of_filter in Hin as [Hq Hin].
    apply elem_of_map_to_list in Hin. eauto.
  - intros (id & b & Hm & Hq).
    assert (Hin : (id, b) ∈ filter
              (λ kv : ObjectId * IBooking, q kv.1 kv.2 = true) (map_to_list m)).
    { apply list_elem_of_filter. split; [done|]. by apply elem_of_map_to_list. }
    destruct (filter _ _); [by apply elem_of_nil in Hin | simpl; lia].
Qed.

Lemma checkConflict_world (eid : ObjectId) s e ex w :
  bookingRepository.checkConflict eid s e ex w
  = (Ok (0 <? bookingRepository.countDocuments
                (bookingRepository.conflictQuery eid s e ex) (bookings w))%nat, w).
Proof. done. Qed.

Lemma checkConflict_true (eid : ObjectId) s e ex w :
  (bookingRepository.checkConflict eid s e ex w).1 = Ok true
  <-> exists id b, bookings w !! id = Some b
        /\ bookingRepository.conflictQuery eid s e ex id b = true.
Proof.
  rewrite checkConflict_world. cbn [fst]. rewrite <- countDocuments_pos.
  split; [by intros [= ->] | by intros ->].
Qed.

(** ** Stepping through service calls *)

Ltac unfoldM :=
  unfold bookingRepository.findById, equipmentRepository.findById,
    paymentRepository.findById, emit in *;
  unfold bind, ret, throw, gets, modify, liftR, catchWith in *.

Lemma isTerminal_false s :
  isTerminal s = false <-> s <> COMPLETED /\ s <> CANCELLED.
Proof. unfold isTerminal. rewrite bool_decide_eq_false. tauto. Qed.

(** *** [createBooking] *)

Lemma create_spec now data w :
  match bookingRepository.create now data w with
  | (Err e, w') => w' = w
  | (Ok (id, b), w') =>
      bookings w !! id = None
      /\ w' = setBookings (insert id b) w
      /\ Booking.status b = Booking.status data
      /\ equipmentId b = equipmentId data
      /\ startDate b = startDate data /\ endDate b = endDate data
  end.
Proof.
  unfold bookingRepository.create.
  destruct (_ && _)%bool; [|done].
  split; [|done].
  apply not_elem_of_dom. apply is_fresh.
Qed.

Lemma calculateTotalAmount_world eid s e w :
  (calculateTotalAmount eid s e w).2 = w.
Proof.
  unfold calculateTotalAmount. destruct eid as [eid|ref]; unfoldM; simpl; [|done].
  destruct (equipment w !! eid); [|done]. by destruct (computeAmount _ _ _).
Qed.

Lemma createBooking_spec now data w :
  match createBooking now data w with
  | (Err e, w') => w' = w
  | (Ok (id, b), w') =>
      bookings w !! id = None
      /\ bookings w' = <[id := b]> (bookings w)
      /\ Booking.status b = PENDING
  end.
Proof.
  unfold createBooking. unfoldM. simpl.
  destruct (validateBookingDates _ _ _); [|done].
  destruct (equipment w !! _) as [eq|]; [|done].
  destruct (negb _); [done|].
  unfold bookingRepository.checkConflict. unfoldM.
  destruct (0 <? _)%nat; [done|].
  pose proof (calculateTotalAmount_world (CreateBookingData.equipmentId data)
    (CreateBookingData.startDate data) (CreateBookingData.endDate data) w) as Hw.
  destruct (calculateTotalAmount _ _ _ w) as [[amt|err] w1]; simpl in Hw; subst w1; [|done].
  match goal with |- context [bookingRepository.create ?n ?d ?w] =>
    pose proof (create_spec n d w) as Hc;
    destruct (bookingRepository.create n d w) as [[[id b]|err] w2] end; [|done].
  destruct Hc as (Hfresh & -> & Hst & _). simpl in *. done.
Qed.

Lemma runCreate_createBooking now d w :
  runCreate now 4 (Called d) w
  = (Returned (createBooking now d w).1, (createBooking now d w).2).
Proof.
  unfold createBooking, runCreate, stepCreate. unfoldM.
  destruct (validateBookingDates _ _ _); [|done].
  destruct (equipment w !! CreateBookingData.equipmentId d) as [eq|]. 2:{ done. }
  destruct (negb _); [done|].
  unfold bookingRepository.checkConflict. unfoldM.
  destruct (0 <? _)%nat; [done|].
  destruct (calculateTotalAmount _ _ _ w) as [[amt|err] w1]; [|done].
  match goal with |- context [bookingRepository.create ?n ?d ?w] =>
    destruct (bookingRepository.create n d w) as [[[id b]|err] w2] end; done.
Qed.

Lemma createBooking_ok now d w id b w1 :
  createBooking now d w = (Ok (id, b), w1) ->
  bookings w !! id = None
  /\ bookings w1 = <[id := b]> (bookings w)
  /\ equipment w1 = equipment w
  /\ Booking.status b = PENDING
  /\ equipmentId b = CreateBookingData.equipmentId d
  /\ startDate b = CreateBookingData.startDate d
  /\ endDate b = CreateBookingData.endDate d.
Proof.
  unfold createBooking. unfoldM. simpl.
  destruct (validateBookingDates _ _ _); [|done].
  destruct (equipment w !! _) as [eq|]; [|done].
  destruct (negb _); [done|].
  unfold bookingRepository.checkConflict. unfoldM.
  destruct (0 <? _)%nat; [done|].
  pose proof (calculateTotalAmount_world (CreateBookingData.equipmentId d)
    (CreateBookingData.startDate d) (CreateBookingData.endDate d) w) as Hw.
  destruct (calculateTotalAmount _ _ _ w) as [[amt|err] w0]; simpl in Hw; subst w0; [|done].
  match goal with |- context [bookingRepository.create ?n ?d ?w] =>
    pose proof (create_spec n d w) as Hc;
    destruct (bookingRepository.create n d w) as [[[id' b']|err] w2] end; [|done].
  destruct Hc as (Hfresh & -> & Hst & He & Hs & Hen). simpl in *.
  intros [= <- <- <-]. done.
Qed.

Lemma createBooking_conflict now d w id b :
  bookings w !! id = Some b ->
  bookingRepository.isActiveStatus (Booking.status b) = true ->
  equipmentId b = CreateBookingData.equipmentId d ->
  CreateBookingData.startDate d <= endDate b ->
  startDate b <= CreateBookingData.endDate d ->
  exists e, createBooking now d w = (Err e, w).
Proof.
  intros Hb Hact Heq H1 H2.
  pose proof (createBooking_spec now d w) as Hall.
  destruct (createBooking now d w) as [[[id' b']|e] w'] eqn:Hc.
  2:{ subst w'. eauto. }
  exfalso. clear Hall. revert Hc.
  unfold createBooking. unfoldM. simpl.
  destruct (validateBookingDates _ _ _); [|done].
  destruct (equipment w !! _) as [eq|]; [|done].
  destruct (negb _); [done|].
  unfold bookingRepository.checkConflict. unfoldM.
  destruct (0 <? _)%nat eqn:Hcount; [done|].
  apply not_true_iff_false in Hcount. exfalso. apply Hcount.
  apply countDocuments_pos. exists id, b. split; [done|].
  unfold bookingRepository.conflictQuery, bookingRepository.orClauses.
  rewrite Hact, bool_decide_eq_true_2 by done. simpl.
  rewrite andb_true_r.
  rewrite !orb_true_iff, !andb_true_iff, !Z.leb_le, !Z.geb_le. lia.
Qed.

Lemma runRacing_first n now r :
  runRacing (replicate n (now, First)) r
  = {| task1 := (runCreate now n (task1 r) (store r)).1;
       task2 := task2 r;
       store := (runCreate now n (task1 r) (store r)).2 |}.
Proof.
  unfold runRacing. revert r. induction n as [|n IH]; intros r.
  - by destruct r.
  - cbn [replicate fold_left runCreate]. rewrite IH. unfold stepRacing.
    by destruct (stepCreate now (task1 r) (store r)).
Qed.

Lemma runRacing_second n now r :
  runRacing (replicate n (now, Second)) r
  = {| task1 := task1 r;
       task2 := (runCreate now n (task2 r) (store r)).1;
       store := (runCreate now n (task2 r) (store r)).2 |}.
Proof.
  unfold runRacing. revert r. induction n as [|n IH]; intros r.
  - by destruct r.
  - cbn [replicate fold_left runCreate]. rewrite IH. unfold stepRacing.
    by destruct (stepCreate now (task2 r) (store r)).
Qed.

Lemma oneAfterTheOther_run now1 now2 d1 d2 w :
  runRacing (oneAfterTheOther now1 now2) (race d1 d2 w)
  = {| task1 := Returned (createBooking now1 d1 w).1;
       task2 := Returned (createBooking now2 d2 (createBooking now1 d1 w).2).1;
       store := (createBooking now2 d2 (createBooking now1 d1 w).2).2 |}.
Proof.
  unfold oneAfterTheOther, runRacing. rewrite fold_left_app.
  fold (runRacing (replicate 4 (now1, First)) (race d1 d2 w)).
  rewrite runRacing_first.
  match goal with |- fold_left _ _ ?r = _ =>
    fold (runRacing (replicate 4 (now2, Second)) r) end.
  rewrite runRacing_second. cbn [task1 task2 store race].
  by rewrite !runCreate_createBooking.
Qed.

(** *** Racing creations *)

Lemma persisted_conflict d d' w t :
  CreateBookingData.equipmentId d = CreateBookingData.equipmentId d' ->
  windowsOverlap d d' ->
  succeeded t = true -> persisted d w t ->
  bookingRepository.checkConflict
    (CreateBookingData.equipmentId d') (CreateBookingData.startDate d')
    (CreateBookingData.endDate d') None w = (Ok true, w).
Proof.
  intros Heq [Ho1 Ho2] Hs Hp.
  destruct t as [| | | |[[id b]|]]; try discriminate Hs.
  destruct Hp as (Hb & Hst & He & Hsd & Hed).
  rewrite checkConflict_world. f_equal. f_equal.
  apply countDocuments_pos. exists id, b. split; [done|].
  unfold bookingRepository.conflictQuery, bookingRepository.isActiveStatus.
  rewrite Hst, He, Heq, Hsd, Hed.
  rewrite bool_decide_eq_true_2 by done.
  rewrite overlap_orClauses by lia. reflexivity.
Qed.

(** One step of the task for [d], the other task [t'] (for [d']) waiting. *)
Lemma stepCreate_raceInv now d d' t t' w :
  CreateBookingData.equipmentId d = CreateBookingData.equipmentId d' ->
  windowsOverlap d' d ->
  (forall d0, requestOf t = Some d0 -> d0 = d) ->
  persisted d w t -> persisted d' w t' ->
  (succeeded t = true -> beforeCheck t' = true) ->
  (succeeded t' = true -> beforeCheck t = true) ->
  ~ (pastCheck t = true /\ pastCheck t' = true) ->
  (forall d0, requestOf (stepCreate now t w).1 = Some d0 -> d0 = d)
  /\ persisted d (stepCreate now t w).2 (stepCreate now t w).1
  /\ persisted d' (stepCreate now t w).2 t'
  /\ (succeeded (stepCreate now t w).1 = true -> beforeCheck t' = true)
  /\ (succeeded t' = true -> beforeCheck (stepCreate now t w).1 = true).
Proof.
  intros Heq Hov Hreq Hp Hp' Hs Hs' Hwin.
  assert (Hsame : forall x : CreateBookingData.t, forall y, Some x = Some y -> y = x)
    by (by intros ? ? [= <-]).
  destruct t as [d0|d0 eq_|d0 c|d0 a|r0]; cbn [stepCreate];
    try (assert (d0 = d) as -> by (by apply Hreq)).
  - (* Called *)
    destruct (validateBookingDates _ _ _); cbn; unfoldM; cbn; split_and!;
      try done; auto.
  - (* Validated *)
    destruct eq_ as [eq|]; [|cbn; split_and!; done].
    destruct (negb _); [cbn; split_and!; done|].
    rewrite checkConflict_world. cbn [fst snd]. split_and!; try done; auto.
    intros Hsucc.
    pose proof (persisted_conflict d' d w t' (eq_sym Heq) Hov Hsucc Hp') as Hc.
    rewrite checkConflict_world in Hc. injection Hc as ->. done.
  - (* Checked *)
    destruct c; [cbn; split_and!; done|].
    pose proof (calculateTotalAmount_world (CreateBookingData.equipmentId d)
      (CreateBookingData.startDate d) (CreateBookingData.endDate d) w) as Hw.
    destruct (calculateTotalAmount _ _ _ w) as [[amt|err] w0]; simpl in Hw; subst w0;
      cbn [fst snd]; split_and!; try done; auto.
  - (* Priced *)
    assert (Hother : succeeded t' = false /\ beforeCheck t' = true).
    { destruct t' as [| |? []| |[[]|]]; cbn in *; try done.
      - exfalso. apply Hwin. done.
      - exfalso. apply Hwin. done.
      - specialize (Hs' eq_refl). discriminate. }
    destruct Hother as [Hns Hbc].
    match goal with |- context [bookingRepository.create ?n ?dd ?w] =>
      pose proof (create_spec n dd w) as Hc;
      destruct (bookingRepository.create n dd w) as [[[id b]|err] w2] end;
      cbn [fst snd].
    + destruct Hc as (Hfresh & -> & Hst & He & Hsd & Hed). cbn in *.
      split_and!; try done.
      * apply lookup_insert_eq.
      * destruct t' as [| | | |[[id' b']|]]; done.
    + subst w2. split_and!; done.
  - (* Returned *)
    cbn. split_and!; try done.
Qed.

Lemma raceInv_step now d1 d2 r turn :
  CreateBookingData.equipmentId d1 = CreateBookingData.equipmentId d2 ->
  windowsOverlap d1 d2 ->
  raceInv d1 d2 r ->
  ~ (pastCheck (task1 r) = true /\ pastCheck (task2 r) = true) ->
  raceInv d1 d2 (stepRacing r (now, turn)).
Proof.
  intros Heq Hov (H1 & H2 & Hp1 & Hp2 & Hs1 & Hs2) Hwin.
  assert (Hov' : windowsOverlap d2 d1) by (destruct Hov; split; done).
  destruct turn; unfold stepRacing.
  - pose proof (stepCreate_raceInv now d1 d2 (task1 r) (task2 r) (store r)
                  Heq Hov' H1 Hp1 Hp2 Hs1 Hs2 Hwin) as (? & ? & ? & ? & ?).
    destruct (stepCreate now (task1 r) (store r)) as [t1 w1].
    unfold raceInv. cbn [task1 task2 store fst snd] in *. done.
  - assert (Hwin' : ~ (pastCheck (task2 r) = true /\ pastCheck (task1 r) = true)) by tauto.
    pose proof (stepCreate_raceInv now d2 d1 (task2 r) (task1 r) (store r)
                  (eq_sym Heq) Hov H2 Hp2 Hp1 Hs2 Hs1 Hwin') as (? & ? & ? & ? & ?).
    destruct (stepCreate now (task2 r) (store r)) as [t2 w2].
    unfold raceInv. cbn [task1 task2 store fst snd] in *. done.
Qed.

Lemma raceInv_run d1 d2 schedule r :
  CreateBookingData.equipmentId d1 = CreateBookingData.equipmentId d2 ->
  windowsOverlap d1 d2 ->
  raceInv d1 d2 r ->
  succeeded (task1 (runRacing schedule r)) = true ->
  succeeded (task2 (runRacing schedule r)) = true ->
  exists pre post, schedule = (pre ++ post)%list
    /\ pastCheck (task1 (runRacing pre r)) = true
    /\ pastCheck (task2 (runRacing pre r)) = true.
Proof.
  intros Heq Hov. revert r.
  induction schedule as [|[now turn] rest IH]; intros r Hinv Hs1 Hs2.
  - cbn in Hs1, Hs2. destruct Hinv as (_ & _ & _ & _ & Hb & _).
    specialize (Hb Hs1). destruct (task2 r) as [| | | |[|]]; done.
  - destruct (decide (pastCheck (task1 r) = true /\ pastCheck (task2 r) = true))
      as [Hwin|Hwin].
    + exists [], ((now, turn) :: rest). done.
    + destruct (IH (stepRacing r (now, turn))) as (pre & post & -> & Hw1 & Hw2);
        [by apply raceInv_step|done|done|].
      exists ((now, turn) :: pre), post. done.
Qed.

Lemma raceInv_init d1 d2 w : raceInv d1 d2 (race d1 d2 w).
Proof. unfold raceInv, race; cbn. split_and!; try done; by intros ? [= <-]. Qed.

(** *** [cancelBooking] and the status transitions *)

Lemma updateStatus_found now (id : ObjectId) s w b :
  bookings w !! id = Some b ->
  bookingRepository.updateStatus now id s w
  = (Ok (bookingRepository.withStatus now s b),
     setBookings (insert id (bookingRepository.withStatus now s b)) w).
Proof. intros H. unfold bookingRepository.updateStatus. by rewrite H. Qed.

(** What a successful [cancelBooking] did. *)
Lemma cancelBooking_ok now id u r w b' w' :
  cancelBooking now id u r w = (Ok b', w') ->
  exists b, bookings w !! id = Some b
    /\ isTerminal (Booking.status b) = false
    /\ b' = bookingRepository.withStatus now CANCELLED b
    /\ bookings w' = <[id := b']> (bookings w).
Proof.
  unfold cancelBooking. unfoldM.
  destruct (bookings w !! id) as [b|] eqn:Hb; [|done].
  destruct (_ && _)%bool; [done|].
  case_bool_decide as Hc; [done|]. case_bool_decide as Hx; [done|].
  destruct (_ && _)%bool; [done|].
  rewrite (updateStatus_found _ _ _ _ _ Hb). intros [= <- <-].
  exists b. split_and!; try done. apply isTerminal_false. done.
Qed.



(** *** Payment webhooks *)

Lemma findByStripePaymentIntentId_Some intent w pid p :
  paymentRepository.findByStripePaymentIntentId intent w = (Ok (Some (pid, p)), w) ->
  payments w !! pid = Some p /\ Payment.stripePaymentIntentId p = intent.
Proof.
  unfold paymentRepository.findByStripePaymentIntentId, gets.
  intros [= Hh].
  apply head_Some_elem_of, list_elem_of_filter in Hh as [Hi Hin].
  apply elem_of_map_to_list in Hin. done.
Qed.

Lemma handlePaymentSuccess_spec now intent w pid p b :
  paymentRepository.findByStripePaymentIntentId intent w = (Ok (Some (pid, p)), w) ->
  bookings w !! Payment.bookingId p = Some b ->
  exists w', handlePaymentSuccess now intent w = (Ok tt, w')
    /\ bookings w' !! Payment.bookingId p
       = Some (bookingRepository.withStatus now CONFIRMED b).
Proof.
  intros Hf Hb. pose proof (findByStripePaymentIntentId_Some _ _ _ _ Hf) as [Hp _].
  unfold handlePaymentSuccess, bind at 1. rewrite Hf.
  unfold paymentRepository.updateStatus, bind at 1. rewrite Hp.
  unfold bind at 1.
  rewrite (updateStatus_found now _ CONFIRMED (setPayments _ w) b) by done.
  unfoldM. eexists. split; [done|]. simpl. apply lookup_insert_eq.
Qed.

Lemma handlePaymentFailure_bookings now intent w :
  bookings (handlePaymentFailure now intent w).2 = bookings w.
Proof.
  unfold handlePaymentFailure, bind at 1.
  unfold paymentRepository.findByStripePaymentIntentId, gets.
  destruct (head _) as [[pid p]|]; [|done].
  unfold paymentRepository.updateStatus, bind.
  destruct (payments w !! pid); [|done].
  unfoldM. simpl. by destruct (bookings w !! _).
Qed.

(** *** What each call may write *)

Lemma cancelBooking_writes now id u r :
  writesOnly (cancelBooking now id u r) id (fun b => isTerminal (Booking.status b) = false).
Proof.
  intros w. destruct (cancelBooking now id u r w) as [[b'|e] w'] eqn:Hc.
  - apply cancelBooking_ok in Hc as (b & Hb & Ht & _ & Hw). right. eauto.
  - left. revert Hc. unfold cancelBooking. unfoldM.
    destruct (bookings w !! id) as [b|] eqn:Hb; [|by intros [= _ <-]].
    destruct (_ && _)%bool; [by intros [= _ <-]|].
    case_bool_decide; [by intros [= _ <-]|]. case_bool_decide; [by intros [= _ <-]|].
    destruct (_ && _)%bool; [by intros [= _ <-]|].
    rewrite (updateStatus_found _ _ _ _ _ Hb). done.
Qed.

Lemma confirmBooking_writes now id :
  writesOnly (confirmBooking now id) id (fun b => Booking.status b = PENDING).
Proof.
  intros w. unfold confirmBooking. unfoldM.
  destruct (bookings w !! id) as [b|] eqn:Hb; [|by left].
  case_bool_decide as Hs; [by left|].
  rewrite (updateStatus_found _ _ _ _ _ Hb). right. exists b. eexists.
  split_and!; [done| |done]. by destruct (Booking.status b).
Qed.

Lemma startBooking_writes now id :
  writesOnly (startBooking now id) id (fun b => Booking.status b = CONFIRMED).
Proof.
  intros w. unfold startBooking. unfoldM.
  destruct (bookings w !! id) as [b|] eqn:Hb; [|by left].
  case_bool_decide as Hs; [by left|].
  destruct (now <? _); [by left|].
  rewrite (updateStatus_found _ _ _ _ _ Hb). right. exists b. eexists.
  split_and!; [done| |done]. by destruct (Booking.status b).
Qed.

Lemma completeBooking_writes now id :
  writesOnly (completeBooking now id) id (fun b => Booking.status b = ACTIVE).
Proof.
  intros w. unfold completeBooking. unfoldM.
  destruct (bookings w !! id) as [b|] eqn:Hb; [|by left].
  case_bool_decide as Hs; [by left|].
  rewrite (updateStatus_found _ _ _ _ _ Hb). right. exists b. eexists.
  split_and!; [done| |done]. by destruct (Booking.status b).
Qed.

Section Update.
Variable thisStartDate : option IBooking -> UpdateBookingData.t -> option Date.

Lemma updateById_spec now (id : ObjectId) data w :
  match bookingRepository.updateById thisStartDate now id data w with
  | (Ok b', w') =>
      exists b, bookings w !! id = Some b
        /\ b' = bookingRepository.applySet now data b
        /\ w' = setBookings (insert id b') w
  | (Err e, w') => w' = w
  end.
Proof.
  unfold bookingRepository.updateById.
  destruct (bookingRepository.updateValidators _ _ _ _); [|done].
  destruct (bookings w !! id) as [b|]; [|done]. eauto.
Qed.

(** What [updateBooking] hands to [updateById]: the patch, with
    [totalAmount] replaced when a date is patched. *)
Lemma updateBooking_spec now id data u r w :
  match updateBooking thisStartDate now id data u r w with
  | (Ok b', w') =>
      exists b, bookings w !! id = Some b
        /\ isTerminal (Booking.status b) = false
        /\ Booking.status b'
           = default (Booking.status b) (UpdateBookingData.status data)
        /\ bookings w' = <[id := b']> (bookings w)
  | (Err e, w') => w' = w
  end.
Proof.
  unfold updateBooking. unfoldM.
  destruct (bookings w !! id) as [b|] eqn:Hb; [|done].
  destruct (_ && _ && _)%bool; [done|].
  destruct (_ || _)%bool eqn:Hterm; [done|].
  apply orb_false_iff in Hterm as [Hc Hx].
  apply bool_decide_eq_false in Hc, Hx.
  assert (Ht : isTerminal (Booking.status b) = false) by by apply isTerminal_false.
  destruct (_ || _)%bool.
  - (* the conflict check is handed the text of the populated equipment *)
    by destruct (validateBookingDates _ _ _).
  - match goal with |- context [bookingRepository.updateById _ ?n (Hex ?i) ?d ?w] =>
      pose proof (updateById_spec n i d w) as Hu;
      destruct (bookingRepository.updateById thisStartDate n i d w) as [[b'|err] w2] end;
      [|done].
    destruct Hu as (b0 & Hb0 & -> & ->). rewrite Hb in Hb0.
    injection Hb0 as <-. exists b. done.
Qed.

Lemma updateBooking_writes now id data u r :
  writesOnly (updateBooking thisStartDate now id data u r) id
             (fun b => isTerminal (Booking.status b) = false).
Proof.
  intros w. pose proof (updateBooking_spec now id data u r w) as H.
  destruct (updateBooking _ _ _ _ _ _ w) as [[b'|e] w'].
  - destruct H as (b & ? & ? & ? & ?). right. eauto.
  - left. by subst.
Qed.

Lemma updateBooking_statusPatch now id s u r w b :
  bookings w !! id = Some b ->
  isTerminal (Booking.status b) = false ->
  isOperatorRole r = true ->
  exists w',
    updateBooking thisStartDate now id (statusPatch s) u r w
    = (Ok (bookingRepository.applySet now (statusPatch s) b), w')
    /\ bookings w' !! id = Some (bookingRepository.applySet now (statusPatch s) b).
Proof.
  intros Hb [Hc Hx]%isTerminal_false Hop.
  unfold updateBooking. unfoldM. rewrite Hb.
  assert ((negb (String.eqb r "admin") && negb (String.eqb r "logistics")
           && bool_decide (PopulatedText (customerId b) ≠ Hex u))%bool = false) as ->.
  { unfold isOperatorRole in Hop. apply orb_true_iff in Hop as [-> | ->]; [done|].
    by rewrite andb_false_r. }
  rewrite !bool_decide_eq_false_2 by done. cbn [orb].
  cbn [statusPatch UpdateBookingData.startDate UpdateBookingData.endDate].
  unfold bookingRepository.updateById, bookingRepository.updateValidators.
  cbn [UpdateBookingData.startDate UpdateBookingData.endDate
       UpdateBookingData.deliveryAddress UpdateBookingData.totalAmount
       from_option andb].
  rewrite Hb. eexists. split; [done|]. simpl. apply lookup_insert_eq.
Qed.

(** The ownership test compares the text of the populated customer with
    the caller's id: it never passes, so only the two operator roles get
    further. *)
Lemma updateBooking_not_operator now id data u r w b :
  bookings w !! id = Some b ->
  isOperatorRole r = false ->
  updateBooking thisStartDate now id data u r w
  = (Err (AuthorizationError msgUpdateOwn), w).
Proof.
  intros Hb Hop. unfold updateBooking. unfoldM. rewrite Hb.
  unfold isOperatorRole in Hop. apply orb_false_iff in Hop as [-> ->].
  by rewrite bool_decide_eq_true_2.
Qed.
End Update.

(** *** Terminal reservations under the booking service *)

Lemma writesOnly_keeps {A} (c : M A) id' (P : IBooking -> Prop) w id b :
  writesOnly c id' P ->
  (forall x, P x -> isTerminal (Booking.status x) = false) ->
  bookings w !! id = Some b ->
  isTerminal (Booking.status b) = true ->
  bookings (c w).2 !! id = Some b.
Proof.
  intros Hw HP Hb Ht. destruct (Hw w) as [-> | (b0 & b' & Hb0 & HP0 & ->)]; [done|].
  destruct (decide (id' = id)) as [-> | Hne].
  - rewrite Hb in Hb0. injection Hb0 as <-. apply HP in HP0. congruence.
  - by rewrite lookup_insert_ne.
Qed.

Lemma createBooking_keeps now d w id b :
  bookings w !! id = Some b -> bookings (createBooking now d w).2 !! id = Some b.
Proof.
  intros Hb. pose proof (createBooking_spec now d w) as H.
  destruct (createBooking now d w) as [[[id' b']|e] w']; simpl.
  - destruct H as (Hfresh & -> & _).
    rewrite lookup_insert_ne; [done|]. intros ->. congruence.
  - by subst.
Qed.

Section Ops.
Variable thisStartDate : option IBooking -> UpdateBookingData.t -> option Date.

Lemma stepOp_keeps_terminal w req id b :
  isBookingOp req.2 = true ->
  bookings w !! id = Some b ->
  isTerminal (Booking.status b) = true ->
  bookings (stepOp thisStartDate w req) !! id = Some b.
Proof.
  destruct req as [now o]. intros Hop Hb Ht.
  destruct o; cbn [stepOp]; try discriminate Hop.
  - by apply createBooking_keeps.
  - eapply writesOnly_keeps; [apply updateBooking_writes|..]; done.
  - eapply writesOnly_keeps; [apply cancelBooking_writes|..]; done.
  - eapply writesOnly_keeps; [apply confirmBooking_writes|..]; try done.
    by intros x ->.
  - eapply writesOnly_keeps; [apply startBooking_writes|..]; try done.
    by intros x ->.
  - eapply writesOnly_keeps; [apply completeBooking_writes|..]; try done.
    by intros x ->.
  - by rewrite handlePaymentFailure_bookings.
Qed.

(** X14: Every transition and update of [BookingService] guards the
    terminal states: under them a completed or cancelled reservation
    stays as it is, field for field. *)
Lemma bookingOps_keep_terminal reqs w id b :
  Forall (fun req => isBookingOp req.2 = true) reqs ->
  bookings w !! id = Some b ->
  isTerminal (Booking.status b) = true ->
  bookings (runOps thisStartDate reqs w) !! id = Some b.
Proof.
  intros Hall. revert w. induction Hall as [|req reqs Hop _ IH]; intros w Hb Ht.
  - done.
  - cbn [runOps fold_left]. apply IH; [|done].
    by apply stepOp_keeps_terminal.
Qed.
End Ops.


(** * The claims *)

(** ** C1: racing creations *)

(** C1, as stated, fails: two [createBooking] calls for the same equipment
    with overlapping windows, interleaved so that both run their conflict
    check before either persists, both succeed and both reservations are
    stored. *)
Lemma interleaved_creates_both_persist :
  let r := runRacing bothCheckFirst (race reqA reqB emptyStore) in
  CreateBookingData.equipmentId reqA = CreateBookingData.equipmentId reqB
  /\ windowsOverlap reqA reqB
  /\ succeeded (task1 r) = true /\ succeeded (task2 r) = true
  /\ size (bookings (store r)) = 2%nat.
Proof.
  cbv zeta. split; [reflexivity|]. split; [split; vm_compute; discriminate|].
  split_and!; vm_compute; reflexivity.
Qed.

(** C1 (amended): two [createBooking] requests for the same equipment id
    with overlapping windows both succeed only if at some moment both have
    passed their conflict check and neither has persisted yet; in
    particular, when they run one after the other (the second is resumed
    only after the first has returned), both run to their return and at
    most one of them succeeds. *)
Theorem racing_creates_exclusive_outside_window d1 d2 w :
  CreateBookingData.equipmentId d1 = CreateBookingData.equipmentId d2 ->
  windowsOverlap d1 d2 ->
  (forall schedule,
     succeeded (task1 (runRacing schedule (race d1 d2 w))) = true ->
     succeeded (task2 (runRacing schedule (race d1 d2 w))) = true ->
     exists pre post, schedule = (pre ++ post)%list
       /\ pastCheck (task1 (runRacing pre (race d1 d2 w))) = true
       /\ pastCheck (task2 (runRacing pre (race d1 d2 w))) = true)
  /\ (forall now1 now2,
        let r := runRacing (oneAfterTheOther now1 now2) (race d1 d2 w) in
        (exists r1 r2, task1 r = Returned r1 /\ task2 r = Returned r2)
        /\ ~ (succeeded (task1 r) = true /\ succeeded (task2 r) = true)).
Proof.
  intros Heq Hov. split.
  { intros schedule. apply (raceInv_run d1 d2); [done|done|apply raceInv_init]. }
  destruct Hov as [Ho1 Ho2]. intros now1 now2.
  pose proof (oneAfterTheOther_run now1 now2 d1 d2 w) as Hrun.
  intros r. subst r. rewrite Hrun. cbn [task1 task2 store]. split; [eauto|].
  intros [Hs1 Hs2].
  destruct (createBooking now1 d1 w) as [[[id1 b1]|e1] w1] eqn:Hc1; [|done].
  apply createBooking_ok in Hc1 as (_ & Hb & _ & Hst & Heq1 & Hsd & Hed).
  destruct (createBooking_conflict now2 d2 w1 id1 b1) as [e2 He2].
  - rewrite Hb. apply lookup_insert_eq.
  - by rewrite Hst.
  - congruence.
  - by rewrite Hed.
  - by rewrite Hsd.
  - simpl in Hs2. rewrite He2 in Hs2. done.
Qed.

Lemma racing_creates_exclusive_outside_window_witness :
  CreateBookingData.equipmentId reqA = CreateBookingData.equipmentId reqB
  /\ windowsOverlap reqA reqB
  /\ let r := runRacing (oneAfterTheOther today today)
                        (race reqA reqB emptyStore) in
     (exists r1 r2, task1 r = Returned r1 /\ task2 r = Returned r2)
     /\ ~ (succeeded (task1 r) = true /\ succeeded (task2 r) = true).
Proof.
  split; [reflexivity|]. split; [split; vm_compute; discriminate|].
  refine (proj2 (racing_creates_exclusive_outside_window
                   reqA reqB emptyStore _ _) today today).
  - reflexivity.
  - split; vm_compute; discriminate.
Defined.

(** ** C2: terminal reservations *)

(** C2 says that a reservation in status [completed] or [cancelled] is
    never changed again by any operation.  The booking service keeps to
    that ([bookingOps_keep_terminal]); the payment-success webhook does
    not: a cancelled reservation becomes [confirmed] when it arrives, and
    a completed one becomes [confirmed] likewise. *)
Theorem payment_paths_rewrite_terminal
  (thisStartDate : option IBooking -> UpdateBookingData.t -> option Date) :
  let cancelled :=
    storeWith (stored 1%nat (midnight 2025 6 8) (midnight 2025 6 11) CANCELLED)
              (paymentFor P_PENDING) in
  let completed :=
    storeWith (stored 1%nat (midnight 2025 5 8) (midnight 2025 5 11) COMPLETED)
              (paymentFor P_SUCCEEDED) in
  (Booking.status <$> bookings cancelled !! 0%nat = Some CANCELLED
   /\ Booking.status <$>
        bookings (runOps thisStartDate [(today, OpPaymentSuccess "pi_1")] cancelled)
          !! 0%nat = Some CONFIRMED)
  /\ (Booking.status <$> bookings completed !! 0%nat = Some COMPLETED
      /\ Booking.status <$>
           bookings (runOps thisStartDate [(today, OpPaymentSuccess "pi_1")] completed)
             !! 0%nat = Some CONFIRMED).
Proof. cbv zeta. split_and!; vm_compute; reflexivity. Qed.

(** ** C3: which states can be cancelled *)




(** ** C4: the 24-hour gate *)




(** ** C5: payment success for a cancelled reservation *)

(** C5 says that payment success delivered for a cancelled reservation
    leaves it as it is.  What [handlePaymentSuccess] does to the
    reservation of a known payment: it returns without error and sets the
    status to [confirmed] whatever the status was, a cancelled reservation
    included. *)
Theorem handlePaymentSuccess_overwrites_status now intent w pid p b :
  paymentRepository.findByStripePaymentIntentId intent w
  = (Ok (Some (pid, p)), w) ->
  bookings w !! Payment.bookingId p = Some b ->
  exists w', handlePaymentSuccess now intent w = (Ok tt, w')
    /\ bookings w' !! Payment.bookingId p
       = Some (bookingRepository.withStatus now CONFIRMED b)
    /\ Booking.status (bookingRepository.withStatus now CONFIRMED b) = CONFIRMED.
Proof.
  intros Hf Hb.
  destruct (handlePaymentSuccess_spec now intent w pid p b Hf Hb) as (w' & ? & ?).
  exists w'. done.
Qed.

Lemma handlePaymentSuccess_overwrites_status_witness :
  let b := stored 1%nat (midnight 2025 6 8) (midnight 2025 6 11) CANCELLED in
  let w := storeWith b (paymentFor P_PENDING) in
  Booking.status b = CANCELLED
  /\ exists w', handlePaymentSuccess today "pi_1" w = (Ok tt, w')
       /\ bookings w' !! 0%nat
          = Some (bookingRepository.withStatus today CONFIRMED b)
       /\ Booking.status (bookingRepository.withStatus today CONFIRMED b)
          = CONFIRMED.
Proof.
  intros b w. split; [reflexivity|].
  refine (handlePaymentSuccess_overwrites_status
            today "pi_1" w 0%nat (paymentFor P_PENDING) b _ _).
  - vm_compute. reflexivity.
  - reflexivity.
Defined.

(** ** C6: the conflict predicate *)

(** C6, as stated, fails: [checkConflict] compares the stored instants
    and truncates nothing.  A confirmed reservation ends on 11 June at
    00:00 and the candidate starts on 11 June at 10:00, on the same
    equipment; both windows are valid and they share the day, and
    [checkConflict] finds no conflict: [createBooking] stores the
    candidate. *)
Lemma same_day_windows_do_not_conflict :
  let b := stored 1%nat (midnight 2025 6 8) (midnight 2025 6 11) CONFIRMED in
  let w := storeWith b (paymentFor P_SUCCEEDED) in
  let s := midnight 2025 6 11 + 10 * msPerHour in
  let e := midnight 2025 6 13 in
  (startDate b <= endDate b /\ s <= e)
  /\ equipmentId b = 0%nat
  /\ Day (endDate b) = Day s
  /\ (bookingRepository.checkConflict 0%nat s e None w).1 = Ok false
  /\ (createBooking today (request 2%nat s e) w).1
     = Ok (1%nat, bookingOf today (request 2%nat s e) 100).
Proof.
  cbv zeta. split_and!; try (vm_compute; reflexivity); vm_compute; discriminate.
Qed.

(** C6 (amended): for valid windows the three clauses of [checkConflict]
    hold exactly when the windows overlap with inclusive boundaries;
    [checkConflict] answers [true] exactly when some stored reservation of
    that equipment, in status pending, confirmed or active and not the
    excluded one, overlaps the candidate; a stored reservation that ends
    at the instant [D] where the candidate starts, or starts at the
    instant [D] where the candidate ends, is a conflict; when all four
    dates are at day granularity, sharing the calendar day [D] is
    enough. *)
Theorem checkConflict_inclusive_overlap :
  (forall s e s' e', s <= e -> s' <= e' ->
     (bookingRepository.orClauses s e s' e' = true <-> s <= e' /\ s' <= e))
  /\ (forall w (eid : ObjectId) s e ex,
        (forall id b, bookings w !! id = Some b -> startDate b <= endDate b) ->
        s <= e ->
        ((bookingRepository.checkConflict eid s e ex w).1 = Ok true
         <-> exists id b, bookings w !! id = Some b
               /\ equipmentId b = eid
               /\ Booking.status b ∈ [PENDING; CONFIRMED; ACTIVE]
               /\ ex <> Some id
               /\ s <= endDate b /\ startDate b <= e))
  /\ (forall w id b D other,
        bookings w !! id = Some b ->
        Booking.status b ∈ [PENDING; CONFIRMED; ACTIVE] ->
        startDate b <= endDate b ->
        (endDate b = D ->
           (bookingRepository.checkConflict (equipmentId b) D other None w).1
           = Ok true)
        /\ (startDate b = D ->
           (bookingRepository.checkConflict (equipmentId b) other D None w).1
           = Ok true))
  /\ (forall w id b s e,
        bookings w !! id = Some b ->
        Booking.status b ∈ [PENDING; CONFIRMED; ACTIVE] ->
        startDate b <= endDate b ->
        dayGranular (startDate b) -> dayGranular (endDate b) ->
        dayGranular s -> dayGranular e ->
        Day (endDate b) = Day s \/ Day (startDate b) = Day e ->
        (bookingRepository.checkConflict (equipmentId b) s e None w).1
        = Ok true).
Proof.
  assert (Hq : forall eid s e ex id b,
    startDate b <= endDate b -> s <= e ->
    (bookingRepository.conflictQuery eid s e ex id b = true
     <-> equipmentId b = eid
         /\ Booking.status b ∈ [PENDING; CONFIRMED; ACTIVE]
         /\ ex <> Some id /\ s <= endDate b /\ startDate b <= e)).
  { intros eid s e ex id b Hb Hse. unfold bookingRepository.conflictQuery.
    rewrite !andb_true_iff, bool_decide_eq_true.
    unfold bookingRepository.isActiveStatus. rewrite bool_decide_eq_true.
    rewrite orClauses_overlap by done.
    destruct ex as [x|].
    - rewrite bool_decide_eq_true. split.
      + intros [[[? ?] ?] ?]. split_and!; try tauto. congruence.
      + intros (? & ? & Hx & ? & ?). split_and!; try tauto. congruence.
    - split; [intros [[[? ?] ?] ?]|intros (? & ? & ? & ? & ?)]; split_and!;
        try tauto; done. }
  assert (Htouch : forall w id b D other,
    bookings w !! id = Some b ->
    Booking.status b ∈ [PENDING; CONFIRMED; ACTIVE] ->
    startDate b <= endDate b ->
    (endDate b = D ->
       (bookingRepository.checkConflict (equipmentId b) D other None w).1
       = Ok true)
    /\ (startDate b = D ->
       (bookingRepository.checkConflict (equipmentId b) other D None w).1
       = Ok true)).
  { intros w id b D other Hb Hst Hvalid. split; intros HD;
      apply checkConflict_true; exists id, b; (split; [done|]);
      unfold bookingRepository.conflictQuery, bookingRepository.isActiveStatus;
      rewrite !andb_true_iff, !bool_decide_eq_true; split_and!; try done;
      unfold bookingRepository.orClauses;
      rewrite !orb_true_iff, !andb_true_iff, !Z.leb_le, !Z.geb_le; lia. }
  split_and!.
  - apply orClauses_overlap.
  - intros w eid s e ex Hvalid Hse. rewrite checkConflict_true.
    split; intros (id & b & Hb & H); exists id, b; split; try done;
      by apply (Hq eid s e ex id b (Hvalid id b Hb) Hse).
  - exact Htouch.
  - intros w id b s e Hb Hst Hvalid Gs Ge Gs' Ge' [Hday|Hday].
    + apply (proj1 (Htouch w id b s e Hb Hst Hvalid)).
      by apply dayGranular_eq.
    + apply (proj2 (Htouch w id b e s Hb Hst Hvalid)).
      by apply dayGranular_eq.
Qed.

Lemma checkConflict_inclusive_overlap_witness :
  let b := stored 1%nat (midnight 2025 6 8) (midnight 2025 6 11) CONFIRMED in
  let w := storeWith b (paymentFor P_SUCCEEDED) in
  (bookingRepository.checkConflict 0%nat
     (midnight 2025 6 11) (midnight 2025 6 14) None w).1 = Ok true.
Proof.
  intros b w.
  refine (proj1 (proj1 (proj2 (proj2 checkConflict_inclusive_overlap))
                   w 0%nat b (midnight 2025 6 11) (midnight 2025 6 14) _ _ _) _).
  - reflexivity.
  - apply (bool_decide_eq_true_1
             (Booking.status b ∈ [PENDING; CONFIRMED; ACTIVE])). reflexivity.
  - vm_compute. discriminate.
  - reflexivity.
Defined.

(** ** C7: pricing *)

(** C7: for an equipment with daily rate [r], [calculateTotalAmount]
    works with the least whole number of days covering
    [endDate - startDate]; it fails with the Validation error exactly when
    that number is less than 1, and otherwise returns [r] times that
    number; the outcome is the same for any store and equipment with the
    same rate; rate 100 over a window of 3 days gives 300. *)
Theorem calculateTotalAmount_spec w (eid : ObjectId) eq s e :
  equipment w !! eid = Some eq ->
  let days := bookingDays s e in
  msPerDay * (days - 1) < e - s <= msPerDay * days
  /\ (days < 1 ->
        calculateTotalAmount eid s e w
        = (Err (ValidationError msgMinDuration), w))
  /\ (1 <= days ->
        calculateTotalAmount eid s e w
        = (Ok (Equipment.dailyRate eq * inject_Z days)%Q, w))
  /\ (forall w2 (eid2 : ObjectId) eq2,
        equipment w2 !! eid2 = Some eq2 ->
        Equipment.dailyRate eq2 = Equipment.dailyRate eq ->
        (calculateTotalAmount eid2 s e w2).1 = (calculateTotalAmount eid s e w).1)
  /\ (Equipment.dailyRate eq = 100%Q -> e - s = 3 * msPerDay ->
        calculateTotalAmount eid s e w = (Ok 300%Q, w)).
Proof.
  intros Heq days.
  assert (Hcalc : forall w' (eid' : ObjectId) eq', equipment w' !! eid' = Some eq' ->
            calculateTotalAmount eid' s e w'
            = (computeAmount (Equipment.dailyRate eq') s e, w')).
  { intros w' eid' eq' H. unfold calculateTotalAmount. unfoldM. by rewrite H. }
  pose proof (bookingDays_spec s e) as Hdays. fold days in Hdays.
  split_and!.
  - lia.
  - lia.
  - intros Hlt. rewrite (Hcalc _ _ _ Heq). unfold computeAmount. fold days.
    by apply Z.ltb_lt in Hlt as ->.
  - intros Hge. rewrite (Hcalc _ _ _ Heq). unfold computeAmount. fold days.
    by apply Z.ltb_ge in Hge as ->.
  - intros w2 eid2 eq2 H2 Hrate.
    rewrite (Hcalc _ _ _ Heq), (Hcalc _ _ _ H2), Hrate. done.
  - intros Hrate Hwin. rewrite (Hcalc _ _ _ Heq). unfold computeAmount.
    fold days. assert (days = 3) as -> by (unfold msPerDay in *; lia).
    rewrite Hrate. reflexivity.
Qed.

Lemma calculateTotalAmount_spec_witness :
  let hundred := {| Equipment.dailyRate := 100; Equipment.status := AVAILABLE |} in
  let w := {| bookings := ∅; payments := ∅;
              equipment := {[ 0%nat := hundred ]}; emitted := [] |} in
  calculateTotalAmount 0%nat (midnight 2025 6 8) (midnight 2025 6 11) w
  = (Ok 300%Q, w).
Proof.
  intros hundred w.
  refine (proj2 (proj2 (proj2 (proj2
            (calculateTotalAmount_spec w 0%nat hundred
               (midnight 2025 6 8) (midnight 2025 6 11) _)))) _ _);
    reflexivity.
Defined.

(** ** C8: the one-year limit *)

(** C8, as stated, fails: on 2023-03-01 a start on 2024-03-01 is 366 days
    ahead, more than today + 365 days, and it is accepted. *)
Lemma leap_year_start_accepted :
  let now := midnight 2023 3 1 + 9 * msPerHour in
  let s := midnight 2024 3 1 in
  let e := midnight 2024 3 4 in
  setHours0 s > setHours0 now + 365 * msPerDay
  /\ validateBookingDates now s e = Ok tt.
Proof. cbv zeta. split; vm_compute; reflexivity. Qed.

(** C8 (amended): [validateBookingDates] rejects with the
    too-far-in-future error exactly when the start day is not in the
    past, the end day is after the start day, and the start day is
    strictly after the day that carries the same month and day of the
    month one calendar year after now; that day is 365 or 366 days after
    today. *)
Theorem validateBookingDates_too_far now s e :
  (validateBookingDates now s e = Err (ValidationError msgTooFar)
   <-> Day now <= Day s /\ Day s < Day e
       /\ Day s > Day (setFullYear now (getFullYear now + 1)))
  /\ Day now + 365 <= Day (setFullYear now (getFullYear now + 1))
     <= Day now + 366.
Proof.
  split; [|apply setFullYear_next_bounds].
  unfold validateBookingDates.
  pose proof (midnight_lt s now) as Hpast.
  pose proof (midnight_lt s e) as Hend.
  pose proof (midnight_gt s (setFullYear now (getFullYear now + 1))) as Hfar.
  destruct (Z.ltb_spec (setHours0 s) (setHours0 now)).
  { split; [discriminate|]. lia. }
  destruct (Z.leb_spec (setHours0 e) (setHours0 s)).
  { split; [discriminate|]. lia. }
  destruct (Z.gtb_spec (setHours0 s) (setFullYear now (getFullYear now + 1))).
  - split; [|done]. lia.
  - split; [discriminate|]. lia.
Qed.

(** ** C9: creation is all or nothing *)

(** C9: when [createBooking] returns an error the collections are
    unchanged; when it succeeds the window was valid, the equipment exists
    and is available, no conflict was found, the window covers at least
    one day, and exactly one reservation was added, under a new id, with
    status [pending]. *)
Theorem createBooking_all_or_nothing now data w :
  match createBooking now data w with
  | (Err e, w') => w' = w
  | (Ok (id, b), w') =>
      bookings w !! id = None
      /\ bookings w' = <[id := b]> (bookings w)
      /\ size (bookings w') = S (size (bookings w))
      /\ Booking.status b = PENDING
      /\ validateBookingDates now (CreateBookingData.startDate data)
                              (CreateBookingData.endDate data) = Ok tt
      /\ (exists eq, equipment w !! CreateBookingData.equipmentId data = Some eq
                     /\ Equipment.status eq = AVAILABLE)
      /\ (bookingRepository.checkConflict
            (CreateBookingData.equipmentId data)
            (CreateBookingData.startDate data)
            (CreateBookingData.endDate data) None w).1 = Ok false
      /\ 1 <= bookingDays (CreateBookingData.startDate data)
                          (CreateBookingData.endDate data)
  end.
Proof.
  pose proof (createBooking_spec now data w) as Hspec.
  destruct (createBooking now data w) as [[[id b]|err] w'] eqn:Hc; [|done].
  destruct Hspec as (Hfresh & Hw & Hst).
  split_and!; try done.
  { rewrite Hw. by apply map_size_insert_None. }
  all: revert Hc; unfold createBooking; unfoldM;
    destruct (validateBookingDates _ _ _) as [[]|]; [|done];
    destruct (equipment w !! CreateBookingData.equipmentId data) as [eq|] eqn:Heq;
      [|done];
    destruct (negb _) eqn:Hav; [done|];
    rewrite checkConflict_world;
    destruct (0 <? _)%nat eqn:Hcount; [done|];
    unfold calculateTotalAmount; unfoldM; rewrite Heq; unfold computeAmount;
    destruct (bookingDays _ _ <? 1) eqn:Hdays; [done|]; intros _.
  - done.
  - exists eq. split; [done|].
    apply negb_false_iff in Hav. by apply bool_decide_eq_true in Hav.
  - done.
  - by apply Z.ltb_ge in Hdays.
Qed.

(** ** C10: a status in the patch *)

(** C10: for a reservation that is neither completed nor cancelled, a
    successful [updateBooking] whose patch carries a status stores that
    status as given, and for an admin or a logistics actor a patch that
    carries only a status always succeeds: no transition guard is
    applied, so a pending reservation goes to [active] or [completed]
    directly.  The owning customer does not get that far: [findById]
    has populated [customerId], the ownership test compares the text of
    the populated document with the caller's id, and every caller who is
    neither admin nor logistics, the owner included, is refused with
    an Authorization error and the store is left as it was. *)
Theorem updateBooking_status_verbatim
  (thisStartDate : option IBooking -> UpdateBookingData.t -> option Date)
  now id u r w b s :
  bookings w !! id = Some b ->
  isTerminal (Booking.status b) = false ->
  (forall data b' w',
     UpdateBookingData.status data = Some s ->
     updateBooking thisStartDate now id data u r w = (Ok b', w') ->
     Booking.status b' = s /\ bookings w' !! id = Some b')
  /\ (isOperatorRole r = true ->
      exists b' w',
        updateBooking thisStartDate now id (statusPatch s) u r w = (Ok b', w')
        /\ Booking.status b' = s
        /\ bookings w' !! id = Some b')
  /\ (isOperatorRole r = false ->
      forall data,
        updateBooking thisStartDate now id data (customerId b) r w
        = (Err (AuthorizationError msgUpdateOwn), w)
        /\ updateBooking thisStartDate now id data u r w
           = (Err (AuthorizationError msgUpdateOwn), w)).
Proof.
  intros Hb Ht. split_and!.
  - intros data b' w' Hs Hu.
    pose proof (updateBooking_spec thisStartDate now id data u r w) as Hspec.
    rewrite Hu in Hspec. destruct Hspec as (b0 & Hb0 & _ & Hst & Hw).
    rewrite Hs in Hst. split; [done|]. rewrite Hw. apply lookup_insert_eq.
  - intros Hop.
    destruct (updateBooking_statusPatch thisStartDate now id s u r w b Hb Ht Hop)
      as (w' & Hu & Hl).
    eexists _, w'. split_and!; [exact Hu|reflexivity|exact Hl].
  - intros Hop data.
    split; by apply updateBooking_not_operator with (b := b).
Qed.

Lemma updateBooking_status_verbatim_witness :
  let b := stored 1%nat (midnight 2025 6 8) (midnight 2025 6 11) PENDING in
  let w := storeWith b (paymentFor P_PENDING) in
  customerId b = 1%nat
  /\ updateBooking noThis today 0%nat (statusPatch COMPLETED) 1%nat "customer" w
     = (Err (AuthorizationError msgUpdateOwn), w)
  /\ exists b' w',
       updateBooking noThis today 0%nat (statusPatch COMPLETED) 9%nat "admin" w
       = (Ok b', w')
       /\ Booking.status b' = COMPLETED
       /\ bookings w' !! 0%nat = Some b'.
Proof.
  intros b w. split; [reflexivity|]. split.
  - refine (proj1 (proj2 (proj2 (updateBooking_status_verbatim
                   noThis today 0%nat 1%nat "customer" w b COMPLETED _ _)) _
                   (statusPatch COMPLETED))); reflexivity.
  - refine (proj1 (proj2 (updateBooking_status_verbatim
                   noThis today 0%nat 9%nat "admin" w b COMPLETED _ _)) _);
      reflexivity.
Defined.

(** ** The walkthrough of the specification, run on the model *)

Example walkthrough_create_fits_and_conflicts :
  let r := createBooking today reqA emptyStore in
  (totalAmount <$> (match r.1 with Ok (_, b) => Some b | Err _ => None end)
   = Some 150%Q)
  /\ (Booking.status <$> (match r.1 with Ok (_, b) => Some b | Err _ => None end)
      = Some PENDING)
  /\ (createBooking today reqB r.2).1 = Err (ConflictError msgBooked).
Proof. cbv zeta. split_and!; vm_compute; reflexivity. Qed.

Example walkthrough_start_before_start_date :
  let w := storeWith (stored 1%nat (midnight 2025 6 8) (midnight 2025 6 11) CONFIRMED)
                     (paymentFor P_SUCCEEDED) in
  startBooking today 0%nat w
  = (Err (ValidationError "Cannot start booking before the start date"), w).
Proof. vm_compute. reflexivity. Qed.

Example walkthrough_cancel_with_30_hours :
  let b := stored 1%nat (today + 30 * msPerHour) (today + 100 * msPerHour) CONFIRMED in
  let w := storeWith b (paymentFor P_SUCCEEDED) in
  (cancelBooking today 0%nat 9%nat "admin" w).1
  = Ok (bookingRepository.withStatus today CANCELLED b).
Proof. vm_compute. reflexivity. Qed.

(** * Further properties of the services *)

(** ** The status transitions *)

Lemma confirmBooking_iff now id w b' w' :
  confirmBooking now id w = (Ok b', w')
  <-> exists b, bookings w !! id = Some b /\ Booking.status b = PENDING
        /\ b' = bookingRepository.withStatus now CONFIRMED b
        /\ w' = addEvent (BookingConfirmed id) (setBookings (insert id b') w).
Proof.
  unfold confirmBooking. unfoldM.
  destruct (bookings w !! id) as [b|] eqn:Hb.
  2:{ split; [done|]. by intros (? & ? & _). }
  case_bool_decide as Hs.
  - split; [done|]. intros (b0 & [= <-] & ? & _). done.
  - rewrite (updateStatus_found _ _ _ _ _ Hb). split.
    + intros [= <- <-]. exists b. split_and!; try done; by destruct (Booking.status b).
    + intros (b0 & [= <-] & _ & -> & ->). done.
Qed.

Lemma startBooking_iff now id w b' w' :
  startBooking now id w = (Ok b', w')
  <-> exists b, bookings w !! id = Some b /\ Booking.status b = CONFIRMED
        /\ startDate b <= now
        /\ b' = bookingRepository.withStatus now ACTIVE b
        /\ w' = setBookings (insert id b') w.
Proof.
  unfold startBooking. unfoldM.
  destruct (bookings w !! id) as [b|] eqn:Hb.
  2:{ split; [done|]. by intros (? & ? & _). }
  case_bool_decide as Hs.
  - split; [done|]. intros (b0 & [= <-] & ? & _). done.
  - destruct (Z.ltb_spec now (startDate b)).
    + split; [done|]. intros (b0 & [= <-] & _ & ? & _). lia.
    + rewrite (updateStatus_found _ _ _ _ _ Hb). split.
      * intros [= <- <-]. exists b. split_and!; try done; by destruct (Booking.status b).
      * intros (b0 & [= <-] & _ & _ & -> & ->). done.
Qed.

Lemma completeBooking_iff now id w b' w' :
  completeBooking now id w = (Ok b', w')
  <-> exists b, bookings w !! id = Some b /\ Booking.status b = ACTIVE
        /\ b' = bookingRepository.withStatus now COMPLETED b
        /\ w' = setBookings (insert id b') w.
Proof.
  unfold completeBooking. unfoldM.
  destruct (bookings w !! id) as [b|] eqn:Hb.
  2:{ split; [done|]. by intros (? & ? & _). }
  case_bool_decide as Hs.
  - split; [done|]. intros (b0 & [= <-] & ? & _). done.
  - rewrite (updateStatus_found _ _ _ _ _ Hb). split.
    + intros [= <- <-]. exists b. split_and!; try done; by destruct (Booking.status b).
    + intros (b0 & [= <-] & _ & -> & ->). done.
Qed.

(** X1: [confirmBooking] succeeds exactly on a stored pending reservation,
    [startBooking] exactly on a confirmed one whose start date has come,
    [completeBooking] exactly on an active one; each then rewrites the
    status and the update time of that reservation and nothing else, and
    only [confirmBooking] sends a notification. *)
Theorem transitions_guarded now id w b' w' :
  (confirmBooking now id w = (Ok b', w')
   <-> exists b, bookings w !! id = Some b /\ Booking.status b = PENDING
         /\ b' = bookingRepository.withStatus now CONFIRMED b
         /\ w' = addEvent (BookingConfirmed id) (setBookings (insert id b') w))
  /\ (startBooking now id w = (Ok b', w')
      <-> exists b, bookings w !! id = Some b /\ Booking.status b = CONFIRMED
            /\ startDate b <= now
            /\ b' = bookingRepository.withStatus now ACTIVE b
            /\ w' = setBookings (insert id b') w)
  /\ (completeBooking now id w = (Ok b', w')
      <-> exists b, bookings w !! id = Some b /\ Booking.status b = ACTIVE
            /\ b' = bookingRepository.withStatus now COMPLETED b
            /\ w' = setBookings (insert id b') w).
Proof.
  split_and!;
    [apply confirmBooking_iff|apply startBooking_iff|apply completeBooking_iff].
Qed.

(** X2: A reservation that [createBooking] has just stored goes through
    confirm, start (once its start date has come) and complete, in that
    order; in the end the store holds it as completed, with the fields it
    was created with. *)
Theorem lifecycle_happy_path now0 now1 now2 now3 d w id b w1 :
  createBooking now0 d w = (Ok (id, b), w1) ->
  CreateBookingData.startDate d <= now2 ->
  exists w2 w3 w4,
    confirmBooking now1 id w1
    = (Ok (bookingRepository.withStatus now1 CONFIRMED b), w2)
    /\ startBooking now2 id w2
       = (Ok (bookingRepository.withStatus now2 ACTIVE b), w3)
    /\ completeBooking now3 id w3
       = (Ok (bookingRepository.withStatus now3 COMPLETED b), w4)
    /\ bookings w4 = <[id := bookingRepository.withStatus now3 COMPLETED b]> (bookings w1).
Proof.
  intros Hc Hstart.
  apply createBooking_ok in Hc as (_ & Hb & _ & Hst & _ & Hsd & _).
  assert (H1 : bookings w1 !! id = Some b) by (rewrite Hb; apply lookup_insert_eq).
  set (w2 := addEvent (BookingConfirmed id)
       (setBookings (insert id (bookingRepository.withStatus now1 CONFIRMED b)) w1)).
  set (w3 := setBookings (insert id (bookingRepository.withStatus now2 ACTIVE b)) w2).
  set (w4 := setBookings (insert id (bookingRepository.withStatus now3 COMPLETED b)) w3).
  exists w2, w3, w4. split_and!.
  - apply confirmBooking_iff. exists b. done.
  - apply startBooking_iff. exists (bookingRepository.withStatus now1 CONFIRMED b).
    split_and!; try done.
    + cbn. apply lookup_insert_eq.
    + cbn. lia.
  - apply completeBooking_iff. exists (bookingRepository.withStatus now2 ACTIVE b).
    split_and!; try done. cbn. apply lookup_insert_eq.
  - cbn. by rewrite !insert_insert_eq.
Qed.

Lemma lifecycle_happy_path_witness :
  exists w2 w3 w4,
    confirmBooking today 0%nat storeA
    = (Ok (bookingRepository.withStatus today CONFIRMED bookedA), w2)
    /\ startBooking (midnight 2025 6 8) 0%nat w2
       = (Ok (bookingRepository.withStatus (midnight 2025 6 8) ACTIVE bookedA), w3)
    /\ completeBooking (midnight 2025 6 11) 0%nat w3
       = (Ok (bookingRepository.withStatus (midnight 2025 6 11) COMPLETED bookedA), w4)
    /\ bookings w4
       = <[0%nat := bookingRepository.withStatus (midnight 2025 6 11) COMPLETED bookedA]>
           (bookings storeA).
Proof.
  refine (lifecycle_happy_path today today (midnight 2025 6 8) (midnight 2025 6 11)
            reqA emptyStore 0%nat bookedA storeA _ _).
  - vm_compute. reflexivity.
  - apply Z.leb_le. vm_compute. reflexivity.
Defined.

(** ** Window validation *)

Lemma validateBookingDates_cases now s e :
  validateBookingDates now s e
  = if decide (Day s < Day now) then Err (ValidationError msgPast)
    else if decide (Day e <= Day s) then Err (ValidationError msgEndBeforeStart)
    else if decide (Day s > Day (setFullYear now (getFullYear now + 1)))
         then Err (ValidationError msgTooFar)
         else Ok tt.
Proof.
  unfold validateBookingDates.
  pose proof (midnight_lt s now) as Hpast.
  pose proof (midnight_lt s e) as Hend.
  pose proof (midnight_gt s (setFullYear now (getFullYear now + 1))) as Hfar.
  destruct (Z.ltb_spec (setHours0 s) (setHours0 now));
    destruct (decide (Day s < Day now)); try lia; [done|].
  destruct (Z.leb_spec (setHours0 e) (setHours0 s));
    destruct (decide (Day e <= Day s)); try lia; [done|].
  destruct (Z.gtb_spec (setHours0 s) (setFullYear now (getFullYear now + 1)));
    destruct (decide (Day s > Day (setFullYear now (getFullYear now + 1))));
    try lia; done.
Qed.

(** X3: [validateBookingDates] compares calendar days, in this order: a start
    day before today is refused as past; otherwise an end day that is not
    after the start day is refused; a window is accepted exactly when it
    starts today or later, ends on a later day than it starts, and starts
    no later than the day one year from now. *)
Theorem validateBookingDates_outcomes now s e :
  (validateBookingDates now s e = Ok tt
   <-> Day now <= Day s /\ Day s < Day e
       /\ Day s <= Day (setFullYear now (getFullYear now + 1)))
  /\ (validateBookingDates now s e = Err (ValidationError msgPast)
      <-> Day s < Day now)
  /\ (validateBookingDates now s e = Err (ValidationError msgEndBeforeStart)
      <-> Day now <= Day s /\ Day e <= Day s).
Proof.
  rewrite validateBookingDates_cases.
  repeat case_decide; split_and!; split; intros; try discriminate; try lia; try done.
Qed.

(** An accepted window ends after it starts and covers at least a day. *)
Lemma validated_window now s e :
  validateBookingDates now s e = Ok tt -> s < e /\ 1 <= bookingDays s e.
Proof.
  rewrite validateBookingDates_cases.
  repeat case_decide; try discriminate. intros _.
  assert (Hse : Day s < Day e) by lia.
  assert (s < e).
  { unfold Day, msPerDay in Hse. Z.div_mod_to_equations. lia. }
  split; [done|]. pose proof (bookingDays_spec s e). unfold msPerDay in *. nia.
Qed.

(** ** Availability and creation *)

Lemma checkAvailability_true now eid s e w :
  checkAvailability now eid s e w = (Ok true, w)
  <-> validateBookingDates now s e = Ok tt
      /\ (exists eq, equipment w !! eid = Some eq
                     /\ Equipment.status eq = AVAILABLE)
      /\ (bookingRepository.checkConflict eid s e None w).1 = Ok false.
Proof.
  unfold checkAvailability. unfoldM.
  destruct (validateBookingDates now s e) as [[]|].
  2:{ split; [done|]. by intros (? & _). }
  destruct (equipment w !! eid) as [eq|].
  2:{ split; [intros [=]|]. intros (_ & (eq & Hq & _) & _). discriminate. }
  case_bool_decide as Hav; cbn [negb].
  - rewrite checkConflict_world. cbn [fst].
    destruct (0 <? _)%nat; cbn [negb].
    + split; [intros [=]|intros (_ & _ & [=])].
    + split; [|done]. intros _. repeat split. eauto.
  - split; [done|]. intros (_ & (eq' & [= <-] & ?) & _). done.
Qed.

Lemma createBooking_after_checks now d w eq :
  validateBookingDates now (CreateBookingData.startDate d)
                       (CreateBookingData.endDate d) = Ok tt ->
  equipment w !! CreateBookingData.equipmentId d = Some eq ->
  Equipment.status eq = AVAILABLE ->
  (bookingRepository.checkConflict (CreateBookingData.equipmentId d)
     (CreateBookingData.startDate d) (CreateBookingData.endDate d) None w).1
  = Ok false ->
  createBooking now d w
  = match bookingRepository.create now
            (bookingOf now d
               (Equipment.dailyRate eq
                * inject_Z (bookingDays (CreateBookingData.startDate d)
                                        (CreateBookingData.endDate d)))%Q) w with
    | (Ok booking, w') => (Ok booking, addEvent (BookingCreated booking.1) w')
    | (Err err, w') => (Err err, w')
    end.
Proof.
  intros Hv Heq Hav Hc. unfold createBooking. unfoldM. rewrite Hv, Heq.
  rewrite bool_decide_eq_true_2 by done. cbn [negb].
  rewrite checkConflict_world in *. cbn [fst] in Hc. injection Hc as ->.
  unfold calculateTotalAmount. unfoldM. rewrite Heq. unfold computeAmount.
  destruct (validated_window _ _ _ Hv) as [_ Hd].
  apply Z.ltb_ge in Hd. rewrite Hd. fold (bookingOf now d
    (Equipment.dailyRate eq * inject_Z (bookingDays (CreateBookingData.startDate d)
                                        (CreateBookingData.endDate d)))%Q).
  by destruct (bookingRepository.create _ _ _) as [[|] ?].
Qed.

Lemma totalAmount_ok rate days :
  (0 <= rate)%Q -> 1 <= days -> totalAmountValidator (rate * inject_Z days)%Q = true.
Proof.
  intros Hr Hd. unfold totalAmountValidator. apply Qle_bool_iff.
  apply Qmult_le_0_compat; [done|].
  unfold Qle, inject_Z. simpl. lia.
Qed.

(** X4: A window that [checkAvailability] reports free, on an equipment with
    a rate that is not negative and with a delivery address, is accepted
    by [createBooking] when its start date is not before the clock.  When
    the start date is earlier than the clock, which the day-granular
    validation allows for the current day, the schema validator of
    [startDate] refuses the document and the call fails with
    [DatabaseError], the store unchanged. *)
Theorem available_then_created now d w eq :
  checkAvailability now (CreateBookingData.equipmentId d)
    (CreateBookingData.startDate d) (CreateBookingData.endDate d) w
  = (Ok true, w) ->
  equipment w !! CreateBookingData.equipmentId d = Some eq ->
  (0 <= Equipment.dailyRate eq)%Q ->
  CreateBookingData.deliveryAddress d <> "" ->
  (now <= CreateBookingData.startDate d ->
     exists id b w', createBooking now d w = (Ok (id, b), w'))
  /\ (CreateBookingData.startDate d < now ->
     createBooking now d w = (Err (DatabaseError "Failed to create booking"), w)).
Proof.
  intros Hav Heq Hrate Haddr.
  apply checkAvailability_true in Hav as (Hv & (eq' & Heq' & Hst) & Hc).
  rewrite Heq in Heq'. injection Heq' as <-.
  rewrite (createBooking_after_checks now d w eq Hv Heq Hst Hc).
  destruct (validated_window _ _ _ Hv) as [Hse Hd].
  unfold bookingRepository.create, startDateValidator, endDateValidator.
  cbn [bookingOf startDate endDate deliveryAddress totalAmount].
  rewrite totalAmount_ok by done.
  assert (nonEmpty (CreateBookingData.deliveryAddress d) = true) as ->.
  { by destruct (CreateBookingData.deliveryAddress d). }
  assert ((CreateBookingData.endDate d >? CreateBookingData.startDate d) = true) as ->.
  { apply Z.gtb_lt. lia. }
  split; intros Hnow.
  - assert ((CreateBookingData.startDate d >=? now) = true) as ->.
    { apply Z.geb_le. lia. }
    cbn [andb]. eauto.
  - assert ((CreateBookingData.startDate d >=? now) = false) as ->.
    { rewrite Z.geb_leb. apply Z.leb_gt. lia. }
    done.
Qed.

Lemma available_then_created_witness :
  (today <= CreateBookingData.startDate reqA ->
     exists id b w', createBooking today reqA emptyStore = (Ok (id, b), w'))
  /\ (CreateBookingData.startDate reqA < today ->
     createBooking today reqA emptyStore
     = (Err (DatabaseError "Failed to create booking"), emptyStore)).
Proof.
  refine (available_then_created today reqA emptyStore mixer _ _ _ _).
  - vm_compute. reflexivity.
  - reflexivity.
  - vm_compute. discriminate.
  - discriminate.
Defined.

Lemma conflictQuery_overlap eid s e ex id b :
  startDate b <= endDate b -> s <= e ->
  (bookingRepository.conflictQuery eid s e ex id b = true
   <-> equipmentId b = eid
       /\ bookingRepository.isActiveStatus (Booking.status b) = true
       /\ ex <> Some id /\ s <= endDate b /\ startDate b <= e).
Proof.
  intros Hb Hse. unfold bookingRepository.conflictQuery.
  rewrite !andb_true_iff, bool_decide_eq_true.
  rewrite orClauses_overlap by done.
  destruct ex as [x|].
  - rewrite bool_decide_eq_true. split.
    + intros [[[? ?] ?] ?]. split_and!; try tauto. congruence.
    + intros (? & ? & Hx & ? & ?). split_and!; try tauto. congruence.
  - split; [intros [[[? ?] ?] ?]|intros (? & ? & ? & ? & ?)]; split_and!;
      try tauto; done.
Qed.

Lemma checkConflict_false (eid : ObjectId) s e ex w :
  (bookingRepository.checkConflict eid s e ex w).1 = Ok false
  <-> forall id b, bookings w !! id = Some b ->
        bookingRepository.conflictQuery eid s e ex id b = false.
Proof.
  pose proof (checkConflict_true eid s e ex w) as Ht.
  rewrite checkConflict_world in *. cbn [fst] in *.
  destruct (0 <? _)%nat.
  - split; [intros [=]|]. intros Hall.
    destruct (proj1 Ht eq_refl) as (id & b & Hb & Hq).
    rewrite (Hall id b Hb) in Hq. discriminate.
  - split; [|done]. intros _ id b Hb.
    destruct (bookingRepository.conflictQuery eid s e ex id b) eqn:Hq; [|done].
    assert (Ok false = Ok true) as [=]. apply Ht. eauto.
Qed.

(** X5: [checkAvailability] writes nothing.  Over a store whose windows end
    no earlier than they start, it answers yes exactly when the window is
    valid, the equipment exists with status available, and no pending,
    confirmed or active reservation of that equipment shares an instant
    with the window, the boundaries included; for an equipment that is
    not available it answers no rather than failing. *)
Theorem checkAvailability_spec now eid s e w :
  (forall id b, bookings w !! id = Some b -> startDate b <= endDate b) ->
  (checkAvailability now eid s e w).2 = w
  /\ (checkAvailability now eid s e w = (Ok true, w)
      <-> validateBookingDates now s e = Ok tt
          /\ (exists eq, equipment w !! eid = Some eq
                         /\ Equipment.status eq = AVAILABLE)
          /\ (forall id b, bookings w !! id = Some b ->
                equipmentId b = eid ->
                bookingRepository.isActiveStatus (Booking.status b) = true ->
                ~ (s <= endDate b /\ startDate b <= e)))
  /\ (forall eq, validateBookingDates now s e = Ok tt ->
        equipment w !! eid = Some eq -> Equipment.status eq <> AVAILABLE ->
        checkAvailability now eid s e w = (Ok false, w)).
Proof.
  intros Hvalid. split_and!.
  - unfold checkAvailability. unfoldM.
    destruct (validateBookingDates now s e); [|done].
    destruct (equipment w !! eid); [|done]. by destruct (negb _).
  - rewrite checkAvailability_true. split.
    + intros (Hv & Heq & Hc). split_and!; try done.
      intros id b Hb He Hact Hov.
      destruct (validated_window _ _ _ Hv) as [Hse _].
      rewrite checkConflict_false in Hc. specialize (Hc id b Hb).
      apply not_true_iff_false in Hc. apply Hc.
      apply conflictQuery_overlap; [by eapply Hvalid|lia|]. by destruct Hov.
    + intros (Hv & Heq & Hfree). split_and!; try done.
      destruct (validated_window _ _ _ Hv) as [Hse _].
      apply checkConflict_false. intros id b Hb.
      apply not_true_iff_false. intros Hq.
      apply conflictQuery_overlap in Hq as (He & Hact & _ & ? & ?);
        [|by eapply Hvalid|lia].
      by apply (Hfree id b Hb He Hact).
  - intros eq Hv Heq Hst. unfold checkAvailability. unfoldM.
    rewrite Hv, Heq. by rewrite bool_decide_eq_false_2.
Qed.

Lemma checkAvailability_spec_witness :
  let s := midnight 2025 6 11 in
  let e := midnight 2025 6 12 in
  (checkAvailability today 0%nat s e storeA).2 = storeA
  /\ (checkAvailability today 0%nat s e storeA = (Ok true, storeA)
      <-> validateBookingDates today s e = Ok tt
          /\ (exists eq, equipment storeA !! 0%nat = Some eq
                         /\ Equipment.status eq = AVAILABLE)
          /\ (forall id b, bookings storeA !! id = Some b ->
                equipmentId b = 0%nat ->
                bookingRepository.isActiveStatus (Booking.status b) = true ->
                ~ (s <= endDate b /\ startDate b <= e)))
  /\ (forall eq, validateBookingDates today s e = Ok tt ->
        equipment storeA !! 0%nat = Some eq -> Equipment.status eq <> AVAILABLE ->
        checkAvailability today 0%nat s e storeA = (Ok false, storeA)).
Proof.
  refine (checkAvailability_spec today 0%nat (midnight 2025 6 11)
            (midnight 2025 6 12) storeA _).
  intros id b Hb.
  change (bookings storeA) with (<[0%nat := bookedA]> (∅ : gmap ObjectId IBooking))
    in Hb.
  apply lookup_insert_Some in Hb as [[_ <-]|[_ Hb]].
  - vm_compute. discriminate.
  - rewrite lookup_empty in Hb. discriminate Hb.
Defined.

(** ** What [createBooking] stores *)

Lemma createBooking_ok_checks now d w id b w' :
  createBooking now d w = (Ok (id, b), w') ->
  validateBookingDates now (CreateBookingData.startDate d)
                       (CreateBookingData.endDate d) = Ok tt
  /\ (exists eq, equipment w !! CreateBookingData.equipmentId d = Some eq
                 /\ Equipment.status eq = AVAILABLE)
  /\ (bookingRepository.checkConflict (CreateBookingData.equipmentId d)
        (CreateBookingData.startDate d) (CreateBookingData.endDate d) None w).1
     = Ok false.
Proof.
  unfold createBooking. unfoldM.
  destruct (validateBookingDates _ _ _) as [[]|]; [|done].
  destruct (equipment w !! CreateBookingData.equipmentId d) as [eq|] eqn:Heq;
    [|done].
  destruct (negb _) eqn:Hav; [done|].
  rewrite checkConflict_world.
  destruct (0 <? _)%nat eqn:Hcount; [done|]. intros _.
  split_and!; try done. exists eq. split; [done|].
  apply negb_false_iff in Hav. by apply bool_decide_eq_true in Hav.
Qed.

(** X6: The reservation [createBooking] returns is the request, field for
    field, with status pending, the notes trimmed, both time stamps at the
    clock, and the price at the daily rate of the equipment times the
    number of days started; one creation notification is sent. *)
Theorem createBooking_stores_request now d w id b w' :
  createBooking now d w = (Ok (id, b), w') ->
  exists eq, equipment w !! CreateBookingData.equipmentId d = Some eq
    /\ b = {| customerId := CreateBookingData.customerId d;
              equipmentId := CreateBookingData.equipmentId d;
              startDate := CreateBookingData.startDate d;
              endDate := CreateBookingData.endDate d;
              deliveryAddress := CreateBookingData.deliveryAddress d;
              status := PENDING;
              totalAmount :=
                (Equipment.dailyRate eq
                 * inject_Z (bookingDays (CreateBookingData.startDate d)
                                         (CreateBookingData.endDate d)))%Q;
              notes := trim <$> CreateBookingData.notes d;
              createdAt := now; updatedAt := now |}
    /\ emitted w' = (emitted w ++ [BookingCreated id])%list.
Proof.
  intros Hc.
  destruct (createBooking_ok_checks now d w id b w' Hc) as (Hv & (eq & Heq & Hst) & Hcc).
  rewrite (createBooking_after_checks now d w eq Hv Heq Hst Hcc) in Hc.
  exists eq. split; [done|].
  unfold bookingRepository.create in Hc.
  destruct (_ && _)%bool; [|done]. by injection Hc as <- <- <-.
Qed.

Lemma createBooking_stores_request_witness :
  exists eq, equipment emptyStore !! CreateBookingData.equipmentId reqA = Some eq
    /\ bookedA
       = {| customerId := CreateBookingData.customerId reqA;
            equipmentId := CreateBookingData.equipmentId reqA;
            startDate := CreateBookingData.startDate reqA;
            endDate := CreateBookingData.endDate reqA;
            deliveryAddress := CreateBookingData.deliveryAddress reqA;
            status := PENDING;
            totalAmount :=
              (Equipment.dailyRate eq
               * inject_Z (bookingDays (CreateBookingData.startDate reqA)
                                       (CreateBookingData.endDate reqA)))%Q;
            notes := trim <$> CreateBookingData.notes reqA;
            createdAt := today; updatedAt := today |}
    /\ emitted storeA = (emitted emptyStore ++ [BookingCreated 0%nat])%list.
Proof.
  refine (createBooking_stores_request today reqA emptyStore 0%nat bookedA storeA _).
  vm_compute. reflexivity.
Defined.

(** X7: A failed [createBooking] leaves the store as it was, and it never
    fails with the minimum-duration error of [calculateTotalAmount]:
    [validateBookingDates] has run first and has refused every window
    that ends on the day it starts or before. *)
Theorem createBooking_failure now d w err w' :
  createBooking now d w = (Err err, w') ->
  w' = w /\ err <> ValidationError msgMinDuration.
Proof.
  unfold createBooking. unfoldM.
  destruct (validateBookingDates _ _ _) as [[]|err0] eqn:Hv.
  2:{ intros [= <- <-]. split; [done|]. revert Hv.
      rewrite validateBookingDates_cases.
      repeat case_decide; by intros [= <-]. }
  destruct (equipment w !! _) as [eq|] eqn:Heq.
  2:{ by intros [= <- <-]. }
  destruct (negb _) eqn:Hav.
  { intros [= <- <-]. split; [done|].
    by destruct (Equipment.status eq). }
  rewrite checkConflict_world. destruct (0 <? _)%nat.
  { by intros [= <- <-]. }
  unfold calculateTotalAmount. unfoldM. rewrite Heq. unfold computeAmount.
  destruct (validated_window _ _ _ Hv) as [_ Hd].
  apply Z.ltb_ge in Hd. rewrite Hd.
  match goal with |- context [bookingRepository.create ?n ?dd ?w] =>
    unfold bookingRepository.create end.
  destruct (_ && _)%bool; [done|].
  by intros [= <- <-].
Qed.

Lemma createBooking_failure_witness :
  storeA = storeA /\ ConflictError msgBooked <> ValidationError msgMinDuration.
Proof.
  refine (createBooking_failure today reqB storeA (ConflictError msgBooked) storeA _).
  vm_compute. reflexivity.
Defined.

(** ** [deleteBooking] *)

Lemma deleteBooking_ok id w w' :
  deleteBooking id w = (Ok tt, w') ->
  exists b, bookings w !! id = Some b
    /\ (Booking.status b = PENDING \/ Booking.status b = CANCELLED)
    /\ w' = setBookings (delete id) w.
Proof.
  unfold deleteBooking, bookingRepository.deleteById. unfoldM.
  destruct (bookings w !! id) as [b|] eqn:Hb; [|done].
  destruct (_ && _)%bool eqn:Hc; [done|].
  rewrite Hb. intros [= <-]. exists b. split_and!; [done| |done].
  apply andb_false_iff in Hc as [H1%bool_decide_eq_false|H1%bool_decide_eq_false];
    destruct (Booking.status b); auto; by destruct H1.
Qed.

(** X8: [deleteBooking] removes a stored reservation that is pending or
    cancelled, and that document only; a missing id is [NotFoundError], a
    confirmed, active or completed reservation is refused with
    [ValidationError], and a refused call leaves the store as it was. *)
Theorem deleteBooking_spec id w :
  match deleteBooking id w with
  | (Ok _, w') =>
      exists b, bookings w !! id = Some b
        /\ (Booking.status b = PENDING \/ Booking.status b = CANCELLED)
        /\ w' = setBookings (delete id) w
  | (Err e, w') =>
      w' = w
      /\ (bookings w !! id = None /\ e = NotFoundError "Booking not found"
          \/ exists b, bookings w !! id = Some b
               /\ Booking.status b ∈ [CONFIRMED; ACTIVE; COMPLETED]
               /\ e = ValidationError msgDelete)
  end.
Proof.
  unfold deleteBooking, bookingRepository.deleteById. unfoldM.
  destruct (bookings w !! id) as [b|] eqn:Hb; [|by split; [|left]].
  destruct (_ && _)%bool eqn:Hc.
  - split; [done|]. right. exists b. split_and!; [done| |done].
    apply andb_true_iff in Hc as [H1%bool_decide_eq_true H2%bool_decide_eq_true].
    rewrite !elem_of_cons. destruct (Booking.status b); auto; done.
  - rewrite Hb. exists b. split_and!; [done| |done].
    apply andb_false_iff in Hc as [H1%bool_decide_eq_false|H1%bool_decide_eq_false];
      destruct (Booking.status b); auto; by destruct H1.
Qed.

(** ** The conflict query and the reservations it skips *)

Lemma checkConflict_exclude (eid : ObjectId) s e x w :
  (bookingRepository.checkConflict eid s e (Some x) w).1
  = (bookingRepository.checkConflict eid s e None (setBookings (delete x) w)).1.
Proof.
  rewrite !checkConflict_world. cbn [fst bookings setBookings]. f_equal.
  apply eq_true_iff_eq. rewrite !countDocuments_pos.
  split; intros (id & b & Hb & Hq); exists id, b.
  - assert (id <> x).
    { intros ->. unfold bookingRepository.conflictQuery in Hq.
      rewrite (bool_decide_eq_false_2 (x <> x)) in Hq by (intros Hx; by apply Hx).
      by rewrite andb_false_r in Hq. }
    rewrite lookup_delete_ne by done. split; [done|].
    unfold bookingRepository.conflictQuery in *.
    rewrite !andb_true_iff in Hq. rewrite !andb_true_iff.
    destruct Hq as [[[? ?] ?] ?]. done.
  - destruct (decide (x = id)) as [->|Hne]; [by rewrite lookup_delete_eq in Hb|].
    rewrite lookup_delete_ne in Hb by done. split; [done|].
    unfold bookingRepository.conflictQuery in *.
    rewrite !andb_true_iff in Hq. rewrite !andb_true_iff.
    destruct Hq as [[[? ?] ?] ?]. split_and!; try done.
    by apply bool_decide_eq_true_2.
Qed.

(** X9: Excluding a reservation from [checkConflict] gives the answer the
    query would give if that reservation were not stored; excluding an id
    that is not stored changes nothing. *)
Theorem checkConflict_exclude_is_delete (eid : ObjectId) s e x w :
  (bookingRepository.checkConflict eid s e (Some x) w).1
  = (bookingRepository.checkConflict eid s e None (setBookings (delete x) w)).1
  /\ (bookings w !! x = None ->
      (bookingRepository.checkConflict eid s e (Some x) w).1
      = (bookingRepository.checkConflict eid s e None w).1).
Proof.
  split; [apply checkConflict_exclude|].
  intros Hx. rewrite checkConflict_exclude, !checkConflict_world.
  cbn [fst bookings setBookings]. by rewrite delete_id.
Qed.

(** A reservation written with a status outside pending, confirmed and
    active counts for the conflict query as if it were not there. *)
Lemma checkConflict_insert_inactive (eid : ObjectId) s e ex id b w :
  bookingRepository.isActiveStatus (Booking.status b) = false ->
  (bookingRepository.checkConflict eid s e ex (setBookings (insert id b) w)).1
  = (bookingRepository.checkConflict eid s e ex (setBookings (delete id) w)).1.
Proof.
  intros Hin. rewrite !checkConflict_world. cbn [fst bookings setBookings]. f_equal.
  apply eq_true_iff_eq. rewrite !countDocuments_pos.
  split; intros (id' & b' & Hb & Hq); exists id', b'.
  - destruct (decide (id = id')) as [->|Hne].
    + rewrite lookup_insert_eq in Hb. injection Hb as <-.
      unfold bookingRepository.conflictQuery in Hq. rewrite Hin in Hq.
      by rewrite andb_false_r in Hq.
    + rewrite lookup_insert_ne in Hb by done. by rewrite lookup_delete_ne.
  - destruct (decide (id = id')) as [->|Hne]; [by rewrite lookup_delete_eq in Hb|].
    rewrite lookup_delete_ne in Hb by done. by rewrite lookup_insert_ne.
Qed.

Lemma checkConflict_bookings (eid : ObjectId) s e ex w1 w2 :
  bookings w1 = bookings w2 ->
  (bookingRepository.checkConflict eid s e ex w1).1
  = (bookingRepository.checkConflict eid s e ex w2).1.
Proof. intros H. rewrite !checkConflict_world. cbn [fst]. by rewrite H. Qed.

(** X10: Cancelling, completing or deleting a reservation releases its
    window: afterwards [checkConflict] answers for every equipment and
    window what it answered before with that reservation excluded. *)
Theorem release_frees_window (eid : ObjectId) s e id w :
  (forall now u r b' w', cancelBooking now id u r w = (Ok b', w') ->
     (bookingRepository.checkConflict eid s e None w').1
     = (bookingRepository.checkConflict eid s e (Some id) w).1)
  /\ (forall now b' w', completeBooking now id w = (Ok b', w') ->
     (bookingRepository.checkConflict eid s e None w').1
     = (bookingRepository.checkConflict eid s e (Some id) w).1)
  /\ (forall w', deleteBooking id w = (Ok tt, w') ->
     (bookingRepository.checkConflict eid s e None w').1
     = (bookingRepository.checkConflict eid s e (Some id) w).1).
Proof.
  split_and!.
  - intros now u r b' w' Hc.
    apply cancelBooking_ok in Hc as (b & Hb & _ & -> & Hw).
    rewrite checkConflict_exclude.
    rewrite <- (checkConflict_insert_inactive eid s e None id
                  (bookingRepository.withStatus now CANCELLED b) w) by done.
    by apply checkConflict_bookings.
  - intros now b' w' Hc.
    apply completeBooking_iff in Hc as (b & Hb & _ & -> & ->).
    rewrite checkConflict_exclude.
    by rewrite <- (checkConflict_insert_inactive eid s e None id
                  (bookingRepository.withStatus now COMPLETED b) w).
  - intros w' Hd. apply deleteBooking_ok in Hd as (b & _ & _ & ->).
    by rewrite checkConflict_exclude.
Qed.

(** ** [updateBooking] *)

Section UpdateMore.
Variable thisStartDate : option IBooking -> UpdateBookingData.t -> option Date.

(** What a successful [updateBooking] wrote: the caller is an operator
    and the patch carries no date. *)
Lemma updateBooking_ok now id data u r w b' w' :
  updateBooking thisStartDate now id data u r w = (Ok b', w') ->
  exists b,
    bookings w !! id = Some b
    /\ isOperatorRole r = true
    /\ isTerminal (Booking.status b) = false
    /\ UpdateBookingData.startDate data = None
    /\ UpdateBookingData.endDate data = None
    /\ b' = bookingRepository.applySet now data b
    /\ bookings w' = <[id := b']> (bookings w).
Proof.
  unfold updateBooking. unfoldM.
  destruct (bookings w !! id) as [b|] eqn:Hb; [|done].
  destruct (_ && _ && _)%bool eqn:Hauth; [done|].
  assert (Hop : isOperatorRole r = true).
  { unfold isOperatorRole.
    rewrite bool_decide_eq_true_2, andb_true_r in Hauth by done.
    by destruct (String.eqb r "admin"), (String.eqb r "logistics"). }
  destruct (_ || _)%bool eqn:Hterm; [done|].
  apply orb_false_iff in Hterm as [Hc Hx].
  apply bool_decide_eq_false in Hc, Hx.
  assert (Ht : isTerminal (Booking.status b) = false) by by apply isTerminal_false.
  destruct (_ || _)%bool eqn:Hdates.
  - by destruct (validateBookingDates _ _ _).
  - match goal with |- context [bookingRepository.updateById _ ?n (Hex ?i) ?dd ?w] =>
      pose proof (updateById_spec thisStartDate n i dd w) as Hu;
      destruct (bookingRepository.updateById thisStartDate n i dd w) as [[b1|err] w2] end;
      [|done].
    destruct Hu as (b0 & Hb0 & -> & ->). rewrite Hb in Hb0. injection Hb0 as <-.
    intros [= <- <-]. exists b.
    apply orb_false_iff in Hdates as [H1 H2].
    apply bool_decide_eq_false in H1, H2.
    split_and!; try done.
    + destruct (UpdateBookingData.startDate data); [|done]. exfalso. eauto.
    + destruct (UpdateBookingData.endDate data); [|done]. exfalso. eauto.
Qed.

(** A date patch reaches [checkConflict] with [String(booking.equipmentId)],
    the text of the populated equipment, and the driver refuses it. *)
Lemma updateBooking_dates now id data u r w b :
  bookings w !! id = Some b ->
  isOperatorRole r = true ->
  isTerminal (Booking.status b) = false ->
  is_Some (UpdateBookingData.startDate data)
  \/ is_Some (UpdateBookingData.endDate data) ->
  validateBookingDates now
    (default (startDate b) (UpdateBookingData.startDate data))
    (default (endDate b) (UpdateBookingData.endDate data)) = Ok tt ->
  updateBooking thisStartDate now id data u r w
  = (Err (DatabaseError "Failed to check booking conflict"), w).
Proof.
  intros Hb Hop [Hc Hx]%isTerminal_false Hd Hv.
  unfold updateBooking. unfoldM. rewrite Hb.
  assert ((negb (String.eqb r "admin") && negb (String.eqb r "logistics")
           && bool_decide (PopulatedText (customerId b) ≠ Hex u))%bool = false) as ->.
  { unfold isOperatorRole in Hop. apply orb_true_iff in Hop as [-> | ->]; [done|].
    by rewrite andb_false_r. }
  rewrite !bool_decide_eq_false_2 by done. cbn [orb].
  assert ((bool_decide (is_Some (UpdateBookingData.startDate data))
           || bool_decide (is_Some (UpdateBookingData.endDate data)))%bool = true) as ->.
  { apply orb_true_iff. rewrite !bool_decide_eq_true. done. }
  by rewrite Hv.
Qed.

End UpdateMore.

(** X11: [updateBooking] checks in this order: a missing reservation is
    [NotFoundError]; a caller who is neither admin nor logistics gets
    [AuthorizationError], whoever the caller is (the ownership test
    compares the text of the populated customer with the caller's id
    and never passes); for an admin or a logistics actor a completed or
    cancelled reservation is refused with [ValidationError].  No failing
    call changes the store. *)
Theorem updateBooking_rejections
  (thisStartDate : option IBooking -> UpdateBookingData.t -> option Date)
  now id data u r w :
  (bookings w !! id = None ->
     updateBooking thisStartDate now id data u r w
     = (Err (NotFoundError "Booking not found"), w))
  /\ (forall b, bookings w !! id = Some b ->
        isOperatorRole r = false ->
        updateBooking thisStartDate now id data u r w
        = (Err (AuthorizationError msgUpdateOwn), w))
  /\ (forall b, bookings w !! id = Some b ->
        isOperatorRole r = true ->
        isTerminal (Booking.status b) = true ->
        exists m, updateBooking thisStartDate now id data u r w
                  = (Err (ValidationError m), w))
  /\ (forall e w', updateBooking thisStartDate now id data u r w = (Err e, w') ->
        w' = w).
Proof.
  split_and!.
  - intros Hb. unfold updateBooking. unfoldM. by rewrite Hb.
  - intros b Hb Hop. by apply updateBooking_not_operator with (b := b).
  - intros b Hb Hop Ht. unfold updateBooking. unfoldM. rewrite Hb.
    assert ((negb (String.eqb r "admin") && negb (String.eqb r "logistics")
             && bool_decide (PopulatedText (customerId b) ≠ Hex u))%bool = false) as ->.
    { unfold isOperatorRole in Hop. apply orb_true_iff in Hop as [-> | ->]; [done|].
      by rewrite andb_false_r. }
    unfold isTerminal in Ht. apply bool_decide_eq_true in Ht.
    assert ((bool_decide (Booking.status b = COMPLETED)
             || bool_decide (Booking.status b = CANCELLED))%bool = true) as ->.
    { apply orb_true_iff. rewrite !bool_decide_eq_true. done. }
    eauto.
  - intros e w' Hu. pose proof (updateBooking_spec thisStartDate now id data u r w) as H.
    by rewrite Hu in H.
Qed.

(** X12: A successful [updateBooking] comes from an admin or a logistics
    actor and its patch carries no date; it keeps the customer, the
    equipment, the window and the creation time of the reservation, and
    a [totalAmount] in the patch is stored as given.  A patch with a
    start or an end date never gets through: once the merged window has
    passed [validateBookingDates], [checkConflict] is called with the
    text of the populated equipment and fails with a [DatabaseError],
    so no window is moved and no price is computed again. *)
Theorem updateBooking_dates_never_stored
  (thisStartDate : option IBooking -> UpdateBookingData.t -> option Date)
  now id data u r w :
  (forall b' w',
     updateBooking thisStartDate now id data u r w = (Ok b', w') ->
     exists b,
       bookings w !! id = Some b
       /\ isOperatorRole r = true
       /\ UpdateBookingData.startDate data = None
       /\ UpdateBookingData.endDate data = None
       /\ customerId b' = customerId b /\ equipmentId b' = equipmentId b
       /\ createdAt b' = createdAt b
       /\ startDate b' = startDate b /\ endDate b' = endDate b
       /\ totalAmount b'
          = default (totalAmount b) (UpdateBookingData.totalAmount data))
  /\ (forall b,
        bookings w !! id = Some b ->
        isOperatorRole r = true ->
        isTerminal (Booking.status b) = false ->
        is_Some (UpdateBookingData.startDate data)
        \/ is_Some (UpdateBookingData.endDate data) ->
        validateBookingDates now
          (default (startDate b) (UpdateBookingData.startDate data))
          (default (endDate b) (UpdateBookingData.endDate data)) = Ok tt ->
        updateBooking thisStartDate now id data u r w
        = (Err (DatabaseError "Failed to check booking conflict"), w)).
Proof.
  split.
  - intros b' w' Hu.
    apply (updateBooking_ok thisStartDate) in Hu
      as (b & Hb & Hop & _ & Hs & He & -> & _).
    exists b. cbn. rewrite Hs, He. done.
  - intros b. apply updateBooking_dates.
Qed.

Lemma updateBooking_dates_never_stored_witness :
  let b0 := stored 1%nat (midnight 2025 6 8) (midnight 2025 6 11) PENDING in
  let w := storeWith b0 (paymentFor P_PENDING) in
  updateBooking noThis today 0%nat startsLater 9%nat "admin" w
  = (Err (DatabaseError "Failed to check booking conflict"), w).
Proof.
  intros b0 w.
  refine (proj2 (updateBooking_dates_never_stored
                   noThis today 0%nat startsLater 9%nat "admin" w) b0 _ _ _ _ _).
  - reflexivity.
  - reflexivity.
  - reflexivity.
  - left. vm_compute. eauto.
  - vm_compute. reflexivity.
Defined.

(** ** The store never holds a double booking *)

Lemma isActive_not_terminal s :
  isTerminal s = false <-> bookingRepository.isActiveStatus s = true.
Proof. by destruct s. Qed.

(** Rewriting a live reservation without touching its equipment or its
    window keeps the invariant, whatever status is written. *)
Lemma NoDoubleBooking_same_window m id b b' :
  NoDoubleBooking m ->
  m !! id = Some b ->
  bookingRepository.isActiveStatus (Booking.status b) = true ->
  equipmentId b' = equipmentId b ->
  startDate b' = startDate b -> endDate b' = endDate b ->
  NoDoubleBooking (<[id := b']> m).
Proof.
  intros Hinv Hb Hact He Hs Hn id1 id2 b1 b2 Hne H1 H2 Heq A1 A2.
  unfold overlapping.
  destruct (decide (id1 = id)) as [->|N1]; destruct (decide (id2 = id)) as [->|N2].
  - done.
  - rewrite lookup_insert_eq in H1. rewrite lookup_insert_ne in H2 by done.
    injection H1 as <-. rewrite Hs, Hn.
    apply (Hinv id id2 b b2); try done. congruence.
  - rewrite lookup_insert_eq in H2. rewrite lookup_insert_ne in H1 by done.
    injection H2 as <-. rewrite Hs, Hn.
    apply (Hinv id1 id b1 b); try done. congruence.
  - rewrite lookup_insert_ne in H1, H2 by done. by apply (Hinv id1 id2).
Qed.

(** Writing a window that [checkConflict] found free, the document at [id]
    left out of the search, keeps the invariant. *)
Lemma NoDoubleBooking_free_window m id b' :
  NoDoubleBooking m ->
  (forall id2 b2, m !! id2 = Some b2 ->
     bookingRepository.conflictQuery (equipmentId b') (startDate b') (endDate b')
       (Some id) id2 b2 = false) ->
  NoDoubleBooking (<[id := b']> m).
Proof.
  intros Hinv Hfree id1 id2 b1 b2 Hne H1 H2 Heq A1 A2.
  assert (Hno : forall i c, i <> id -> m !! i = Some c ->
            equipmentId c = equipmentId b' ->
            bookingRepository.isActiveStatus (Booking.status c) = true ->
            ~ (startDate b' <= endDate c /\ startDate c <= endDate b')).
  { intros i c Hi Hc Hec Hac [Ha Hb].
    specialize (Hfree i c Hc). unfold bookingRepository.conflictQuery in Hfree.
    rewrite (bool_decide_eq_true_2 _ Hec), Hac in Hfree.
    rewrite (overlap_orClauses _ _ _ _ Ha Hb) in Hfree.
    rewrite (bool_decide_eq_true_2 _ Hi) in Hfree. done. }
  unfold overlapping.
  destruct (decide (id1 = id)) as [->|N1]; destruct (decide (id2 = id)) as [->|N2].
  - done.
  - rewrite lookup_insert_eq in H1. rewrite lookup_insert_ne in H2 by done.
    injection H1 as <-. by apply (Hno id2 b2).
  - rewrite lookup_insert_eq in H2. rewrite lookup_insert_ne in H1 by done.
    injection H2 as <-. intros [? ?]. by apply (Hno id1 b1).
  - rewrite lookup_insert_ne in H1, H2 by done. by apply (Hinv id1 id2).
Qed.

Lemma conflictQuery_exclude eid s e x id b :
  bookingRepository.conflictQuery eid s e None id b = false ->
  bookingRepository.conflictQuery eid s e (Some x) id b = false.
Proof.
  unfold bookingRepository.conflictQuery. rewrite andb_true_r.
  by intros ->.
Qed.

Lemma createBooking_NoDoubleBooking now d w :
  NoDoubleBooking (bookings w) ->
  NoDoubleBooking (bookings (createBooking now d w).2).
Proof.
  intros Hinv.
  pose proof (createBooking_spec now d w) as Hspec.
  destruct (createBooking now d w) as [[[id b]|err] w'] eqn:Hc.
  - pose proof (createBooking_ok _ _ _ _ _ _ Hc) as (_ & Hb & _ & _ & He & Hs & Hn).
    apply createBooking_ok_checks in Hc as (_ & _ & Hfree).
    cbn [snd]. rewrite Hb. apply NoDoubleBooking_free_window; [done|].
    intros id2 b2 H2. rewrite He, Hs, Hn. apply conflictQuery_exclude.
    by apply (proj1 (checkConflict_false _ _ _ _ _) Hfree).
  - cbn [snd]. by rewrite Hspec.
Qed.

Lemma cancelBooking_err now id u r w e w' :
  cancelBooking now id u r w = (Err e, w') -> w' = w.
Proof.
  unfold cancelBooking. unfoldM.
  destruct (bookings w !! id) as [b|] eqn:Hb; [|by intros [= _ <-]].
  destruct (_ && _)%bool; [by intros [= _ <-]|].
  case_bool_decide; [by intros [= _ <-]|]. case_bool_decide; [by intros [= _ <-]|].
  destruct (_ && _)%bool; [by intros [= _ <-]|].
  rewrite (updateStatus_found _ _ _ _ _ Hb). done.
Qed.

Section OpsInvariant.
Variable thisStartDate : option IBooking -> UpdateBookingData.t -> option Date.

Lemma updateBooking_NoDoubleBooking now id data u r w :
  NoDoubleBooking (bookings w) ->
  NoDoubleBooking (bookings (updateBooking thisStartDate now id data u r w).2).
Proof.
  intros Hinv.
  pose proof (updateBooking_spec thisStartDate now id data u r w) as Hspec.
  destruct (updateBooking thisStartDate now id data u r w) as [[b'|err] w'] eqn:Hu;
    cbn [snd]; [|by subst w'].
  clear Hspec.
  apply updateBooking_ok in Hu as (b & Hb & _ & Ht & Hs & He & Hb' & ->).
  apply (NoDoubleBooking_same_window _ _ b); try done.
  - by apply isActive_not_terminal.
  - by subst b'.
  - subst b'. cbn. by rewrite Hs.
  - subst b'. cbn. by rewrite He.
Qed.

Lemma stepOp_NoDoubleBooking w req :
  isBookingOp req.2 = true ->
  NoDoubleBooking (bookings w) ->
  NoDoubleBooking (bookings (stepOp thisStartDate w req)).
Proof.
  destruct req as [now o]. intros Hop Hinv.
  destruct o; cbn [stepOp]; try discriminate Hop.
  - by apply createBooking_NoDoubleBooking.
  - by apply updateBooking_NoDoubleBooking.
  - destruct (cancelBooking now id userId userRole w) as [[b'|e] w'] eqn:Hc;
      cbn [snd].
    + apply cancelBooking_ok in Hc as (b & Hb & Ht & -> & ->).
      apply (NoDoubleBooking_same_window _ _ b); try done.
      by apply isActive_not_terminal.
    + by rewrite (cancelBooking_err _ _ _ _ _ _ _ Hc).
  - unfold confirmBooking. unfoldM.
    destruct (bookings w !! id) as [b|] eqn:Hb; [|done].
    case_bool_decide as Hs; [done|].
    rewrite (updateStatus_found _ _ _ _ _ Hb). cbn.
    apply (NoDoubleBooking_same_window _ _ b); try done.
    by destruct (Booking.status b).
  - unfold startBooking. unfoldM.
    destruct (bookings w !! id) as [b|] eqn:Hb; [|done].
    case_bool_decide as Hs; [done|].
    destruct (now <? _); [done|].
    rewrite (updateStatus_found _ _ _ _ _ Hb). cbn.
    apply (NoDoubleBooking_same_window _ _ b); try done.
    by destruct (Booking.status b).
  - unfold completeBooking. unfoldM.
    destruct (bookings w !! id) as [b|] eqn:Hb; [|done].
    case_bool_decide as Hs; [done|].
    rewrite (updateStatus_found _ _ _ _ _ Hb). cbn.
    apply (NoDoubleBooking_same_window _ _ b); try done.
    by destruct (Booking.status b).
  - by rewrite handlePaymentFailure_bookings.
Qed.

End OpsInvariant.

(** X13: Run one after the other, the operations of [BookingService] (create,
    update, cancel, confirm, start, complete) and the payment-failure
    webhook never put two pending, confirmed or active reservations of
    one equipment on overlapping windows: a store without a double
    booking stays without one. *)
Theorem bookingOps_keep_NoDoubleBooking
  (thisStartDate : option IBooking -> UpdateBookingData.t -> option Date)
  reqs w :
  Forall (fun req => isBookingOp req.2 = true) reqs ->
  NoDoubleBooking (bookings w) ->
  NoDoubleBooking (bookings (runOps thisStartDate reqs w)).
Proof.
  intros Hall. revert w. induction Hall as [|req reqs Hop _ IH]; intros w Hinv.
  - done.
  - cbn [runOps fold_left]. apply IH. by apply stepOp_NoDoubleBooking.
Qed.


Lemma bookingOps_keep_NoDoubleBooking_witness :
  NoDoubleBooking
    (bookings (runOps noThis
                 [(today, OpCreate reqA); (today, OpCreate reqB);
                  (today, OpConfirm 0%nat);
                  (today, OpUpdate 0%nat startsLater 1%nat "customer")]
                 emptyStore)).
Proof.
  refine (bookingOps_keep_NoDoubleBooking noThis _ emptyStore _ _).
  - repeat constructor.
  - intros id1 id2 b1 b2 _ H1.
    change (bookings emptyStore) with (∅ : gmap ObjectId IBooking) in H1.
    rewrite lookup_empty in H1. discriminate H1.
Defined.

Lemma bookingOps_keep_terminal_witness :
  let b := stored 1%nat (midnight 2025 6 8) (midnight 2025 6 11) COMPLETED in
  bookings (runOps noThis
              [(today, OpCancel 0%nat 1%nat "admin");
               (today, OpUpdate 0%nat (statusPatch ACTIVE) 1%nat "admin");
               (today, OpConfirm 0%nat)]
              (storeWith b (paymentFor P_SUCCEEDED))) !! 0%nat
  = Some b.
Proof.
  intros b.
  refine (bookingOps_keep_terminal noThis _ (storeWith b (paymentFor P_SUCCEEDED))
            0%nat b _ _ _).
  - repeat constructor.
  - reflexivity.
  - reflexivity.
Defined.

(** ** Payment webhooks *)

Lemma findByStripePaymentIntentId_None intent w :
  (forall pid p, payments w !! pid = Some p ->
     Payment.stripePaymentIntentId p <> intent) ->
  paymentRepository.findByStripePaymentIntentId intent w = (Ok None, w).
Proof.
  intros Hno. unfold paymentRepository.findByStripePaymentIntentId, gets.
  destruct (head _) as [[pid p]|] eqn:Hh; [|done].
  apply head_Some_elem_of, list_elem_of_filter in Hh as [Hi Hin].
  apply elem_of_map_to_list in Hin. by destruct (Hno pid p Hin).
Qed.

(** X15: A webhook for an intent that no stored payment carries is answered
    without error and changes nothing, for success and for failure
    alike. *)
Theorem webhook_unknown_intent now intent w :
  (forall pid p, payments w !! pid = Some p ->
     Payment.stripePaymentIntentId p <> intent) ->
  handlePaymentSuccess now intent w = (Ok tt, w)
  /\ handlePaymentFailure now intent w = (Ok tt, w).
Proof.
  intros Hno. apply findByStripePaymentIntentId_None in Hno.
  unfold handlePaymentSuccess, handlePaymentFailure, bind.
  by rewrite Hno.
Qed.

Lemma webhook_unknown_intent_witness :
  let w := storeWith (stored 1%nat (midnight 2025 6 8) (midnight 2025 6 11) PENDING)
                     (paymentFor P_PENDING) in
  handlePaymentSuccess today "pi_2" w = (Ok tt, w)
  /\ handlePaymentFailure today "pi_2" w = (Ok tt, w).
Proof.
  intros w. refine (webhook_unknown_intent today "pi_2" w _).
  intros pid p Hp.
  change (payments w) with ({[ 0%nat := paymentFor P_PENDING ]}
                           : gmap ObjectId Payment.IPayment) in Hp.
  apply lookup_singleton_Some in Hp as [_ <-]. discriminate.
Defined.

Lemma findByStripePaymentIntentId_unique intent w pid p :
  payments w !! pid = Some p ->
  Payment.stripePaymentIntentId p = intent ->
  (forall pid' p', payments w !! pid' = Some p' ->
     Payment.stripePaymentIntentId p' = intent -> pid' = pid) ->
  paymentRepository.findByStripePaymentIntentId intent w = (Ok (Some (pid, p)), w).
Proof.
  intros Hp Hi Huniq. unfold paymentRepository.findByStripePaymentIntentId, gets.
  destruct (head _) as [[pid' p']|] eqn:Hh.
  - apply head_Some_elem_of, list_elem_of_filter in Hh as [Hi' Hin].
    apply elem_of_map_to_list in Hin. cbn in Hi'.
    assert (pid' = pid) as -> by by eapply Huniq.
    rewrite Hp in Hin. by injection Hin as ->.
  - apply head_None in Hh.
    assert (Hin : (pid, p) ∈ filter
              (fun kv : ObjectId * Payment.IPayment =>
                 Payment.stripePaymentIntentId kv.2 = intent)
              (map_to_list (payments w))).
    { apply list_elem_of_filter. split; [done|]. by apply elem_of_map_to_list. }
    rewrite Hh in Hin. by apply elem_of_nil in Hin.
Qed.

(** X16: The success webhook writes the payment before it looks at the
    reservation: when the reservation of the payment is not stored, the
    call fails with [NotFoundError] and the payment stays marked as
    succeeded; no notification is sent. *)
Theorem handlePaymentSuccess_booking_gone now intent w pid p :
  payments w !! pid = Some p ->
  Payment.stripePaymentIntentId p = intent ->
  (forall pid' p', payments w !! pid' = Some p' ->
     Payment.stripePaymentIntentId p' = intent -> pid' = pid) ->
  bookings w !! Payment.bookingId p = None ->
  handlePaymentSuccess now intent w
  = (Err (NotFoundError "Booking not found"),
     setPayments (insert pid (paymentRepository.withStatus now P_SUCCEEDED p)) w).
Proof.
  intros Hp Hi Huniq Hb.
  pose proof (findByStripePaymentIntentId_unique _ _ _ _ Hp Hi Huniq) as Hf.
  unfold handlePaymentSuccess, bind at 1. rewrite Hf.
  unfold paymentRepository.updateStatus, bind at 1. rewrite Hp.
  unfold bind at 1. unfold bookingRepository.updateStatus. cbn. by rewrite Hb.
Qed.

Lemma handlePaymentSuccess_booking_gone_witness :
  handlePaymentSuccess today "pi_1" orphanStore
  = (Err (NotFoundError "Booking not found"),
     setPayments
       (insert 0%nat (paymentRepository.withStatus today P_SUCCEEDED
                        (paymentFor P_PENDING))) orphanStore).
Proof.
  refine (handlePaymentSuccess_booking_gone today "pi_1" orphanStore 0%nat
            (paymentFor P_PENDING) _ _ _ _).
  - reflexivity.
  - reflexivity.
  - intros pid' p' Hp _.
    change (payments orphanStore) with ({[ 0%nat := paymentFor P_PENDING ]}
                                      : gmap ObjectId Payment.IPayment) in Hp.
    apply lookup_singleton_Some in Hp as [<- _]. reflexivity.
  - reflexivity.
Defined.

(** ** [createPaymentIntent] *)

Lemma findByBookingId_Some (bid : ObjectId) w pid p :
  paymentRepository.findByBookingId bid w = (Ok (Some (pid, p)), w) ->
  payments w !! pid = Some p /\ Payment.bookingId p = bid.
Proof.
  unfold paymentRepository.findByBookingId, gets.
  intros [= Hh].
  apply head_Some_elem_of, list_elem_of_filter in Hh as [Hi Hin].
  apply elem_of_map_to_list in Hin. done.
Qed.

Lemma findByBookingId_world (bid : ObjectId) w :
  (paymentRepository.findByBookingId bid w).2 = w.
Proof. done. Qed.

Lemma paymentRepository_create_spec now data w :
  match paymentRepository.create now data w with
  | (Ok (pid, p), w') =>
      payments w !! pid = None /\ w' = setPayments (insert pid p) w
      /\ Payment.bookingId p = Payment.bookingId data
      /\ Payment.stripePaymentIntentId p = Payment.stripePaymentIntentId data
      /\ Payment.amount p = Payment.amount data
      /\ Payment.status p = Payment.status data
  | (Err _, w') => w' = w
  end.
Proof.
  unfold paymentRepository.create. destruct (_ && _ && _)%bool; [|done].
  split_and!; try done.
  apply (not_elem_of_dom (D := gset ObjectId)). apply is_fresh.
Qed.

(** X17: [createPaymentIntent] writes nothing when it fails.  When it
    succeeds, the reservation exists, is pending or confirmed, and the
    caller is an admin or its owner (a logistics actor is not enough);
    the payment returned is pending and belongs to the reservation; and
    either it is a stored pending payment that the gateway could retrieve,
    returned with the store unchanged, or it is a new document, stored
    under a fresh id, for the total amount of the reservation and the
    intent the gateway created. *)
Theorem createPaymentIntent_spec now retrieved created data w :
  match createPaymentIntent now retrieved created data w with
  | (Err _, w') => w' = w
  | (Ok ((pid, p), secret), w') =>
      exists b, bookings w !! CreatePaymentIntentData.bookingId data = Some b
        /\ (Booking.status b = PENDING \/ Booking.status b = CONFIRMED)
        /\ (CreatePaymentIntentData.userRole data = "admin"
            \/ customerId b = CreatePaymentIntentData.userId data)
        /\ Payment.bookingId p = CreatePaymentIntentData.bookingId data
        /\ Payment.status p = P_PENDING
        /\ ((w' = w /\ payments w !! pid = Some p /\ retrieved = Some secret)
            \/ (payments w !! pid = None
                /\ w' = setPayments (insert pid p) w
                /\ Payment.amount p = totalAmount b
                /\ created = Some (Payment.stripePaymentIntentId p, secret)))
  end.
Proof.
  unfold createPaymentIntent. unfold bind at 1.
  unfold bookingRepository.findById, gets. cbn [fst snd].
  destruct (bookings w !! CreatePaymentIntentData.bookingId data) as [b|] eqn:Hb;
    [|done].
  destruct (negb _ && _)%bool eqn:Hauth; [done|].
  destruct (bool_decide (Booking.status b ≠ PENDING) && _)%bool eqn:Hst; [done|].
  assert (Hauth' : CreatePaymentIntentData.userRole data = "admin"
                   \/ customerId b = CreatePaymentIntentData.userId data).
  { apply andb_false_iff in Hauth as [H|H].
    - left. apply negb_false_iff in H. by apply String.eqb_eq.
    - apply bool_decide_eq_false in H. exfalso. by apply H. }
  assert (Hst' : Booking.status b = PENDING \/ Booking.status b = CONFIRMED).
  { apply andb_false_iff in Hst as [H|H]; apply bool_decide_eq_false in H;
      [left|right]; by apply dec_stable. }
  clear Hauth Hst. set (createNew := catchWith _ _).
  assert (Hnew : match createNew w with
    | (Err _, w') => w' = w
    | (Ok ((pid, p), secret), w') =>
        Payment.bookingId p = CreatePaymentIntentData.bookingId data
        /\ Payment.status p = P_PENDING
        /\ payments w !! pid = None
        /\ w' = setPayments (insert pid p) w
        /\ Payment.amount p = totalAmount b
        /\ created = Some (Payment.stripePaymentIntentId p, secret)
    end).
  { subst createNew. unfold catchWith, bind at 1.
    destruct created as [[iid secret]|]; [|done]. cbn [stripeCreate ret fst snd].
    unfold bind.
    match goal with |- context [paymentRepository.create ?n ?d ?w] =>
      pose proof (paymentRepository_create_spec n d w) as Hc;
      destruct (paymentRepository.create n d w) as [[[pid p]|e] w'] end; [|done].
    destruct Hc as (Hfresh & -> & Hbid & Hiid & Hamt & Hstat). cbn in *.
    split_and!; try done. by rewrite Hiid. }
  unfold bind.
  destruct (paymentRepository.findByBookingId _ w) as [[[[pid existing]|]|e] w0] eqn:Hf.
  - pose proof (findByBookingId_world (CreatePaymentIntentData.bookingId data) w) as Hw.
    rewrite Hf in Hw. cbn in Hw. subst w0.
    apply findByBookingId_Some in Hf as [Hp Hbid].
    case_bool_decide as Hfailed.
    + case_bool_decide as Hpending; [|done].
      destruct retrieved as [secret|]; cbn [stripeRetrieve ret throw].
      * exists b. split_and!; try done. left. done.
      * destruct (createNew w) as [[[[pid' p'] secret]|e] w'']; [|done].
        destruct Hnew as (? & ? & ? & ? & ? & ?).
        exists b. split_and!; try done. right. done.
    + destruct (createNew w) as [[[[pid' p'] secret]|e] w'']; [|done].
      destruct Hnew as (? & ? & ? & ? & ? & ?).
      exists b. split_and!; try done. right. done.
  - pose proof (findByBookingId_world (CreatePaymentIntentData.bookingId data) w) as Hw.
    rewrite Hf in Hw. cbn in Hw. subst w0.
    destruct (createNew w) as [[[[pid' p'] secret]|e] w'']; [|done].
    destruct Hnew as (? & ? & ? & ? & ? & ?).
    exists b. split_and!; try done. right. done.
  - discriminate Hf.
Qed.

(** ** Reading a payment *)

(** X18: [deleteBooking] leaves the payments of the reservation in place, and
    the ownership check of [getPaymentByBookingId] needs the reservation:
    what an administrator could read before the deletion, every caller can
    read after it. *)
Theorem payment_outlives_booking id w w' pay u r :
  deleteBooking id w = (Ok tt, w') ->
  getPaymentByBookingId id 0%nat "admin" w = (Ok pay, w) ->
  getPaymentByBookingId id u r w' = (Ok pay, w').
Proof.
  intros Hd Hg. apply deleteBooking_ok in Hd as (b & Hb & _ & ->).
  revert Hg. unfold getPaymentByBookingId, bind.
  unfold paymentRepository.findByBookingId, bookingRepository.findById, gets.
  cbn. destruct (head _) as [pay'|]; [|done].
  change (bookings (setBookings (delete id) w)) with (delete id (bookings w)).
  rewrite Hb, lookup_delete_eq. by intros [= ->].
Qed.

Lemma payment_outlives_booking_witness :
  let w := storeWith (stored 1%nat (midnight 2025 6 8) (midnight 2025 6 11) PENDING)
                     (paymentFor P_PENDING) in
  getPaymentByBookingId 0%nat 7%nat "customer" (setBookings (delete 0%nat) w)
  = (Ok (0%nat, paymentFor P_PENDING), setBookings (delete 0%nat) w).
Proof.
  intros w.
  refine (payment_outlives_booking 0%nat w (setBookings (delete 0%nat) w)
            (0%nat, paymentFor P_PENDING) 7%nat "customer" _ _).
  - vm_compute. reflexivity.
  - vm_compute. reflexivity.
Defined.

(** ** Refunds *)

Lemma refundPayment_accepted now data w p :
  payments w !! RefundPaymentData.paymentId data = Some p ->
  Payment.status p = P_SUCCEEDED ->
  exists p', payments (refundPayment now true data w).2
             = <[RefundPaymentData.paymentId data := p']> (payments w)
    /\ Payment.status p' = P_REFUNDED
    /\ Payment.amount p' = Payment.amount p
    /\ Payment.refundDate p' = Some now.
Proof.
  intros Hp Hs. unfold refundPayment. unfoldM. rewrite Hp, Hs.
  rewrite (bool_decide_eq_false_2 (P_SUCCEEDED <> P_SUCCEEDED)) by auto.
  cbn [andb].
  rewrite (bool_decide_eq_false_2 (P_SUCCEEDED = P_REFUNDED)) by done.
  cbn [stripeRefundsCreate ret fst snd].
  unfold paymentRepository.setRefund. rewrite Hp.
  eexists. split.
  - by destruct (Qle_bool _ _).
  - split_and!; reflexivity.
Qed.

(** X19: [refundPayment] refuses a missing payment and a payment that has not
    succeeded, and fails without writing when the gateway refuses.  Once
    the gateway has accepted, the payment is stored as refunded, its
    amount kept and the refund dated at the clock, whatever the rest of
    the call does; every later refund of that payment is refused as
    already refunded and changes nothing. *)
Theorem refundPayment_once now accepts data w :
  (payments w !! RefundPaymentData.paymentId data = None ->
     refundPayment now accepts data w = (Err (NotFoundError "Payment not found"), w))
  /\ (forall p, payments w !! RefundPaymentData.paymentId data = Some p ->
        Payment.status p <> P_SUCCEEDED ->
        exists m, refundPayment now accepts data w = (Err (ValidationError m), w))
  /\ (forall p, payments w !! RefundPaymentData.paymentId data = Some p ->
        Payment.status p = P_SUCCEEDED -> accepts = false ->
        refundPayment now accepts data w
        = (Err (ExternalServiceError "Failed to process refund"), w))
  /\ (forall p, payments w !! RefundPaymentData.paymentId data = Some p ->
        Payment.status p = P_SUCCEEDED -> accepts = true ->
        exists p', payments (refundPayment now accepts data w).2
                   = <[RefundPaymentData.paymentId data := p']> (payments w)
          /\ Payment.status p' = P_REFUNDED
          /\ Payment.amount p' = Payment.amount p
          /\ Payment.refundDate p' = Some now
          /\ forall now' accepts' data',
               RefundPaymentData.paymentId data' = RefundPaymentData.paymentId data ->
               refundPayment now' accepts' data' (refundPayment now accepts data w).2
               = (Err (ValidationError "Payment has already been refunded"),
                  (refundPayment now accepts data w).2)).
Proof.
  split_and!.
  - intros Hp. unfold refundPayment. unfoldM. by rewrite Hp.
  - intros p Hp Hs. unfold refundPayment. unfoldM. rewrite Hp.
    rewrite (bool_decide_eq_true_2 _ Hs). cbn [andb].
    destruct (decide (Payment.status p = P_REFUNDED)) as [Hr|Hr].
    + rewrite (bool_decide_eq_false_2 (Payment.status p <> P_REFUNDED)) by auto.
      rewrite (bool_decide_eq_true_2 _ Hr). eauto.
    + rewrite (bool_decide_eq_true_2 _ Hr). eauto.
  - intros p Hp Hs ->. unfold refundPayment. unfoldM. rewrite Hp, Hs.
    done.
  - intros p Hp Hs ->.
    destruct (refundPayment_accepted now data w p Hp Hs)
      as (p' & Hpay & Hst & Hamt & Hdate).
    exists p'. split_and!; try done.
    intros now' accepts' data' Hid.
    remember (refundPayment now true data w).2 as w' eqn:Hw'. clear Hw'.
    unfold refundPayment. unfoldM.
    rewrite Hid, Hpay, lookup_insert_eq, Hst. done.
Qed.

(** ** Revenue *)

Lemma sumAmounts_cons kv l :
  (paymentRepository.sumAmounts (succeededOnly (kv :: l))
   == counted kv.2 + paymentRepository.sumAmounts (succeededOnly l))%Q.
Proof.
  unfold succeededOnly, counted. rewrite filter_cons.
  destruct (decide (Payment.status kv.2 = P_SUCCEEDED)) as [Hs|Hs].
  - rewrite (bool_decide_eq_true_2 _ Hs). reflexivity.
  - rewrite (bool_decide_eq_false_2 _ Hs). ring.
Qed.

Lemma sumAmounts_perm l1 l2 :
  l1 ≡ₚ l2 ->
  (paymentRepository.sumAmounts (succeededOnly l1)
   == paymentRepository.sumAmounts (succeededOnly l2))%Q.
Proof.
  induction 1 as [|x l l' _ IH|x y l|l l' l'' _ IH1 _ IH2].
  - reflexivity.
  - rewrite !sumAmounts_cons, IH. reflexivity.
  - rewrite !sumAmounts_cons. ring.
  - by rewrite IH1.
Qed.

Lemma getTotalRevenue_sum w :
  getTotalRevenue w
  = (Ok (paymentRepository.sumAmounts (succeededOnly (map_to_list (payments w)))), w).
Proof.
  unfold getTotalRevenue, paymentRepository.getTotalRevenue, gets.
  fold (succeededOnly (map_to_list (payments w))).
  by destruct (succeededOnly _).
Qed.

(** Rewriting one payment moves the revenue by what the old and the new
    document count for. *)
Lemma revenue_insert w w' pid p p' r r' :
  payments w !! pid = Some p ->
  payments w' = <[pid := p']> (payments w) ->
  (getTotalRevenue w).1 = Ok r -> (getTotalRevenue w').1 = Ok r' ->
  (r' == r - counted p + counted p')%Q.
Proof.
  intros Hp Hw'. rewrite !getTotalRevenue_sum. cbn [fst]. intros [= <-] [= <-].
  rewrite Hw'.
  rewrite (sumAmounts_perm (map_to_list (<[pid:=p']> (payments w)))
             ((pid, p') :: map_to_list (delete pid (payments w)))).
  2:{ rewrite <- insert_delete_eq. apply map_to_list_insert, lookup_delete_eq. }
  rewrite (sumAmounts_perm (map_to_list (payments w))
             ((pid, p) :: map_to_list (delete pid (payments w)))).
  2:{ symmetry. by apply map_to_list_delete. }
  rewrite !sumAmounts_cons. cbn [snd]. ring.
Qed.

(** X20: [getTotalRevenue] adds up the payments in status succeeded.  A refund
    that the gateway accepts therefore takes the whole amount of the
    payment out of the revenue, whatever part of it was given back. *)
Theorem refund_drops_payment_from_revenue now data w p r :
  payments w !! RefundPaymentData.paymentId data = Some p ->
  Payment.status p = P_SUCCEEDED ->
  (getTotalRevenue w).1 = Ok r ->
  exists r', (getTotalRevenue (refundPayment now true data w).2).1 = Ok r'
    /\ (r' == r - Payment.amount p)%Q.
Proof.
  intros Hp Hs Hr.
  destruct (refundPayment_accepted now data w p Hp Hs) as (p' & Hpay & Hst & _).
  set (w' := (refundPayment now true data w).2) in *.
  assert (Hr' : (getTotalRevenue w').1
                = Ok (paymentRepository.sumAmounts
                        (succeededOnly (map_to_list (payments w')))))
    by by rewrite getTotalRevenue_sum.
  eexists. split; [exact Hr'|].
  etransitivity; [exact (revenue_insert w w' _ p p' r _ Hp Hpay Hr Hr')|].
  unfold counted. rewrite Hs, Hst.
  rewrite (bool_decide_eq_true_2 (P_SUCCEEDED = P_SUCCEEDED)) by done.
  rewrite (bool_decide_eq_false_2 (P_REFUNDED = P_SUCCEEDED)) by done. ring.
Qed.

Lemma refund_drops_payment_from_revenue_witness :
  let w := storeWith (stored 1%nat (midnight 2025 6 8) (midnight 2025 6 11) CONFIRMED)
                     (paymentFor P_SUCCEEDED) in
  exists r', (getTotalRevenue (refundPayment today true partialRefund w).2).1 = Ok r'
    /\ (r' == 150 - Payment.amount (paymentFor P_SUCCEEDED))%Q.
Proof.
  intros w.
  refine (refund_drops_payment_from_revenue today partialRefund w
            (paymentFor P_SUCCEEDED) 150 _ _ _).
  - reflexivity.
  - reflexivity.
  - vm_compute. reflexivity.
Defined.

(** ** Equipment *)

Lemma updateEquipmentStatus_ok id st w eq' w' :
  updateEquipmentStatus id st w = (Ok eq', w') ->
  exists eq, equipment w !! id = Some eq
    /\ eq' = {| Equipment.dailyRate := Equipment.dailyRate eq;
                Equipment.status := st |}
    /\ w' = equipmentRepository.setEquipment (insert id eq') w.
Proof.
  unfold updateEquipmentStatus. unfoldM.
  destruct (equipment w !! id) as [eq|] eqn:Heq; [|done].
  unfold equipmentRepository.updateById. cbn [from_option]. rewrite Heq.
  intros [= <- <-]. by exists eq.
Qed.

(** X21: Taking an equipment out of service touches no reservation, and from
    then on it cannot be booked: for a valid window [createBooking]
    refuses with the new status in its message and [checkAvailability]
    answers no. *)
Theorem out_of_service_blocks_booking id st w eq' w' :
  updateEquipmentStatus id st w = (Ok eq', w') ->
  st <> AVAILABLE ->
  bookings w' = bookings w
  /\ forall now d,
       CreateBookingData.equipmentId d = id ->
       validateBookingDates now (CreateBookingData.startDate d)
                            (CreateBookingData.endDate d) = Ok tt ->
       createBooking now d w'
       = (Err (ValidationError ("Equipment is currently " ++ equipmentStatusName st)),
          w')
       /\ checkAvailability now id (CreateBookingData.startDate d)
            (CreateBookingData.endDate d) w' = (Ok false, w').
Proof.
  intros Hu Hst. apply updateEquipmentStatus_ok in Hu as (eq & Heq & -> & ->).
  split; [done|]. intros now d Hid Hv.
  unfold createBooking, checkAvailability. unfoldM. rewrite Hid, Hv.
  cbn [fst snd equipment equipmentRepository.setEquipment].
  rewrite lookup_insert_eq. cbn [Equipment.status].
  rewrite (bool_decide_eq_false_2 _ Hst). done.
Qed.

Lemma out_of_service_blocks_booking_witness :
  let w' := equipmentRepository.setEquipment (insert 0%nat inMaintenance) storeA in
  bookings w' = bookings storeA
  /\ forall now d,
       CreateBookingData.equipmentId d = 0%nat ->
       validateBookingDates now (CreateBookingData.startDate d)
                            (CreateBookingData.endDate d) = Ok tt ->
       createBooking now d w'
       = (Err (ValidationError
                 ("Equipment is currently " ++ equipmentStatusName MAINTENANCE)), w')
       /\ checkAvailability now 0%nat (CreateBookingData.startDate d)
            (CreateBookingData.endDate d) w' = (Ok false, w').
Proof.
  intros w'.
  refine (out_of_service_blocks_booking 0%nat MAINTENANCE storeA inMaintenance w' _ _).
  - vm_compute. reflexivity.
  - discriminate.
Defined.

(** X22: [deleteEquipment] does not look at the reservations: they stay as
    they are, live ones included, while the equipment they name is gone,
    so that no new reservation and no new price can be made for it. *)
Theorem deleteEquipment_orphans id w w' :
  deleteEquipment id w = (Ok tt, w') ->
  bookings w' = bookings w
  /\ equipment w' = delete id (equipment w)
  /\ (forall now d,
        CreateBookingData.equipmentId d = id ->
        validateBookingDates now (CreateBookingData.startDate d)
                             (CreateBookingData.endDate d) = Ok tt ->
        createBooking now d w' = (Err (NotFoundError "Equipment not found"), w'))
  /\ forall s e, calculateTotalAmount id s e w'
                 = (Err (NotFoundError "Equipment not found"), w').
Proof.
  unfold deleteEquipment. unfoldM. unfold equipmentRepository.deleteById.
  destruct (equipment w !! id) as [eq|] eqn:Heq; [|done].
  cbn. rewrite Heq. intros [= <-]. split_and!; try done.
  - intros now d Hid Hv. unfold createBooking. unfoldM. rewrite Hid, Hv. cbn.
    by rewrite lookup_delete_eq.
  - intros s e. unfold calculateTotalAmount. unfoldM. cbn.
    by rewrite lookup_delete_eq.
Qed.

Lemma deleteEquipment_orphans_witness :
  let w' := equipmentRepository.setEquipment (delete 0%nat) storeA in
  bookings w' = bookings storeA
  /\ equipment w' = delete 0%nat (equipment storeA)
  /\ (forall now d,
        CreateBookingData.equipmentId d = 0%nat ->
        validateBookingDates now (CreateBookingData.startDate d)
                             (CreateBookingData.endDate d) = Ok tt ->
        createBooking now d w' = (Err (NotFoundError "Equipment not found"), w'))
  /\ forall s e, calculateTotalAmount 0%nat s e w'
                 = (Err (NotFoundError "Equipment not found"), w').
Proof.
  intros w'. refine (deleteEquipment_orphans 0%nat storeA w' _).
  vm_compute. reflexivity.
Defined.

Lemma Qle_bool_false x y : Qle_bool x y = false -> (y < x)%Q.
Proof.
  intros H. apply Qnot_le_lt. intros Hle. apply Qle_bool_iff in Hle. congruence.
Qed.

(** X23: [updateEquipment] refuses a rate that is zero or negative and leaves
    the store alone then; whatever the patch, it keeps every stored rate
    positive and touches no reservation. *)
Theorem updateEquipment_keeps_rates_positive id rate st w :
  positiveRates w ->
  positiveRates (updateEquipment id rate st w).2
  /\ bookings (updateEquipment id rate st w).2 = bookings w
  /\ (forall r, rate = Some r -> (r <= 0)%Q -> is_Some (equipment w !! id) ->
        updateEquipment id rate st w = (Err (ValidationError msgRate), w)).
Proof.
  intros Hpos. unfold updateEquipment. unfoldM.
  destruct (equipment w !! id) as [eq|] eqn:Heq.
  2:{ split_and!; done. }
  destruct rate as [r|]; cbn [from_option].
  - destruct (Qle_bool r 0) eqn:Hr.
    + split_and!; try done.
    + apply Qle_bool_false in Hr.
      unfold equipmentRepository.updateById. cbn [from_option].
      assert (Qle_bool 0 r = true) as ->.
      { apply Qle_bool_iff. by apply Qlt_le_weak. }
      rewrite Heq. cbn. split_and!; try done.
      * intros i e. cbn. destruct (decide (i = id)) as [->|Hne].
        -- rewrite lookup_insert_eq. by intros [= <-].
        -- rewrite lookup_insert_ne by done. apply Hpos.
      * intros r' [= <-] Hle. exfalso. by apply (Qlt_not_le _ _ Hr).
  - unfold equipmentRepository.updateById. cbn [from_option]. rewrite Heq. cbn.
    split_and!; try done.
    intros i e. cbn. destruct (decide (i = id)) as [->|Hne].
    + rewrite lookup_insert_eq. intros [= <-]. cbn. by apply (Hpos id).
    + rewrite lookup_insert_ne by done. apply Hpos.
Qed.

Lemma positiveRates_emptyStore : positiveRates emptyStore.
Proof.
  intros id eq Heq.
  change (equipment emptyStore) with ({[ 0%nat := mixer ]}
                                    : gmap ObjectId Equipment.IEquipment) in Heq.
  apply lookup_singleton_Some in Heq as [_ <-]. reflexivity.
Defined.

Lemma updateEquipment_keeps_rates_positive_witness :
  positiveRates (updateEquipment 0%nat (Some 0%Q) None emptyStore).2
  /\ bookings (updateEquipment 0%nat (Some 0%Q) None emptyStore).2
     = bookings emptyStore
  /\ (forall r, Some 0%Q = Some r -> (r <= 0)%Q ->
        is_Some (equipment emptyStore !! 0%nat) ->
        updateEquipment 0%nat (Some 0%Q) None emptyStore
        = (Err (ValidationError msgRate), emptyStore)).
Proof.
  refine (updateEquipment_keeps_rates_positive 0%nat (Some 0%Q) None emptyStore _).
  exact positiveRates_emptyStore.
Defined.

(** X24: Over positive rates, every reservation [createBooking] stores has a
    price of at least one daily rate, and so a positive one. *)
Theorem createBooking_total_positive now d w id b w' :
  positiveRates w ->
  createBooking now d w = (Ok (id, b), w') ->
  exists eq, equipment w !! equipmentId b = Some eq
    /\ (Equipment.dailyRate eq <= totalAmount b)%Q
    /\ (0 < totalAmount b)%Q.
Proof.
  intros Hpos Hc.
  destruct (createBooking_ok_checks now d w id b w' Hc) as (Hv & (eq & Heq & Hst) & Hcc).
  rewrite (createBooking_after_checks now d w eq Hv Heq Hst Hcc) in Hc.
  unfold bookingRepository.create in Hc.
  destruct (_ && _)%bool; [|done]. injection Hc as <- <- <-.
  cbn. exists eq. split; [done|].
  destruct (validated_window _ _ _ Hv) as [_ Hd].
  pose proof (Hpos _ _ Heq) as Hr.
  assert (Hle : (Equipment.dailyRate eq
                 <= Equipment.dailyRate eq
                    * inject_Z (bookingDays (CreateBookingData.startDate d)
                                            (CreateBookingData.endDate d)))%Q).
  { rewrite <- (Qmult_1_r (Equipment.dailyRate eq)) at 1.
    rewrite !(Qmult_comm (Equipment.dailyRate eq)).
    apply Qmult_le_compat_r; [|by apply Qlt_le_weak].
    unfold Qle. simpl. lia. }
  split; [done|]. eapply Qlt_le_trans; done.
Qed.

Lemma createBooking_total_positive_witness :
  exists eq, equipment emptyStore !! equipmentId bookedA = Some eq
    /\ (Equipment.dailyRate eq <= totalAmount bookedA)%Q
    /\ (0 < totalAmount bookedA)%Q.
Proof.
  refine (createBooking_total_positive today reqA emptyStore 0%nat bookedA storeA _ _).
  - exact positiveRates_emptyStore.
  - vm_compute. reflexivity.
Defined.

(** ** A failed payment and the next attempt *)

(** X26: The failure webhook has no status guard: the payment that carries the
    intent is stored as failed whatever its status was, a succeeded or
    refunded one included; the reservations are not touched, and a
    notification is sent only when the reservation of the payment is
    stored. *)
Theorem handlePaymentFailure_spec now intent w pid p :
  payments w !! pid = Some p ->
  Payment.stripePaymentIntentId p = intent ->
  (forall pid' p', payments w !! pid' = Some p' ->
     Payment.stripePaymentIntentId p' = intent -> pid' = pid) ->
  let w1 := setPayments
              (insert pid (paymentRepository.withStatus now P_FAILED p)) w in
  handlePaymentFailure now intent w
  = (Ok tt, match bookings w !! Payment.bookingId p with
            | Some _ => addEvent (PaymentFailed pid) w1
            | None => w1
            end).
Proof.
  intros Hp Hi Huniq w1.
  pose proof (findByStripePaymentIntentId_unique _ _ _ _ Hp Hi Huniq) as Hf.
  unfold handlePaymentFailure, bind at 1. rewrite Hf.
  unfold paymentRepository.updateStatus, bind at 1. rewrite Hp.
  unfoldM. cbn. by destruct (bookings w !! Payment.bookingId p).
Qed.

Lemma handlePaymentFailure_spec_witness :
  let b := stored 1%nat (midnight 2025 6 8) (midnight 2025 6 11) CONFIRMED in
  let w := storeWith b (paymentFor P_SUCCEEDED) in
  let w1 := setPayments
              (insert 0%nat (paymentRepository.withStatus today P_FAILED
                               (paymentFor P_SUCCEEDED))) w in
  handlePaymentFailure today "pi_1" w
  = (Ok tt, match bookings w !! Payment.bookingId (paymentFor P_SUCCEEDED) with
            | Some _ => addEvent (PaymentFailed 0%nat) w1
            | None => w1
            end).
Proof.
  intros b w.
  refine (handlePaymentFailure_spec today "pi_1" w 0%nat (paymentFor P_SUCCEEDED)
            _ _ _).
  - reflexivity.
  - reflexivity.
  - intros pid' p' Hp _.
    change (payments w) with ({[ 0%nat := paymentFor P_SUCCEEDED ]}
                             : gmap ObjectId Payment.IPayment) in Hp.
    apply lookup_singleton_Some in Hp as [<- _]. reflexivity.
Defined.

(** X27: [createPaymentIntent] issues a new payment when the reservation is
    pending or confirmed, the caller is an admin, every payment stored
    for the reservation has failed, and the gateway creates an intent
    whose id is not empty and not yet stored: the new document is
    pending, for the total amount of the reservation, under a fresh id,
    and nothing else is written. *)
Theorem createPaymentIntent_new now retrieved iid secret data w b :
  bookings w !! CreatePaymentIntentData.bookingId data = Some b ->
  Booking.status b = PENDING \/ Booking.status b = CONFIRMED ->
  CreatePaymentIntentData.userRole data = "admin" ->
  (forall pid p, payments w !! pid = Some p ->
     Payment.bookingId p = CreatePaymentIntentData.bookingId data ->
     Payment.status p = P_FAILED) ->
  iid <> "" ->
  (forall pid p, payments w !! pid = Some p ->
     Payment.stripePaymentIntentId p <> iid) ->
  (0 <= totalAmount b)%Q ->
  let pid := fresh (dom (payments w)) in
  let p := {| Payment.bookingId := CreatePaymentIntentData.bookingId data;
              Payment.stripePaymentIntentId := iid;
              Payment.amount := totalAmount b;
              Payment.status := P_PENDING;
              Payment.refundAmount := None;
              Payment.refundDate := None;
              Payment.updatedAt := now |} in
  payments w !! pid = None
  /\ createPaymentIntent now retrieved (Some (iid, secret)) data w
     = (Ok ((pid, p), secret), setPayments (insert pid p) w).
Proof.
  intros Hb Hst Hauth Hfailed Hiid Hfresh Hamt pid p.
  split.
  { apply (not_elem_of_dom (D := gset ObjectId)). apply is_fresh. }
  unfold createPaymentIntent. unfold bind at 1.
  unfold bookingRepository.findById, gets. cbn [fst snd]. rewrite Hb.
  rewrite Hauth. cbn [String.eqb Ascii.eqb Bool.eqb negb andb].
  assert ((bool_decide (Booking.status b ≠ PENDING)
           && bool_decide (Booking.status b ≠ CONFIRMED))%bool = false) as ->.
  { apply andb_false_iff. destruct Hst as [H|H]; [left|right];
      apply bool_decide_eq_false; auto. }
  set (createNew := catchWith _ _).
  assert (Hnew : createNew w = (Ok ((pid, p), secret), setPayments (insert pid p) w)).
  { subst createNew. unfold catchWith, bind, stripeCreate, ret.
    unfold paymentRepository.create. cbn [fst snd Payment.stripePaymentIntentId
      Payment.amount Payment.bookingId Payment.status Payment.refundAmount
      Payment.refundDate].
    assert (nonEmpty iid = true) as -> by by destruct iid.
    assert (Qle_bool 0 (totalAmount b) = true) as -> by by apply Qle_bool_iff.
    rewrite bool_decide_eq_true_2; [done|].
    apply Forall_forall. intros [pid' p'] Hin.
    apply elem_of_map_to_list in Hin. by apply (Hfresh pid' p'). }
  unfold bind.
  destruct (paymentRepository.findByBookingId _ w) as [[[[pid0 existing]|]|e] w0] eqn:Hf.
  - pose proof (findByBookingId_world (CreatePaymentIntentData.bookingId data) w) as Hw.
    rewrite Hf in Hw. cbn in Hw. subst w0.
    apply findByBookingId_Some in Hf as [Hp Hbid].
    rewrite (Hfailed pid0 existing Hp Hbid).
    rewrite (bool_decide_eq_false_2 (P_FAILED <> P_FAILED)) by auto. exact Hnew.
  - pose proof (findByBookingId_world (CreatePaymentIntentData.bookingId data) w) as Hw.
    rewrite Hf in Hw. cbn in Hw. subst w0. exact Hnew.
  - discriminate Hf.
Qed.

Lemma createPaymentIntent_new_witness :
  let b := stored 1%nat (midnight 2025 6 8) (midnight 2025 6 11) PENDING in
  let w := storeWith b (paymentFor P_FAILED) in
  let data := {| CreatePaymentIntentData.bookingId := 0%nat;
                 CreatePaymentIntentData.userId := 9%nat;
                 CreatePaymentIntentData.userRole := "admin" |} in
  let pid := fresh (dom (payments w)) in
  let p := {| Payment.bookingId := 0%nat;
              Payment.stripePaymentIntentId := "pi_2";
              Payment.amount := totalAmount b;
              Payment.status := P_PENDING;
              Payment.refundAmount := None;
              Payment.refundDate := None;
              Payment.updatedAt := today |} in
  payments w !! pid = None
  /\ createPaymentIntent today None (Some ("pi_2", "secret_2")) data w
     = (Ok ((pid, p), "secret_2"), setPayments (insert pid p) w).
Proof.
  intros b w data.
  refine (createPaymentIntent_new today None "pi_2" "secret_2" data w b _ _ _ _ _ _ _).
  - reflexivity.
  - left. reflexivity.
  - reflexivity.
  - intros pid p Hp _.
    change (payments w) with ({[ 0%nat := paymentFor P_FAILED ]}
                             : gmap ObjectId Payment.IPayment) in Hp.
    apply lookup_singleton_Some in Hp as [_ <-]. reflexivity.
  - discriminate.
  - intros pid p Hp.
    change (payments w) with ({[ 0%nat := paymentFor P_FAILED ]}
                             : gmap ObjectId Payment.IPayment) in Hp.
    apply lookup_singleton_Some in Hp as [_ <-]. discriminate.
  - vm_compute. discriminate.
Defined.
